(** * TensorFlowTTS: dataset adapters and the GAN-based trainer

    A shallow embedding of
      - [tensorflow_tts/datasets/audio_mel_dataset.py]
        (AudioMelDataset, AudioDataset, MelDataset), and
      - [tensorflow_tts/trainers/base_trainer.py] (GanBasedTrainer),
    followed by the properties established about them.

    Python values are modelled as follows.  A path or utterance id is a
    [string] (a byte string: Python orders [str] by code point, and the
    byte-wise order of UTF-8 text is the code-point order).  A Python [int]
    is a [Z].  A list is a [list]; an index produced by [range] or
    [enumerate] is a [nat].  A raised exception is a value of [exn], and a
    computation that may raise returns a [result]. *)

From Stdlib Require Import List ZArith Lia Bool Ascii String DecimalString
  Permutation Sorted.
Import ListNotations.

Local Open Scope string_scope.
Local Open Scope list_scope.

(** ** Exceptions and fallible computations *)

Inductive exn : Type :=
| AssertionError (msg : string)       (* a failed [assert] *)
| IndexError                          (* list or tuple index out of range *)
| ZeroDivisionError                   (* [x % 0] *)
| AttributeError (attr : string)      (* an attribute that was never set *)
| UnboundLocalError (name : string)   (* a local read before assignment *)
| Propagated (class : string).        (* of the named class, raised by an
                                         injected callable or by the
                                         external runtime *)

(** The name of the class of an exception. *)
Definition class_name (e : exn) : string :=
  match e with
  | AssertionError _ => "AssertionError"
  | IndexError => "IndexError"
  | ZeroDivisionError => "ZeroDivisionError"
  | AttributeError _ => "AttributeError"
  | UnboundLocalError _ => "UnboundLocalError"
  | Propagated class => class
  end.

Inductive result (A : Type) : Type :=
| Ok (a : A)
| Raise (e : exn).
Arguments Ok {A} a.
Arguments Raise {A} e.

Definition rbind {A B : Type} (c : result A) (k : A -> result B) : result B :=
  match c with
  | Ok a => k a
  | Raise e => Raise e
  end.

Declare Scope result_scope.
Delimit Scope result_scope with result.
Notation "x <- c ;; k" := (rbind c (fun x => k))
  (at level 61, c at next level, right associativity) : result_scope.
Local Open Scope result_scope.

(** A list comprehension [[f(x) for x in l]] whose body may raise: the
    elements are evaluated left to right and the first exception ends it. *)
Fixpoint mapM {A B : Type} (f : A -> result B) (l : list A) : result (list B) :=
  match l with
  | [] => Ok []
  | x :: rest =>
      y <- f x ;;
      ys <- mapM f rest ;;
      Ok (y :: ys)
  end.

(** [l[idx]] for a non-negative [idx]. *)
Definition getitem {A : Type} (l : list A) (idx : nat) : result A :=
  match nth_error l idx with
  | Some x => Ok x
  | None => Raise IndexError
  end.

(** ** Arrays returned by the loader functions

    Only the shape of an array is inspected by the code; its contents are
    kept as an uninterpreted buffer. *)

Record ndarray : Type := mk_ndarray {
  shape : list Z;
  buffer : list Z
}.

(** [a.shape[0]] *)
Definition leading_dim (a : ndarray) : result Z := getitem (shape a) 0.

(** A loader function: [path -> array], possibly raising. *)
Definition loader : Type := string -> result ndarray.

(** ** [sorted] on a list of paths *)

Fixpoint insert_sorted (x : string) (l : list string) : list string :=
  match l with
  | [] => [x]
  | y :: rest => if (x <=? y)%string then x :: l else y :: insert_sorted x rest
  end.

(** [sorted(l)]: ascending lexicographic order. *)
Fixpoint sorted (l : list string) : list string :=
  match l with
  | [] => []
  | x :: rest => insert_sorted x (sorted rest)
  end.

(** ** String operations of the Python runtime used by the adapters *)

(** [s.rfind(c)] for a one-character [c]: the highest index of [c] in [s],
    or [-1]. *)
Fixpoint rfind (c : ascii) (s : string) : Z :=
  match s with
  | EmptyString => (-1)%Z
  | String a rest =>
      let r := rfind c rest in
      if (0 <=? r)%Z then (r + 1)%Z
      else if Ascii.eqb a c then 0%Z else (-1)%Z
  end.

(** [s[i:]] and [s[:i]] for a non-negative [i]. *)
Fixpoint slice_from (i : nat) (s : string) : string :=
  match i, s with
  | O, _ => s
  | S _, EmptyString => EmptyString
  | S k, String _ rest => slice_from k rest
  end.

Fixpoint slice_to (i : nat) (s : string) : string :=
  match i, s with
  | O, _ => EmptyString
  | S _, EmptyString => EmptyString
  | S k, String a rest => String a (slice_to k rest)
  end.

(** [os.path.basename(p)]: [i = p.rfind('/') + 1; return p[i:]]. *)
Definition basename (p : string) : string :=
  slice_from (Z.to_nat (rfind "/"%char p + 1)) p.

(** The scan of [os.path.splitext] over the leading dots of the file name:
    [true] when one of the [n] characters from [filenameIndex] on is not a
    dot. *)
Fixpoint splitext_scan (p : string) (filenameIndex n : nat) : bool :=
  match n with
  | O => false
  | S k =>
      if negb (String.eqb (slice_to 1 (slice_from filenameIndex p)) ".")
      then true
      else splitext_scan p (S filenameIndex) k
  end.

(** [os.path.splitext(p)]: split at the last dot, unless that dot comes
    before the last separator or only dots precede it in the file name. *)
Definition splitext (p : string) : string * string :=
  let sepIndex := rfind "/"%char p in
  let dotIndex := rfind "."%char p in
  if (sepIndex <? dotIndex)%Z
     && splitext_scan p (Z.to_nat (sepIndex + 1))
                      (Z.to_nat (dotIndex - (sepIndex + 1)))
  then (slice_to (Z.to_nat dotIndex) p, slice_from (Z.to_nat dotIndex) p)
  else (p, EmptyString).

(** [s.replace(old, new)] for a non-empty [old]: every occurrence of [old],
    found left to right without overlap, is replaced.  [skip] counts the
    characters of the current occurrence still to be dropped. *)
Fixpoint replace_from (old new : string) (skip : nat) (s : string) : string :=
  match s with
  | EmptyString => EmptyString
  | String c rest =>
      match skip with
      | S k => replace_from old new k rest
      | O =>
          if prefix old s
          then new ++ replace_from old new (String.length old - 1) rest
          else String c (replace_from old new 0 rest)
      end
  end.

Definition replace (old new s : string) : string := replace_from old new 0 s.

(** [sub in s] *)
Fixpoint contains (sub s : string) : bool :=
  prefix sub s ||
  match s with
  | EmptyString => false
  | String _ rest => contains sub rest
  end.

(** [str(n)] for a list length. *)
Definition str_of_nat (n : nat) : string :=
  DecimalString.NilZero.string_of_uint (Nat.to_uint n).

(** ** Length filtering

    The comprehensions shared by the three constructors. *)

(** [[x for x in l if p(x)]] with a condition that may raise. *)
Fixpoint filterM {A : Type} (p : A -> result bool) (l : list A)
  : result (list A) :=
  match l with
  | [] => Ok []
  | x :: rest =>
      b <- p x ;;
      ys <- filterM p rest ;;
      Ok (if b then x :: ys else ys)
  end.

(** [load_fn(f).shape[0]] *)
Definition length_of (load_fn : loader) (f : string) : result Z :=
  a <- load_fn f ;; leading_dim a.

(** [[load_fn(f).shape[0] for f in files]] *)
Definition load_lengths (load_fn : loader) (files : list string)
  : result (list Z) :=
  mapM (length_of load_fn) files.

(** [[idx for idx in range(len(files)) if lengths[idx] > threshold]] *)
Definition retained_idxs (files : list string) (lengths : list Z)
  (threshold : Z) : result (list nat) :=
  filterM (fun idx => len <- getitem lengths idx ;; Ok (len >? threshold)%Z)
          (seq 0 (List.length files)).

(** [[files[idx] for idx in idxs]] *)
Definition take_idxs (files : list string) (idxs : list nat)
  : result (list string) :=
  mapM (getitem files) idxs.

(** ** Utterance ids

    [find_files], from [tensorflow_tts.utils], lists the files under a root
    directory that match a query.  The constructors receive it as a
    parameter: they depend on nothing but the list it returns. *)

Definition file_finder : Type := string -> string -> list string.

(** [os.path.basename(f).replace(suffix, "")] *)
Definition utt_id_npy (suffix f : string) : string :=
  replace suffix "" (basename f).

(** [os.path.splitext(os.path.basename(f))[0]] *)
Definition utt_id_generic (f : string) : string :=
  fst (splitext (basename f)).

(** An item yielded by a generator: with the utterance id when
    [return_utt_id] is set, without it otherwise. *)
Inductive items (A : Type) : Type :=
| WithId (utt_id : string) (arrays : A)
| Arrays (arrays : A).
Arguments WithId {A} utt_id arrays.
Arguments Arrays {A} arrays.

(** A generator driven until it stops: the items yielded, in order, and the
    exception that ended it, if one did. *)
Definition run (A : Type) : Type := (list (items A) * option exn)%type.

(** The element types declared to the batching layer.  A parenthesised
    expression without a comma, as in [(tf.float32)], is the dtype itself
    and not a tuple. *)
Inductive dtype : Type := float32 | tf_string.

Inductive output_types : Type :=
| OneType (d : dtype)
| TypeTuple (ds : list dtype).

(** [*output_types] inside a tuple display: the elements of a tuple; a
    dtype is not iterable and unpacking it raises [TypeError]. *)
Definition unpack (v : output_types) : result (list dtype) :=
  match v with
  | TypeTuple ds => Ok ds
  | OneType _ => Raise (Propagated "TypeError")
  end.

(** ** AudioMelDataset *)

Module AudioMelDataset.

Record t : Type := mk {
  utt_ids : list string;
  audio_files : list string;
  mel_files : list string;
  audio_load_fn : loader;
  mel_load_fn : loader;
  return_utt_id : bool
}.

(** Lines 52-59: the audio threshold.  The indices kept are computed from
    the audio lengths and select from both lists. *)
Definition filter_by_audio_length (audio_load_fn : loader)
  (audio_length_threshold : Z) (audio_files mel_files : list string)
  : result (list string * list string) :=
  audio_lengths <- load_lengths audio_load_fn audio_files ;;
  idxs <- retained_idxs audio_files audio_lengths audio_length_threshold ;;
  audio_files' <- take_idxs audio_files idxs ;;
  mel_files' <- take_idxs mel_files idxs ;;
  Ok (audio_files', mel_files').

(** Lines 60-67: the mel threshold, computed from the mel lengths. *)
Definition filter_by_mel_length (mel_load_fn : loader)
  (mel_length_threshold : Z) (audio_files mel_files : list string)
  : result (list string * list string) :=
  mel_lengths <- load_lengths mel_load_fn mel_files ;;
  idxs <- retained_idxs mel_files mel_lengths mel_length_threshold ;;
  audio_files' <- take_idxs audio_files idxs ;;
  mel_files' <- take_idxs mel_files idxs ;;
  Ok (audio_files', mel_files').

(** Lines 47-67: discovery, then the two thresholds in turn. *)
Definition filtered_files (find_files : file_finder)
  (root_dir audio_query mel_query : string)
  (audio_load_fn mel_load_fn : loader)
  (audio_length_threshold mel_length_threshold : option Z)
  : result (list string * list string) :=
  let audio_files := sorted (find_files root_dir audio_query) in
  let mel_files := sorted (find_files root_dir mel_query) in
  filtered <-
    match audio_length_threshold with
    | Some threshold =>
        filter_by_audio_length audio_load_fn threshold audio_files mel_files
    | None => Ok (audio_files, mel_files)
    end ;;
  match mel_length_threshold with
  | Some threshold =>
      filter_by_mel_length mel_load_fn threshold
                           (fst filtered) (snd filtered)
  | None => Ok filtered
  end.

Definition __init__ (find_files : file_finder)
  (root_dir audio_query mel_query : string)
  (audio_load_fn mel_load_fn : loader)
  (audio_length_threshold mel_length_threshold : option Z)
  (return_utt_id : bool) : result t :=
  filtered <-
    filtered_files find_files root_dir audio_query mel_query
                   audio_load_fn mel_load_fn
                   audio_length_threshold mel_length_threshold ;;
  let audio_files := fst filtered in
  let mel_files := snd filtered in
  (* assert the number of files *)
  if (List.length audio_files =? 0)%nat then
    Raise (AssertionError
             ("Not found any audio files in $" ++ root_dir ++ "."))
  else if negb (List.length audio_files =? List.length mel_files)%nat then
    Raise (AssertionError
             ("Number of audio and mel files are different ("
              ++ str_of_nat (List.length audio_files) ++ " vs "
              ++ str_of_nat (List.length mel_files) ++ ")."))
  else
    let utt_ids :=
      if contains ".npy" audio_query
      then map (utt_id_npy "-wave.npy") audio_files
      else map utt_id_generic audio_files in
    Ok {| utt_ids := utt_ids;
          audio_files := audio_files;
          mel_files := mel_files;
          audio_load_fn := audio_load_fn;
          mel_load_fn := mel_load_fn;
          return_utt_id := return_utt_id |}.

Definition get_args (self : t) : list (list string) := [utt_ids self].

(** The body of the loop of [generator] at position [i]. *)
Definition generator_body (self : t) (i : nat) (utt_id : string)
  : result (items (ndarray * ndarray)) :=
  audio_file <- getitem (audio_files self) i ;;
  mel_file <- getitem (mel_files self) i ;;
  audio <- audio_load_fn self audio_file ;;
  mel <- mel_load_fn self mel_file ;;
  Ok (if return_utt_id self
      then WithId utt_id (audio, mel)
      else Arrays (audio, mel)).

(** [for i, utt_id in enumerate(utt_ids)], entered at position [i]. *)
Fixpoint generator_from (self : t) (i : nat) (utt_ids : list string)
  : run (ndarray * ndarray) :=
  match utt_ids with
  | [] => ([], None)
  | utt_id :: rest =>
      match generator_body self i utt_id with
      | Raise e => ([], Some e)
      | Ok it =>
          let (yielded, stop) := generator_from self (S i) rest in
          (it :: yielded, stop)
      end
  end.

Definition generator (self : t) (utt_ids : list string)
  : run (ndarray * ndarray) :=
  generator_from self 0 utt_ids.

Definition get_output_dtypes (self : t) : result output_types :=
  let output_types := TypeTuple [float32; float32] in
  if return_utt_id self then
    rest <- unpack output_types ;;
    Ok (TypeTuple (tf_string :: rest))
  else Ok output_types.

Definition get_len_dataset (self : t) : nat := List.length (utt_ids self).

Definition __name__ (self : t) : string := "AudioMelDataset".

End AudioMelDataset.

(** ** AudioDataset *)

Module AudioDataset.

Record t : Type := mk {
  utt_ids : list string;
  audio_files : list string;
  audio_load_fn : loader;
  return_utt_id : bool
}.

(** Lines 139-145. *)
Definition filter_by_audio_length (audio_load_fn : loader)
  (audio_length_threshold : Z) (audio_files : list string)
  : result (list string) :=
  audio_lengths <- load_lengths audio_load_fn audio_files ;;
  idxs <- retained_idxs audio_files audio_lengths audio_length_threshold ;;
  take_idxs audio_files idxs.

Definition __init__ (find_files : file_finder)
  (root_dir audio_query : string) (audio_load_fn : loader)
  (audio_length_threshold : option Z) (return_utt_id : bool) : result t :=
  let audio_files := sorted (find_files root_dir audio_query) in
  audio_files <-
    match audio_length_threshold with
    | Some threshold =>
        filter_by_audio_length audio_load_fn threshold audio_files
    | None => Ok audio_files
    end ;;
  if (List.length audio_files =? 0)%nat then
    Raise (AssertionError
             ("Not found any audio files in $" ++ root_dir ++ "."))
  else
    let utt_ids :=
      if contains ".npy" audio_query
      then map (utt_id_npy "-wave.npy") audio_files
      else map utt_id_generic audio_files in
    Ok {| utt_ids := utt_ids;
          audio_files := audio_files;
          audio_load_fn := audio_load_fn;
          return_utt_id := return_utt_id |}.

Definition get_args (self : t) : list (list string) := [utt_ids self].

Definition generator_body (self : t) (i : nat) (utt_id : string)
  : result (items ndarray) :=
  audio_file <- getitem (audio_files self) i ;;
  audio <- audio_load_fn self audio_file ;;
  Ok (if return_utt_id self then WithId utt_id audio else Arrays audio).

Fixpoint generator_from (self : t) (i : nat) (utt_ids : list string)
  : run ndarray :=
  match utt_ids with
  | [] => ([], None)
  | utt_id :: rest =>
      match generator_body self i utt_id with
      | Raise e => ([], Some e)
      | Ok it =>
          let (yielded, stop) := generator_from self (S i) rest in
          (it :: yielded, stop)
      end
  end.

Definition generator (self : t) (utt_ids : list string) : run ndarray :=
  generator_from self 0 utt_ids.

Definition get_output_dtypes (self : t) : result output_types :=
  let output_types := OneType float32 in
  if return_utt_id self then
    rest <- unpack output_types ;;
    Ok (TypeTuple (tf_string :: rest))
  else Ok output_types.

Definition __name__ (self : t) : string := "AudioDataset".

End AudioDataset.

(** ** MelDataset *)

Module MelDataset.

Record t : Type := mk {
  utt_ids : list string;
  mel_files : list string;
  mel_load_fn : loader;
  return_utt_id : bool
}.

(** Lines 208-214. *)
Definition filter_by_mel_length (mel_load_fn : loader)
  (mel_length_threshold : Z) (mel_files : list string)
  : result (list string) :=
  mel_lengths <- load_lengths mel_load_fn mel_files ;;
  idxs <- retained_idxs mel_files mel_lengths mel_length_threshold ;;
  take_idxs mel_files idxs.

Definition __init__ (find_files : file_finder)
  (root_dir mel_query : string) (mel_load_fn : loader)
  (mel_length_threshold : option Z) (return_utt_id : bool) : result t :=
  let mel_files := sorted (find_files root_dir mel_query) in
  mel_files <-
    match mel_length_threshold with
    | Some threshold =>
        filter_by_mel_length mel_load_fn threshold mel_files
    | None => Ok mel_files
    end ;;
  if (List.length mel_files =? 0)%nat then
    Raise (AssertionError
             ("Not found any mel files in $" ++ root_dir ++ "."))
  else
    let utt_ids :=
      if contains ".npy" mel_query
      then map (utt_id_npy "-feats.npy") mel_files
      else map utt_id_generic mel_files in
    Ok {| utt_ids := utt_ids;
          mel_files := mel_files;
          mel_load_fn := mel_load_fn;
          return_utt_id := return_utt_id |}.

Definition get_args (self : t) : list (list string) := [utt_ids self].

Definition generator_body (self : t) (i : nat) (utt_id : string)
  : result (items ndarray) :=
  mel_file <- getitem (mel_files self) i ;;
  mel <- mel_load_fn self mel_file ;;
  Ok (if return_utt_id self then WithId utt_id mel else Arrays mel).

Fixpoint generator_from (self : t) (i : nat) (utt_ids : list string)
  : run ndarray :=
  match utt_ids with
  | [] => ([], None)
  | utt_id :: rest =>
      match generator_body self i utt_id with
      | Raise e => ([], Some e)
      | Ok it =>
          let (yielded, stop) := generator_from self (S i) rest in
          (it :: yielded, stop)
      end
  end.

Definition generator (self : t) (utt_ids : list string) : run ndarray :=
  generator_from self 0 utt_ids.

Definition get_output_dtypes (self : t) : result output_types :=
  let output_types := OneType float32 in
  if return_utt_id self then
    rest <- unpack output_types ;;
    Ok (TypeTuple (tf_string :: rest))
  else Ok output_types.

Definition __name__ (self : t) : string := "MelDataset".

End MelDataset.

(** ** GanBasedTrainer

    The trainer is modelled by explicit state passing.  The state threaded
    through a method is a [World]: the trainer object [self], the contents
    of the checkpoint directory, and the trace of the calls made so far,
    which is kept for the statements only and read by no method.

    What lies outside the file is taken as a parameter:
      - the type of a batch and the type of the state of a model or of an
        optimizer, neither of which the trainer inspects;
      - the abstract methods of the class, as [Hooks];
      - the persistence of checkpoints ([tf.train.Checkpoint] and
        [tf.train.CheckpointManager]), as [Persistence]. *)

(** The recognised keys of the configuration dictionary. *)
Record Config : Type := mk_Config {
  outdir : string;
  train_max_steps : Z;
  eval_interval_steps : Z;
  save_interval_steps : Z;
  rank : Z
}.

(** Models and optimizers are objects shared by reference between the
    trainer and its checkpoint. *)
Definition ref : Type := nat.

(** [tf.train.Checkpoint(steps=tf.Variable(1), epochs=tf.Variable(1),
    generator=..., discriminator=..., gen_optimizer=..., dis_optimizer=...)]:
    two integer variables of its own and four tracked objects. *)
Module Checkpoint.
Record t : Type := mk {
  steps : Z;
  epochs : Z;
  generator : ref;
  discriminator : ref;
  gen_optimizer : ref;
  dis_optimizer : ref
}.
End Checkpoint.

(** [tf.train.CheckpointManager(ckpt, saved_path, max_to_keep=...)] *)
Module CheckpointManager.
Record t : Type := mk {
  directory : string;
  max_to_keep : Z
}.
End CheckpointManager.

(** What a saved checkpoint holds. *)
Module Snapshot.
Record t (Weights : Type) : Type := mk {
  steps : Z;
  epochs : Z;
  generator : Weights;
  discriminator : Weights;
  gen_optimizer : Weights;
  dis_optimizer : Weights
}.
Arguments mk {Weights}.
Arguments steps {Weights}.
Arguments epochs {Weights}.
Arguments generator {Weights}.
Arguments discriminator {Weights}.
Arguments gen_optimizer {Weights}.
Arguments dis_optimizer {Weights}.
End Snapshot.

(** The external persistence mechanism.  [manager_save] is
    [CheckpointManager.save(checkpoint_number=n)]: it writes a snapshot and
    returns the path written.  [restore] is [Checkpoint.restore(path)]: the
    snapshot stored under a path, when the path is a checkpoint. *)
Record Persistence (Weights : Type) : Type := mk_Persistence {
  Store : Type;
  manager_save : CheckpointManager.t -> Z -> Snapshot.t Weights -> Store ->
                 Store * string;
  restore : string -> Store -> option (Snapshot.t Weights)
}.
Arguments Store {Weights}.
Arguments manager_save {Weights}.
Arguments restore {Weights}.

(** The guarantee assumed of the persistence mechanism: the checkpoint
    just written restores to what was written. *)
Definition round_trip {Weights : Type} (P : Persistence Weights) : Prop :=
  forall mgr n snap st,
    restore P (snd (manager_save P mgr n snap st))
              (fst (manager_save P mgr n snap st)) = Some snap.

Module GanBasedTrainer.

Section Trainer.

Variables Batch Weights : Type.

(** The attributes of a trainer.  An attribute assigned outside
    [__init__] is absent until its setter has run; [objects] holds the
    state of the objects the references point to. *)
Record t : Type := mk {
  steps : Z;
  epochs : Z;
  config : Config;
  finish_train : bool;
  is_generator_mixed_precision : bool;
  is_discriminator_mixed_precision : bool;
  train_data_loader : option (list Batch);
  eval_data_loader : option (list Batch);
  generator : option ref;
  discriminator : option ref;
  gen_optimizer : option ref;
  dis_optimizer : option ref;
  ckpt : option Checkpoint.t;
  ckp_manager : option CheckpointManager.t;
  tqdm : option Z;
  train_steps_per_epoch : option Z;
  objects : ref -> Weights
}.

(** The abstract methods, supplied by a subclass.  Each is total and
    acts on the trainer object. *)
Record Hooks : Type := mk_Hooks {
  _train_step : Batch -> t -> t;
  _eval_epoch : t -> t;
  _check_log_interval : t -> t;
  _check_train_finish : t -> t
}.

(** The calls observed during training; an evaluation and a save carry
    the value of [steps] at the call. *)
Inductive event : Type :=
| Call_train_step (batch : Batch)
| Call_check_train_finish
| Call_check_log_interval
| Call_check_eval_interval
| Call_eval_epoch (at_steps : Z)
| Call_check_save_interval
| Call_save_checkpoint (at_steps : Z).

Variable P : Persistence Weights.
Variable hooks : Hooks.

Record World : Type := mk_World {
  self : t;
  disk : Store P;
  trace : list event
}.

(** A method either returns or raises; the state reached is kept in both
    cases. *)
Inductive outcome (A : Type) : Type :=
| Returns (a : A) (w : World)
| Raises (e : exn) (w : World).
Arguments Returns {A} a w.
Arguments Raises {A} e w.

Definition M (A : Type) : Type := World -> outcome A.

Definition ret {A : Type} (a : A) : M A := fun w => Returns a w.

Definition bind {A B : Type} (c : M A) (k : A -> M B) : M B :=
  fun w =>
    match c w with
    | Returns a w' => k a w'
    | Raises e w' => Raises e w'
    end.

Definition raise {A : Type} (e : exn) : M A := fun w => Raises e w.

Notation "x <- c ;; k" := (bind c (fun x => k))
  (at level 61, c at next level, right associativity).
Notation "c ;; k" := (bind c (fun _ => k))
  (at level 61, right associativity).

(** Reading and updating the trainer object. *)
Definition gets {A : Type} (f : t -> A) : M A := fun w => Returns (f (self w)) w.

Definition modify (f : t -> t) : M unit :=
  fun w => Returns tt (mk_World (f (self w)) (disk w) (trace w)).

(** Reading an attribute that a setter may not have assigned yet. *)
Definition attr {A : Type} (f : t -> option A) (name : string) : M A :=
  fun w =>
    match f (self w) with
    | Some a => Returns a w
    | None => Raises (AttributeError name) w
    end.

Definition observe (e : event) : M unit :=
  fun w => Returns tt (mk_World (self w) (disk w) (trace w ++ [e])).

(** Field updates. *)
Definition set_steps (v : Z) (s : t) : t :=
  mk v (epochs s) (config s) (finish_train s)
     (is_generator_mixed_precision s) (is_discriminator_mixed_precision s)
     (train_data_loader s) (eval_data_loader s)
     (generator s) (discriminator s) (gen_optimizer s) (dis_optimizer s)
     (ckpt s) (ckp_manager s) (tqdm s) (train_steps_per_epoch s)
     (objects s).

Definition set_epochs (v : Z) (s : t) : t :=
  mk (steps s) v (config s) (finish_train s)
     (is_generator_mixed_precision s) (is_discriminator_mixed_precision s)
     (train_data_loader s) (eval_data_loader s)
     (generator s) (discriminator s) (gen_optimizer s) (dis_optimizer s)
     (ckpt s) (ckp_manager s) (tqdm s) (train_steps_per_epoch s)
     (objects s).

Definition set_models (g d go do_ : option ref) (s : t) : t :=
  mk (steps s) (epochs s) (config s) (finish_train s)
     (is_generator_mixed_precision s) (is_discriminator_mixed_precision s)
     (train_data_loader s) (eval_data_loader s)
     g d go do_
     (ckpt s) (ckp_manager s) (tqdm s) (train_steps_per_epoch s)
     (objects s).

Definition set_ckpt (v : option Checkpoint.t) (s : t) : t :=
  mk (steps s) (epochs s) (config s) (finish_train s)
     (is_generator_mixed_precision s) (is_discriminator_mixed_precision s)
     (train_data_loader s) (eval_data_loader s)
     (generator s) (discriminator s) (gen_optimizer s) (dis_optimizer s)
     v (ckp_manager s) (tqdm s) (train_steps_per_epoch s)
     (objects s).

Definition set_ckp_manager (v : option CheckpointManager.t) (s : t) : t :=
  mk (steps s) (epochs s) (config s) (finish_train s)
     (is_generator_mixed_precision s) (is_discriminator_mixed_precision s)
     (train_data_loader s) (eval_data_loader s)
     (generator s) (discriminator s) (gen_optimizer s) (dis_optimizer s)
     (ckpt s) v (tqdm s) (train_steps_per_epoch s)
     (objects s).

Definition set_tqdm (v : option Z) (s : t) : t :=
  mk (steps s) (epochs s) (config s) (finish_train s)
     (is_generator_mixed_precision s) (is_discriminator_mixed_precision s)
     (train_data_loader s) (eval_data_loader s)
     (generator s) (discriminator s) (gen_optimizer s) (dis_optimizer s)
     (ckpt s) (ckp_manager s) v (train_steps_per_epoch s)
     (objects s).

Definition set_train_steps_per_epoch (v : option Z) (s : t) : t :=
  mk (steps s) (epochs s) (config s) (finish_train s)
     (is_generator_mixed_precision s) (is_discriminator_mixed_precision s)
     (train_data_loader s) (eval_data_loader s)
     (generator s) (discriminator s) (gen_optimizer s) (dis_optimizer s)
     (ckpt s) (ckp_manager s) (tqdm s) v
     (objects s).

Definition set_objects (v : ref -> Weights) (s : t) : t :=
  mk (steps s) (epochs s) (config s) (finish_train s)
     (is_generator_mixed_precision s) (is_discriminator_mixed_precision s)
     (train_data_loader s) (eval_data_loader s)
     (generator s) (discriminator s) (gen_optimizer s) (dis_optimizer s)
     (ckpt s) (ckp_manager s) (tqdm s) (train_steps_per_epoch s)
     v.

(** Writing the state of one object. *)
Definition store_object (r : ref) (v : Weights) (objs : ref -> Weights)
  : ref -> Weights :=
  fun r' => if Nat.eqb r' r then v else objs r'.

(** [__init__]: the counters and the configuration are taken from the
    caller, [finish_train] starts false, and every other attribute is
    absent.  The summary writer, which only [_write_to_tensorboard] uses,
    is left out of the state. *)
Definition __init__ (steps epochs : Z) (config : Config)
  (is_generator_mixed_precision is_discriminator_mixed_precision : bool)
  (objects : ref -> Weights) : t :=
  mk steps epochs config false
     is_generator_mixed_precision is_discriminator_mixed_precision
     None None None None None None None None None None objects.

Definition set_loaders (tr ev : option (list Batch)) (s : t) : t :=
  mk (steps s) (epochs s) (config s) (finish_train s)
     (is_generator_mixed_precision s) (is_discriminator_mixed_precision s)
     tr ev
     (generator s) (discriminator s) (gen_optimizer s) (dis_optimizer s)
     (ckpt s) (ckp_manager s) (tqdm s) (train_steps_per_epoch s)
     (objects s).

(** The setters and getters.  A getter reads the attribute its setter
    assigns and raises when the setter has not run. *)
Definition set_train_data_loader (train_dataset : list Batch) : M unit :=
  modify (fun s => set_loaders (Some train_dataset) (eval_data_loader s) s).

Definition get_train_data_loader : M (list Batch) :=
  attr train_data_loader "train_data_loader".

Definition set_eval_data_loader (eval_dataset : list Batch) : M unit :=
  modify (fun s => set_loaders (train_data_loader s) (Some eval_dataset) s).

Definition get_eval_data_loader : M (list Batch) :=
  attr eval_data_loader "eval_data_loader".

Definition set_gen_model (generator_model : ref) : M unit :=
  modify (fun s => set_models (Some generator_model) (discriminator s)
                              (gen_optimizer s) (dis_optimizer s) s).

Definition get_gen_model : M ref := attr generator "generator".

Definition set_dis_model (discriminator_model : ref) : M unit :=
  modify (fun s => set_models (generator s) (Some discriminator_model)
                              (gen_optimizer s) (dis_optimizer s) s).

Definition get_dis_model : M ref := attr discriminator "discriminator".

(** [tf.keras.mixed_precision.experimental.LossScaleOptimizer(opt,
    'dynamic')]: the object that wraps an optimizer, built by the external
    runtime. *)
Variable LossScaleOptimizer : ref -> ref.

Definition set_gen_optimizer (generator_optimizer : ref) : M unit :=
  modify (fun s => set_models (generator s) (discriminator s)
                              (Some generator_optimizer)
                              (dis_optimizer s) s) ;;
  mixed <- gets is_generator_mixed_precision ;;
  if (mixed : bool) then
    o <- attr gen_optimizer "gen_optimizer" ;;
    modify (fun s => set_models (generator s) (discriminator s)
                                (Some (LossScaleOptimizer o))
                                (dis_optimizer s) s)
  else ret tt.

Definition get_gen_optimizer : M ref := attr gen_optimizer "gen_optimizer".

Definition set_dis_optimizer (discriminator_optimizer : ref) : M unit :=
  modify (fun s => set_models (generator s) (discriminator s)
                              (gen_optimizer s)
                              (Some discriminator_optimizer) s) ;;
  mixed <- gets is_discriminator_mixed_precision ;;
  if (mixed : bool) then
    o <- attr dis_optimizer "dis_optimizer" ;;
    modify (fun s => set_models (generator s) (discriminator s)
                                (gen_optimizer s)
                                (Some (LossScaleOptimizer o)) s)
  else ret tt.

Definition get_dis_optimizer : M ref := attr dis_optimizer "dis_optimizer".

(** [generate_and_save_intermediate_result]: its body is [pass]. *)
Definition generate_and_save_intermediate_result (batch : Batch) : M unit :=
  ret tt.

(** [create_checkpoint_manager]: the checkpoint tracks the objects the
    trainer refers to at this moment, and its two variables start at 1. *)
Definition create_checkpoint_manager (saved_path : option string)
  (max_to_keep : Z) : M unit :=
  c <- gets config ;;
  let saved_path :=
    match saved_path with
    | Some p => p
    | None => (outdir c ++ "/checkpoints/")%string
    end in
  g <- attr generator "generator" ;;
  d <- attr discriminator "discriminator" ;;
  go <- attr gen_optimizer "gen_optimizer" ;;
  do_ <- attr dis_optimizer "dis_optimizer" ;;
  modify (set_ckpt (Some (Checkpoint.mk 1 1 g d go do_))) ;;
  modify (set_ckp_manager
            (Some (CheckpointManager.mk saved_path max_to_keep))).

(** The values a save writes: the two variables of the checkpoint and
    the current state of the objects it tracks. *)
Definition snapshot_of (ck : Checkpoint.t) (objs : ref -> Weights)
  : Snapshot.t Weights :=
  Snapshot.mk (Checkpoint.steps ck) (Checkpoint.epochs ck)
              (objs (Checkpoint.generator ck))
              (objs (Checkpoint.discriminator ck))
              (objs (Checkpoint.gen_optimizer ck))
              (objs (Checkpoint.dis_optimizer ck)).

(** [self.ckpt.steps.assign(v)] and [self.ckpt.epochs.assign(v)] *)
Definition ckpt_steps_assign (v : Z) : M unit :=
  ck <- attr ckpt "ckpt" ;;
  modify (set_ckpt (Some (Checkpoint.mk v (Checkpoint.epochs ck)
            (Checkpoint.generator ck) (Checkpoint.discriminator ck)
            (Checkpoint.gen_optimizer ck) (Checkpoint.dis_optimizer ck)))).

Definition ckpt_epochs_assign (v : Z) : M unit :=
  ck <- attr ckpt "ckpt" ;;
  modify (set_ckpt (Some (Checkpoint.mk (Checkpoint.steps ck) v
            (Checkpoint.generator ck) (Checkpoint.discriminator ck)
            (Checkpoint.gen_optimizer ck) (Checkpoint.dis_optimizer ck)))).

(** [self.ckp_manager.save(checkpoint_number=n)]: the manager saves the
    checkpoint it was created with, which is [self.ckpt]. *)
Definition ckp_manager_save (checkpoint_number : Z) : M string :=
  mgr <- attr ckp_manager "ckp_manager" ;;
  ck <- attr ckpt "ckpt" ;;
  objs <- gets objects ;;
  fun w =>
    let (st, path) :=
      manager_save P mgr checkpoint_number (snapshot_of ck objs) (disk w) in
    Returns path (mk_World (self w) st (trace w)).

(** The statements of [save_checkpoint], keeping the path that
    [ckp_manager.save] returns. *)
Definition save_checkpoint_path : M string :=
  s <- gets steps ;;
  ckpt_steps_assign s ;;
  e <- gets epochs ;;
  ckpt_epochs_assign e ;;
  s <- gets steps ;;
  ckp_manager_save s.

(** [save_checkpoint] discards the path and returns [None]. *)
Definition save_checkpoint : M unit :=
  _ <- save_checkpoint_path ;;
  ret tt.

(** [self.ckpt.restore(path)]: the saved values are written into the
    variables of the checkpoint and into the objects it tracks; a path that
    is no checkpoint makes the persistence layer raise. *)
Definition ckpt_restore (pretrained_path : string) : M unit :=
  ck <- attr ckpt "ckpt" ;;
  fun w =>
    match restore P pretrained_path (disk w) with
    | None => Raises (Propagated "NotFoundError") w
    | Some snap =>
        let objs :=
          store_object (Checkpoint.dis_optimizer ck)
                       (Snapshot.dis_optimizer snap)
            (store_object (Checkpoint.gen_optimizer ck)
                          (Snapshot.gen_optimizer snap)
               (store_object (Checkpoint.discriminator ck)
                             (Snapshot.discriminator snap)
                  (store_object (Checkpoint.generator ck)
                                (Snapshot.generator snap)
                                (objects (self w))))) in
        let ck' :=
          Checkpoint.mk (Snapshot.steps snap) (Snapshot.epochs snap)
            (Checkpoint.generator ck) (Checkpoint.discriminator ck)
            (Checkpoint.gen_optimizer ck) (Checkpoint.dis_optimizer ck) in
        Returns tt (mk_World (set_objects objs (set_ckpt (Some ck') (self w)))
                             (disk w) (trace w))
    end.

Definition load_checkpoint (pretrained_path : string) : M unit :=
  ckpt_restore pretrained_path ;;
  ck <- attr ckpt "ckpt" ;;
  modify (set_steps (Checkpoint.steps ck)) ;;
  ck <- attr ckpt "ckpt" ;;
  modify (set_epochs (Checkpoint.epochs ck)) ;;
  ck <- attr ckpt "ckpt" ;;
  modify (fun s => set_models (Some (Checkpoint.generator ck))
                              (discriminator s) (gen_optimizer s)
                              (dis_optimizer s) s) ;;
  ck <- attr ckpt "ckpt" ;;
  modify (fun s => set_models (generator s)
                              (Some (Checkpoint.discriminator ck))
                              (gen_optimizer s) (dis_optimizer s) s) ;;
  ck <- attr ckpt "ckpt" ;;
  modify (fun s => set_models (generator s) (discriminator s)
                              (Some (Checkpoint.gen_optimizer ck))
                              (dis_optimizer s) s) ;;
  ck <- attr ckpt "ckpt" ;;
  modify (fun s => set_models (generator s) (discriminator s)
                              (gen_optimizer s)
                              (Some (Checkpoint.dis_optimizer ck)) s).

(** [x % y]: the sign of the result follows the divisor, as for
    [Z.modulo]; a zero divisor raises. *)
Definition py_mod (x y : Z) : M Z :=
  if (y =? 0)%Z then raise ZeroDivisionError else ret (x mod y)%Z.

Definition _check_eval_interval : M unit :=
  observe Call_check_eval_interval ;;
  s <- gets steps ;;
  c <- gets config ;;
  m <- py_mod s (eval_interval_steps c) ;;
  if (m =? 0)%Z then
    s <- gets steps ;;
    observe (Call_eval_epoch s) ;;
    modify (_eval_epoch hooks)
  else ret tt.

Definition _check_save_interval : M unit :=
  observe Call_check_save_interval ;;
  s <- gets steps ;;
  c <- gets config ;;
  m <- py_mod s (save_interval_steps c) ;;
  if (m =? 0)%Z then
    s <- gets steps ;;
    observe (Call_save_checkpoint s) ;;
    save_checkpoint
  else ret tt.

(** [self.tqdm.update(1)] *)
Definition tqdm_update (n : Z) : M unit :=
  v <- attr tqdm "tqdm" ;;
  modify (set_tqdm (Some (v + n)%Z)).

(** Lines 155-159: the interval checks, made by rank 0 only. *)
Definition check_interval : M unit :=
  c <- gets config ;;
  if (rank c =? 0)%Z then
    observe Call_check_log_interval ;;
    modify (_check_log_interval hooks) ;;
    _check_eval_interval ;;
    _check_save_interval
  else ret tt.

(** Lines 147-159: the body of the loop of [_train_epoch], up to the
    test of [finish_train]. *)
Definition train_iteration (batch : Batch) : M unit :=
  (* one step training *)
  observe (Call_train_step batch) ;;
  modify (_train_step hooks batch) ;;
  (* update counts *)
  s <- gets steps ;;
  modify (set_steps (s + 1)%Z) ;;
  tqdm_update 1 ;;
  observe Call_check_train_finish ;;
  modify (_check_train_finish hooks) ;;
  (* check interval *)
  check_interval.

(** How the loop over the batches is left: by its [return], or by
    exhausting the loader, with the local [train_steps_per_epoch] as the
    last iteration left it (unbound when there was none). *)
Inductive loop_exit : Type :=
| Returned
| Exhausted (train_steps_per_epoch : option Z).

(** [for train_steps_per_epoch, batch in enumerate(loader, 1)], entered
    with the counter of [enumerate] at [count]. *)
Fixpoint train_loop (batches : list Batch) (count : Z) (local : option Z)
  : M loop_exit :=
  match batches with
  | [] => ret (Exhausted local)
  | batch :: rest =>
      train_iteration batch ;;
      (* check wheter training is finished *)
      fin <- gets finish_train ;;
      if fin then ret Returned
      else train_loop rest (count + 1)%Z (Some count)
  end.

(** [logging.info] changes nothing of the state and is left out. *)
Definition _train_epoch : M unit :=
  loader <- attr train_data_loader "train_data_loader" ;;
  exit <- train_loop loader 1%Z None ;;
  match exit with
  | Returned => ret tt
  | Exhausted local =>
      (* update *)
      e <- gets epochs ;;
      modify (set_epochs (e + 1)%Z) ;;
      match local with
      | None => raise (UnboundLocalError "train_steps_per_epoch")
      | Some n => modify (set_train_steps_per_epoch (Some n))
      end
  end.

(** [while True: self._train_epoch(); if self.finish_train: break], for
    at most [fuel] epochs: [true] when the loop was left by its [break]. *)
Fixpoint run_epochs (fuel : nat) : M bool :=
  match fuel with
  | O => ret false
  | S k =>
      _train_epoch ;;
      fin <- gets finish_train ;;
      if fin then ret true else run_epochs k
  end.

(** [run]: the progress bar is created at the current step count before
    the first epoch. *)
Definition run (fuel : nat) : M bool :=
  s <- gets steps ;;
  modify (set_tqdm (Some s)) ;;
  run_epochs fuel.

End Trainer.

Arguments Returns {Batch Weights P A} a w.
Arguments Raises {Batch Weights P A} e w.
Arguments steps {Batch Weights} t.
Arguments epochs {Batch Weights} t.
Arguments config {Batch Weights} t.
Arguments finish_train {Batch Weights} t.
Arguments train_data_loader {Batch Weights} t.
Arguments generator {Batch Weights} t.
Arguments discriminator {Batch Weights} t.
Arguments gen_optimizer {Batch Weights} t.
Arguments dis_optimizer {Batch Weights} t.
Arguments ckpt {Batch Weights} t.
Arguments ckp_manager {Batch Weights} t.
Arguments tqdm {Batch Weights} t.
Arguments train_steps_per_epoch {Batch Weights} t.
Arguments objects {Batch Weights} t.
Arguments set_ckpt {Batch Weights} v s.
Arguments _train_step {Batch Weights} h.
Arguments _eval_epoch {Batch Weights} h.
Arguments _check_log_interval {Batch Weights} h.
Arguments _check_train_finish {Batch Weights} h.
Arguments Call_train_step {Batch} batch.
Arguments Call_check_train_finish {Batch}.
Arguments Call_check_log_interval {Batch}.
Arguments Call_check_eval_interval {Batch}.
Arguments Call_eval_epoch {Batch} at_steps.
Arguments Call_check_save_interval {Batch}.
Arguments Call_save_checkpoint {Batch} at_steps.
Arguments self {Batch Weights P} w.
Arguments disk {Batch Weights P} w.
Arguments trace {Batch Weights P} w.
Arguments mk_World {Batch Weights P} self disk trace.
Arguments snapshot_of {Weights} ck objs.
Arguments save_checkpoint_path {Batch Weights} P w.
Arguments save_checkpoint {Batch Weights} P w.
Arguments load_checkpoint {Batch Weights} P pretrained_path w.
Arguments create_checkpoint_manager {Batch Weights} P saved_path max_to_keep w.
Arguments check_interval {Batch Weights} P hooks w.
Arguments train_iteration {Batch Weights} P hooks batch w.
Arguments set_steps {Batch Weights} v s.
Arguments set_epochs {Batch Weights} v s.
Arguments set_tqdm {Batch Weights} v s.
Arguments set_train_steps_per_epoch {Batch Weights} v s.
Arguments train_loop {Batch Weights} P hooks batches count local w.
Arguments _train_epoch {Batch Weights} P hooks w.
Arguments run_epochs {Batch Weights} P hooks fuel w.
Arguments run {Batch Weights} P hooks fuel w.
Arguments set_train_data_loader {Batch Weights} P train_dataset w.
Arguments get_train_data_loader {Batch Weights} P w.
Arguments set_eval_data_loader {Batch Weights} P eval_dataset w.
Arguments get_eval_data_loader {Batch Weights} P w.
Arguments set_gen_model {Batch Weights} P generator_model w.
Arguments get_gen_model {Batch Weights} P w.
Arguments set_dis_model {Batch Weights} P discriminator_model w.
Arguments get_dis_model {Batch Weights} P w.
Arguments set_gen_optimizer {Batch Weights} P LossScaleOptimizer
  generator_optimizer w.
Arguments get_gen_optimizer {Batch Weights} P w.
Arguments set_dis_optimizer {Batch Weights} P LossScaleOptimizer
  discriminator_optimizer w.
Arguments get_dis_optimizer {Batch Weights} P w.
Arguments _check_eval_interval {Batch Weights} P hooks w.
Arguments _check_save_interval {Batch Weights} P w.

End GanBasedTrainer.

(** ** Vocabulary of the statements about the adapters *)

(** [idxs] is, in increasing order, the set of positions of [files] whose
    leading-dimension length exceeds [threshold]; every file of the list has
    been measured. *)
Definition retains_above (load_fn : loader) (threshold : Z)
  (files : list string) (idxs : list nat) : Prop :=
  StronglySorted lt idxs /\
  (forall i, In i idxs -> i < List.length files) /\
  (forall i f, nth_error files i = Some f ->
     exists n, length_of load_fn f = Ok n /\
               (In i idxs <-> (threshold < n)%Z)).

(** The lexicographic order of paths, as a relation. *)
Definition le_str (a b : string) : Prop := (a <=? b)%string = true.

(** [files'] is [files] read at the positions [idxs], in that order. *)
Definition selected_by (files : list string) (idxs : list nat)
  (files' : list string) : Prop :=
  Forall2 (fun i f => nth_error files i = Some f) idxs files'.

(** The two thresholds of the paired constructor. *)
Inductive threshold_kind : Type := AudioThreshold | MelThreshold.

Definition apply_threshold (kind : threshold_kind) (load_fn : loader)
  (threshold : Z) (audio_files mel_files : list string)
  : result (list string * list string) :=
  match kind with
  | AudioThreshold =>
      AudioMelDataset.filter_by_audio_length load_fn threshold
                                             audio_files mel_files
  | MelThreshold =>
      AudioMelDataset.filter_by_mel_length load_fn threshold
                                           audio_files mel_files
  end.

(** The list whose lengths a threshold is compared with. *)
Definition measured (kind : threshold_kind) (audio_files mel_files : list string)
  : list string :=
  match kind with
  | AudioThreshold => audio_files
  | MelThreshold => mel_files
  end.

(** The arrays of an item, without the utterance id. *)
Definition arrays_of {A : Type} (it : items A) : A :=
  match it with
  | WithId _ arrays => arrays
  | Arrays arrays => arrays
  end.

(** A loader returns on every file of a list. *)
Definition loads_all (load_fn : loader) (files : list string) : Prop :=
  forall f, In f files -> exists a, load_fn f = Ok a.

(** Two loaders read the same array from every file of a list. *)
Definition same_reads (load_fn load_fn' : loader) (files : list string)
  : Prop :=
  forall f, In f files -> load_fn f = load_fn' f.

(** The derivation of utterance ids selected by a query. *)
Definition utt_ids_from (suffix query : string) (files : list string)
  : list string :=
  if contains ".npy" query
  then map (utt_id_npy suffix) files
  else map utt_id_generic files.

(** The item of the paired generator at position [j]: the arrays loaded
    from the [j]-th audio file and the [j]-th mel file, with [utt_id] when
    ids are returned. *)
Definition paired_item_at (self : AudioMelDataset.t) (j : nat)
  (utt_id : string) (it : items (ndarray * ndarray)) : Prop :=
  exists audio_file mel_file audio mel,
    nth_error (AudioMelDataset.audio_files self) j = Some audio_file
    /\ nth_error (AudioMelDataset.mel_files self) j = Some mel_file
    /\ AudioMelDataset.audio_load_fn self audio_file = Ok audio
    /\ AudioMelDataset.mel_load_fn self mel_file = Ok mel
    /\ it = (if AudioMelDataset.return_utt_id self
             then WithId utt_id (audio, mel)
             else Arrays (audio, mel)).

(** The item of the audio generator at position [j]. *)
Definition audio_item_at (self : AudioDataset.t) (j : nat)
  (utt_id : string) (it : items ndarray) : Prop :=
  exists audio_file audio,
    nth_error (AudioDataset.audio_files self) j = Some audio_file
    /\ AudioDataset.audio_load_fn self audio_file = Ok audio
    /\ it = (if AudioDataset.return_utt_id self
             then WithId utt_id audio
             else Arrays audio).

(** A run over [utt_ids] against [n] files that goes by position: one item
    per id while files remain, each the item of its position, and an
    [IndexError] at position [n] when there are more ids than files. *)
Definition positional {A : Type}
  (item_at : nat -> string -> items A -> Prop) (n : nat)
  (utt_ids : list string) (r : run A) : Prop :=
  List.length (fst r) = Nat.min (List.length utt_ids) n
  /\ (forall j utt_id, j < n -> nth_error utt_ids j = Some utt_id ->
        exists it, nth_error (fst r) j = Some it /\ item_at j utt_id it)
  /\ snd r = (if (List.length utt_ids <=? n)%nat
              then None else Some IndexError).

(** Every file of the list is longer than the threshold, when one is
    configured. *)
Definition all_above (load_fn : loader) (threshold : option Z)
  (files : list string) : Prop :=
  match threshold with
  | None => True
  | Some t =>
      forall f, In f files ->
        exists n, length_of load_fn f = Ok n /\ (t < n)%Z
  end.

(** [s.endswith(suffix)] *)
Definition ends_with (suffix s : string) : bool :=
  (String.length suffix <=? String.length s)%nat
  && String.eqb (slice_from (String.length s - String.length suffix) s)
                suffix.

(** The derivation for legacy flat-array files in the words of the
    specification: the file name with the fixed suffix stripped.  It is
    compared with [utt_id_npy], which is what the constructors compute. *)
Definition strip_suffix (suffix s : string) : string :=
  if ends_with suffix s
  then slice_to (String.length s - String.length suffix) s
  else s.

(** [old] occurs in [stem ++ old] at the end only. *)
Definition only_as_suffix (old stem : string) : Prop :=
  forall i, i < String.length stem ->
    prefix old (slice_from i (stem ++ old)) = false.

(** ** Vocabulary of the statements about the trainer *)

Section TrainerVocabulary.

Context {Batch Weights : Type} {P : Persistence Weights}.

(** The state in which a method ends, returning or raising. *)
Definition final {A : Type}
  (o : GanBasedTrainer.outcome Batch Weights P A)
  : GanBasedTrainer.World Batch Weights P :=
  match o with
  | GanBasedTrainer.Returns _ w => w
  | GanBasedTrainer.Raises _ w => w
  end.

(** A hook that leaves the bookkeeping of the loop alone: the counters,
    the configuration and the progress bar. *)
Definition keeps_bookkeeping
  (h : GanBasedTrainer.t Batch Weights -> GanBasedTrainer.t Batch Weights)
  : Prop :=
  forall s,
    GanBasedTrainer.steps (h s) = GanBasedTrainer.steps s
    /\ GanBasedTrainer.epochs (h s) = GanBasedTrainer.epochs s
    /\ GanBasedTrainer.config (h s) = GanBasedTrainer.config s
    /\ GanBasedTrainer.tqdm (h s) = GanBasedTrainer.tqdm s.

Definition well_behaved (hooks : GanBasedTrainer.Hooks Batch Weights)
  : Prop :=
  (forall batch,
      keeps_bookkeeping (GanBasedTrainer._train_step hooks batch))
  /\ keeps_bookkeeping (GanBasedTrainer._eval_epoch hooks)
  /\ keeps_bookkeeping (GanBasedTrainer._check_log_interval hooks)
  /\ keeps_bookkeeping (GanBasedTrainer._check_train_finish hooks).


(** The batches trained on, in the order of a trace. *)
Definition train_steps (tr : list (GanBasedTrainer.event Batch))
  : list Batch :=
  flat_map (fun e => match e with
                     | GanBasedTrainer.Call_train_step b => [b]
                     | _ => []
                     end) tr.

(** In a trace, every training step is directly followed by the call of
    [_check_train_finish]. *)
Definition finish_checked_after_each_step
  (tr : list (GanBasedTrainer.event Batch)) : Prop :=
  forall pre b post,
    tr = pre ++ GanBasedTrainer.Call_train_step b :: post ->
    exists post', post = GanBasedTrainer.Call_check_train_finish :: post'.

(** [s'] has the bookkeeping of [s]. *)
Definition same_bookkeeping (s s' : GanBasedTrainer.t Batch Weights)
  : Prop :=
  GanBasedTrainer.steps s' = GanBasedTrainer.steps s
  /\ GanBasedTrainer.epochs s' = GanBasedTrainer.epochs s
  /\ GanBasedTrainer.config s' = GanBasedTrainer.config s
  /\ GanBasedTrainer.tqdm s' = GanBasedTrainer.tqdm s.

(** A computation that keeps the bookkeeping and trains on nothing. *)
Definition quiet {A : Type} (c : GanBasedTrainer.M Batch Weights P A)
  : Prop :=
  forall w,
    same_bookkeeping (GanBasedTrainer.self w)
                     (GanBasedTrainer.self (final (c w)))
    /\ exists ev,
         GanBasedTrainer.trace (final (c w))
           = GanBasedTrainer.trace w ++ ev
         /\ train_steps ev = [].

(** The state in which the interval checks of a step are entered, for a
    progress bar that stood at [v]. *)
Definition before_checks (hooks : GanBasedTrainer.Hooks Batch Weights)
  (batch : Batch) (v : Z) (w : GanBasedTrainer.World Batch Weights P)
  : GanBasedTrainer.World Batch Weights P :=
  let s1 := GanBasedTrainer._train_step hooks batch
              (GanBasedTrainer.self w) in
  GanBasedTrainer.mk_World
    (GanBasedTrainer._check_train_finish hooks
       (GanBasedTrainer.set_tqdm (Some (v + 1)%Z)
          (GanBasedTrainer.set_steps
             (GanBasedTrainer.steps s1 + 1)%Z s1)))
    (GanBasedTrainer.disk w)
    (GanBasedTrainer.trace w
       ++ [GanBasedTrainer.Call_train_step batch;
           GanBasedTrainer.Call_check_train_finish]).

End TrainerVocabulary.

(** ** Instances used to exercise the statements *)

(** A dump directory of three utterances, listed out of order, whose audio
    files have 50, 150 and 200 samples. *)
Definition corpus_find_files : file_finder :=
  fun _ query =>
    if String.eqb query "*-wave.npy"
    then ["dump/c-wave.npy"; "dump/a-wave.npy"; "dump/b-wave.npy"]
    else if String.eqb query "*-feats.npy"
    then ["dump/c-feats.npy"; "dump/a-feats.npy"; "dump/b-feats.npy"]
    else [].

Definition corpus_audio_load_fn : loader :=
  fun f =>
    Ok (mk_ndarray
          [if String.eqb f "dump/a-wave.npy" then 50%Z
           else if String.eqb f "dump/b-wave.npy" then 150%Z
           else 200%Z]
          []).

Definition corpus_mel_load_fn : loader :=
  fun f =>
    Ok (mk_ndarray
          [if String.eqb f "dump/a-feats.npy" then 5%Z
           else if String.eqb f "dump/b-feats.npy" then 15%Z
           else 20%Z; 80%Z]
          []).

Definition corpus_audio_files : list string :=
  ["dump/a-wave.npy"; "dump/b-wave.npy"; "dump/c-wave.npy"].

Definition corpus_mel_files : list string :=
  ["dump/a-feats.npy"; "dump/b-feats.npy"; "dump/c-feats.npy"].

Definition corpus_paired : AudioMelDataset.t :=
  AudioMelDataset.mk ["a"; "b"; "c"] corpus_audio_files corpus_mel_files
                     corpus_audio_load_fn corpus_mel_load_fn true.

Definition corpus_audio : AudioDataset.t :=
  AudioDataset.mk ["a"; "b"; "c"] corpus_audio_files
                  corpus_audio_load_fn false.

(** A checkpoint directory that keeps every checkpoint written, under the
    name [ckpt-<number>]. *)
Fixpoint directory_lookup {Weights : Type} (path : string)
  (st : list (string * Snapshot.t Weights)) : option (Snapshot.t Weights) :=
  match st with
  | [] => None
  | (p, snap) :: rest =>
      if String.eqb p path then Some snap else directory_lookup path rest
  end.

Definition directory_store (Weights : Type) : Persistence Weights :=
  mk_Persistence Weights
    (list (string * Snapshot.t Weights))
    (fun mgr n snap st =>
       let path :=
         (CheckpointManager.directory mgr ++ "ckpt-"
          ++ NilZero.string_of_int (Z.to_int n))%string in
       ((path, snap) :: st, path))
    directory_lookup.

(** Hooks in the manner of the vocoder trainers: a training step updates
    the generator, and training is finished when [steps] reaches
    [train_max_steps]. *)
Definition counting_hooks : GanBasedTrainer.Hooks nat Z :=
  GanBasedTrainer.mk_Hooks nat Z
    (fun batch s =>
       GanBasedTrainer.set_objects nat Z
         (GanBasedTrainer.store_object Z 0%nat
            (GanBasedTrainer.objects s 0%nat + Z.of_nat batch)%Z
            (GanBasedTrainer.objects s))
         s)
    (fun s => s)
    (fun s => s)
    (fun s =>
       if (train_max_steps (GanBasedTrainer.config s)
           <=? GanBasedTrainer.steps s)%Z
       then GanBasedTrainer.mk nat Z
              (GanBasedTrainer.steps s) (GanBasedTrainer.epochs s)
              (GanBasedTrainer.config s) true
              (GanBasedTrainer.is_generator_mixed_precision nat Z s)
              (GanBasedTrainer.is_discriminator_mixed_precision nat Z s)
              (GanBasedTrainer.train_data_loader s)
              (GanBasedTrainer.eval_data_loader nat Z s)
              (GanBasedTrainer.generator s)
              (GanBasedTrainer.discriminator s)
              (GanBasedTrainer.gen_optimizer s)
              (GanBasedTrainer.dis_optimizer s)
              (GanBasedTrainer.ckpt s) (GanBasedTrainer.ckp_manager s)
              (GanBasedTrainer.tqdm s)
              (GanBasedTrainer.train_steps_per_epoch s)
              (GanBasedTrainer.objects s)
       else s).

(** A trainer at step 98 of 100, saving every 100 steps and evaluating
    every 50, with three batches in its loader. *)
Definition example_config (rank : Z) : Config :=
  mk_Config "exp" 100 50 100 rank.

Definition example_trainer (rank : Z) : GanBasedTrainer.t nat Z :=
  GanBasedTrainer.mk nat Z
    98 4 (example_config rank) false false false
    (Some [7; 8; 9]) None
    (Some 0%nat) (Some 1%nat) (Some 2%nat) (Some 3%nat)
    (Some (Checkpoint.mk 1 1 0 1 2 3))
    (Some (CheckpointManager.mk "exp/checkpoints/" 10))
    (Some 98%Z) None
    (fun _ => 0%Z).

Definition example_world (rank : Z)
  : GanBasedTrainer.World nat Z (directory_store Z) :=
  @GanBasedTrainer.mk_World nat Z (directory_store Z)
    (example_trainer rank) [] [].

(** ** Further vocabulary for the adapters *)

(** The loader reports a leading dimension greater than the threshold. *)
Definition above (load_fn : loader) (threshold : Z) (f : string) : bool :=
  match length_of load_fn f with
  | Ok n => (n >? threshold)%Z
  | Raise _ => false
  end.

(** The same for an optional threshold: without one every file passes. *)
Definition above_opt (load_fn : loader) (threshold : option Z) (f : string)
  : bool :=
  match threshold with
  | None => true
  | Some t => above load_fn t f
  end.

(** Every file can be measured, when a threshold asks for it. *)
Definition measurable (load_fn : loader) (threshold : option Z)
  (files : list string) : Prop :=
  match threshold with
  | None => True
  | Some _ => forall f, In f files -> exists n, length_of load_fn f = Ok n
  end.

(** The pairs of an audio file and a mel file that pass both thresholds. *)
Definition kept_pairs (al ml : loader) (Ta Tm : option Z)
  (audio_files mel_files : list string) : list (string * string) :=
  filter (fun p => above_opt al Ta (fst p) && above_opt ml Tm (snd p))
         (combine audio_files mel_files).

(** The utterance id an item carries, if it carries one. *)
Definition id_of {A : Type} (it : items A) : option string :=
  match it with
  | WithId utt_id _ => Some utt_id
  | Arrays _ => None
  end.

(** The item of the mel generator at position [j]. *)
Definition mel_item_at (self : MelDataset.t) (j : nat)
  (utt_id : string) (it : items ndarray) : Prop :=
  exists mel_file mel,
    nth_error (MelDataset.mel_files self) j = Some mel_file
    /\ MelDataset.mel_load_fn self mel_file = Ok mel
    /\ it = (if MelDataset.return_utt_id self
             then WithId utt_id mel
             else Arrays mel).

(** A character does not occur in a string. *)
Fixpoint absent (c : ascii) (s : string) : bool :=
  match s with
  | EmptyString => true
  | String a rest => negb (Ascii.eqb a c) && absent c rest
  end.

(** ** Further vocabulary for the trainer *)

Section TrainerExtraVocabulary.

Context {Batch Weights : Type} {P : Persistence Weights}.





(** The events of the steps on a rank other than 0. *)
Definition bare_steps (batches : list Batch)
  : list (GanBasedTrainer.event Batch) :=
  flat_map (fun b => [GanBasedTrainer.Call_train_step b;
                      GanBasedTrainer.Call_check_train_finish]) batches.

(** Hooks that never clear [finish_train] once it is set. *)
Definition keeps_finished
  (h : GanBasedTrainer.t Batch Weights -> GanBasedTrainer.t Batch Weights)
  : Prop :=
  forall s, GanBasedTrainer.finish_train s = true ->
            GanBasedTrainer.finish_train (h s) = true.

Definition never_unfinish (hooks : GanBasedTrainer.Hooks Batch Weights)
  : Prop :=
  (forall batch, keeps_finished (GanBasedTrainer._train_step hooks batch))
  /\ keeps_finished (GanBasedTrainer._eval_epoch hooks)
  /\ keeps_finished (GanBasedTrainer._check_log_interval hooks)
  /\ keeps_finished (GanBasedTrainer._check_train_finish hooks).

(** A [_check_train_finish] that sets [finish_train] once [steps] has
    reached [train_max_steps], as the concrete trainers do. *)
Definition finishes_at_max (hooks : GanBasedTrainer.Hooks Batch Weights)
  : Prop :=
  forall s,
    (train_max_steps (GanBasedTrainer.config s)
     <= GanBasedTrainer.steps s)%Z ->
    GanBasedTrainer.finish_train
      (GanBasedTrainer._check_train_finish hooks s) = true.

(** The tracked objects of a checkpoint. *)
Definition tracked (ck : Checkpoint.t) : list ref :=
  [Checkpoint.generator ck; Checkpoint.discriminator ck;
   Checkpoint.gen_optimizer ck; Checkpoint.dis_optimizer ck].

End TrainerExtraVocabulary.

Section TrainerLoopVocabulary.

Context {Batch Weights : Type} {P : Persistence Weights}.

(** Hooks that leave the data loader in place. *)
Definition keeps_loader (hooks : GanBasedTrainer.Hooks Batch Weights)
  : Prop :=
  (forall batch s,
      GanBasedTrainer.train_data_loader
        (GanBasedTrainer._train_step hooks batch s)
      = GanBasedTrainer.train_data_loader s)
  /\ (forall s, GanBasedTrainer.train_data_loader
                  (GanBasedTrainer._eval_epoch hooks s)
                = GanBasedTrainer.train_data_loader s)
  /\ (forall s, GanBasedTrainer.train_data_loader
                  (GanBasedTrainer._check_log_interval hooks s)
                = GanBasedTrainer.train_data_loader s)
  /\ (forall s, GanBasedTrainer.train_data_loader
                  (GanBasedTrainer._check_train_finish hooks s)
                = GanBasedTrainer.train_data_loader s).

(** Two relations between the trainer before and after a call: the data
    loader is kept; [finish_train] is kept once it is set. *)
Definition loader_kept (s s' : GanBasedTrainer.t Batch Weights) : Prop :=
  GanBasedTrainer.train_data_loader s'
  = GanBasedTrainer.train_data_loader s.

Definition finish_kept (s s' : GanBasedTrainer.t Batch Weights) : Prop :=
  GanBasedTrainer.finish_train s = true ->
  GanBasedTrainer.finish_train s' = true.


(** The state in which [run] enters its loop. *)
Definition with_bar (w : GanBasedTrainer.World Batch Weights P)
  : GanBasedTrainer.World Batch Weights P :=
  GanBasedTrainer.mk_World
    (GanBasedTrainer.set_tqdm
       (Some (GanBasedTrainer.steps (GanBasedTrainer.self w)))
       (GanBasedTrainer.self w))
    (GanBasedTrainer.disk w) (GanBasedTrainer.trace w).

End TrainerLoopVocabulary.

(** ** Further instances *)

(** A dump directory with one mel file more than audio files. *)
Definition surplus_find_files : file_finder :=
  fun _ query =>
    if String.eqb query "*-wave.npy"
    then ["dump/b-wave.npy"; "dump/a-wave.npy"]
    else if String.eqb query "*-feats.npy"
    then ["dump/c-feats.npy"; "dump/a-feats.npy"; "dump/b-feats.npy"]
    else [].

(** A dump directory with the three audio files and one mel file. *)
Definition lone_mel_find_files : file_finder :=
  fun _ query =>
    if String.eqb query "*-wave.npy"
    then ["dump/c-wave.npy"; "dump/a-wave.npy"; "dump/b-wave.npy"]
    else if String.eqb query "*-feats.npy"
    then ["dump/a-feats.npy"]
    else [].

(** A loader that cannot read the second audio file. *)
Definition broken_audio_load_fn : loader :=
  fun f =>
    if String.eqb f "dump/b-wave.npy"
    then Raise (Propagated "ValueError")
    else corpus_audio_load_fn f.

Definition broken_paired : AudioMelDataset.t :=
  AudioMelDataset.mk ["a"; "b"; "c"] corpus_audio_files corpus_mel_files
                     broken_audio_load_fn corpus_mel_load_fn true.

Definition corpus_mel : MelDataset.t :=
  MelDataset.mk ["a"; "b"; "c"] corpus_mel_files corpus_mel_load_fn true.

(** A trainer on which only the given models and optimizers have been
    set. *)
Definition unprepared_trainer (g d go do_ : option ref)
  : GanBasedTrainer.t nat Z :=
  GanBasedTrainer.mk nat Z
    0 0 (example_config 0) false false false
    None None g d go do_ None None None None
    (fun _ => 0%Z).

Definition unprepared_world (g d go do_ : option ref)
  : GanBasedTrainer.World nat Z (directory_store Z) :=
  @GanBasedTrainer.mk_World nat Z (directory_store Z)
    (unprepared_trainer g d go do_) [] [].


(** The example trainer after training has finished at step 100. *)
Definition finished_world
  : GanBasedTrainer.World nat Z (directory_store Z) :=
  @GanBasedTrainer.mk_World nat Z (directory_store Z)
    (GanBasedTrainer._check_train_finish counting_hooks
       (GanBasedTrainer.set_steps 100 (example_trainer 0)))
    [] [].

(** * Properties *)

(** ** Fallible comprehensions *)

Lemma mapM_Forall2 {A B : Type} (f : A -> result B) (l : list A)
  (l' : list B) :
  mapM f l = Ok l' -> Forall2 (fun x y => f x = Ok y) l l'.
Proof.
  revert l'; induction l as [|x rest IH]; intros l' H; simpl in H.
  - injection H as <-. constructor.
  - destruct (f x) as [y|e] eqn:Hx; simpl in H; [|discriminate].
    destruct (mapM f rest) as [ys|e] eqn:Hr; simpl in H; [|discriminate].
    injection H as <-. constructor; auto.
Qed.

Lemma Forall2_mapM {A B : Type} (f : A -> result B) (l : list A)
  (l' : list B) :
  Forall2 (fun x y => f x = Ok y) l l' -> mapM f l = Ok l'.
Proof.
  induction 1 as [|x y l l' Hx _ IH]; simpl; [reflexivity|].
  rewrite Hx; simpl. rewrite IH; reflexivity.
Qed.

Lemma mapM_length {A B : Type} (f : A -> result B) (l : list A)
  (l' : list B) :
  mapM f l = Ok l' -> List.length l' = List.length l.
Proof.
  intros H. apply mapM_Forall2 in H.
  symmetry. eapply Forall2_length; eauto.
Qed.

Lemma mapM_total {A B : Type} (f : A -> result B) (g : A -> B) (l : list A) :
  (forall x, In x l -> f x = Ok (g x)) -> mapM f l = Ok (map g l).
Proof.
  induction l as [|x rest IH]; intros H; simpl; [reflexivity|].
  rewrite (H x) by (left; reflexivity). simpl.
  rewrite IH by (intros y Hy; apply H; right; exact Hy). reflexivity.
Qed.

(** A condition that returns on every element of the list makes [filterM]
    the ordinary [filter]. *)
Lemma filterM_filter {A : Type} (p : A -> result bool) (q : A -> bool)
  (l : list A) :
  (forall x, In x l -> p x = Ok (q x)) -> filterM p l = Ok (filter q l).
Proof.
  induction l as [|x rest IH]; intros H; simpl; [reflexivity|].
  rewrite (H x) by (left; reflexivity). simpl.
  rewrite IH by (intros y Hy; apply H; right; exact Hy). reflexivity.
Qed.

(** Conversely, a [filterM] that returns has evaluated its condition on
    every element. *)
Lemma filterM_inv {A : Type} (p : A -> result bool) (l l' : list A) :
  filterM p l = Ok l' ->
  exists q, (forall x, In x l -> p x = Ok (q x)) /\ l' = filter q l.
Proof.
  intros H.
  exists (fun x => match p x with Ok b => b | Raise _ => false end).
  revert l' H; induction l as [|x rest IH]; intros l' H; simpl in H.
  - injection H as <-. split; [intros x []|reflexivity].
  - destruct (p x) as [b|e] eqn:Hx; simpl in H; [|discriminate].
    destruct (filterM p rest) as [ys|e] eqn:Hr; simpl in H; [|discriminate].
    injection H as <-.
    destruct (IH ys eq_refl) as [Hall Hys].
    split.
    + intros y [<-|Hy]; [rewrite Hx; reflexivity|apply Hall; exact Hy].
    + simpl. rewrite Hx. rewrite Hys. reflexivity.
Qed.

Lemma getitem_Some {A : Type} (l : list A) (i : nat) (x : A) :
  getitem l i = Ok x <-> nth_error l i = Some x.
Proof.
  unfold getitem. destruct (nth_error l i); split; intros H;
    inversion H; reflexivity.
Qed.

Lemma getitem_out_of_range {A : Type} (l : list A) (i : nat) :
  List.length l <= i -> getitem l i = Raise IndexError.
Proof.
  intros H. unfold getitem.
  apply nth_error_None in H. rewrite H. reflexivity.
Qed.

Lemma StronglySorted_lt_seq (len start : nat) :
  StronglySorted lt (seq start len).
Proof.
  revert start; induction len as [|len IH]; intros start; simpl.
  - constructor.
  - constructor; [apply IH|].
    apply Forall_forall. intros x Hx. apply in_seq in Hx. lia.
Qed.

Lemma StronglySorted_filter {A : Type} (R : A -> A -> Prop) (q : A -> bool)
  (l : list A) :
  StronglySorted R l -> StronglySorted R (filter q l).
Proof.
  induction 1 as [|x l Hl IH Hx]; simpl; [constructor|].
  destruct (q x); [|exact IH].
  constructor; [exact IH|].
  rewrite Forall_forall in *. intros y Hy.
  apply filter_In in Hy. apply Hx, Hy.
Qed.

Lemma Forall2_nth_error_l {A B : Type} (R : A -> B -> Prop) (l : list A)
  (l' : list B) (i : nat) (x : A) :
  Forall2 R l l' -> nth_error l i = Some x ->
  exists y, nth_error l' i = Some y /\ R x y.
Proof.
  intros H; revert i; induction H as [|a b l l' Hab _ IH]; intros i Hi.
  - destruct i; discriminate.
  - destruct i as [|i]; simpl in *.
    + injection Hi as <-. exists b; auto.
    + apply IH; exact Hi.
Qed.

(** ** Length filtering *)

(** The positions kept by a threshold, when its comprehension returns. *)
Lemma retained_idxs_spec (load_fn : loader) (threshold : Z)
  (files : list string) (lengths : list Z) (idxs : list nat) :
  load_lengths load_fn files = Ok lengths ->
  retained_idxs files lengths threshold = Ok idxs ->
  retains_above load_fn threshold files idxs.
Proof.
  unfold load_lengths, retained_idxs. intros Hlen Hidx.
  apply mapM_Forall2 in Hlen.
  apply filterM_inv in Hidx. destruct Hidx as [q [Hq ->]].
  repeat split.
  - apply StronglySorted_filter, StronglySorted_lt_seq.
  - intros i Hi. apply filter_In in Hi. destruct Hi as [Hi _].
    apply in_seq in Hi. lia.
  - intros i f Hf.
    destruct (Forall2_nth_error_l _ _ _ _ _ Hlen Hf) as [n [Hn Hfn]].
    exists n. split; [exact Hfn|].
    assert (Hin : In i (seq 0 (List.length files))).
    { apply in_seq. split; [lia|]. simpl.
      apply nth_error_Some. rewrite Hf. discriminate. }
    specialize (Hq i Hin).
    apply getitem_Some in Hn. rewrite Hn in Hq. simpl in Hq.
    injection Hq as Hq.
    rewrite filter_In. rewrite <- Hq.
    split.
    + intros [_ H]. apply Z.gtb_lt in H. exact H.
    + intros H. split; [exact Hin|]. apply Z.gtb_lt. exact H.
Qed.

Lemma take_idxs_spec (files : list string) (idxs : list nat)
  (files' : list string) :
  take_idxs files idxs = Ok files' -> selected_by files idxs files'.
Proof.
  unfold take_idxs, selected_by. intros H. apply mapM_Forall2 in H.
  eapply Forall2_impl; [|exact H].
  intros i f Hi. apply getitem_Some. exact Hi.
Qed.

Lemma selected_by_length (files : list string) (idxs : list nat)
  (files' : list string) :
  selected_by files idxs files' -> List.length files' = List.length idxs.
Proof. intros H. symmetry. eapply Forall2_length; eauto. Qed.

Ltac bind_ok H x Hx :=
  match type of H with
  | rbind ?c _ = Ok _ =>
      destruct c as [x|?] eqn:Hx; simpl in H; [|discriminate H]
  end.

Lemma filter_by_audio_length_spec (load_fn : loader) (threshold : Z)
  (audio_files mel_files audio_files' mel_files' : list string) :
  AudioMelDataset.filter_by_audio_length load_fn threshold
    audio_files mel_files = Ok (audio_files', mel_files') ->
  exists idxs,
    retains_above load_fn threshold audio_files idxs
    /\ selected_by audio_files idxs audio_files'
    /\ selected_by mel_files idxs mel_files'.
Proof.
  unfold AudioMelDataset.filter_by_audio_length. intros H.
  bind_ok H lengths Hlen. bind_ok H idxs Hidx.
  bind_ok H a' Ha. bind_ok H m' Hm. injection H as <- <-.
  exists idxs. split; [eapply retained_idxs_spec; eauto|].
  split; apply take_idxs_spec; assumption.
Qed.

Lemma filter_by_mel_length_spec (load_fn : loader) (threshold : Z)
  (audio_files mel_files audio_files' mel_files' : list string) :
  AudioMelDataset.filter_by_mel_length load_fn threshold
    audio_files mel_files = Ok (audio_files', mel_files') ->
  exists idxs,
    retains_above load_fn threshold mel_files idxs
    /\ selected_by audio_files idxs audio_files'
    /\ selected_by mel_files idxs mel_files'.
Proof.
  unfold AudioMelDataset.filter_by_mel_length. intros H.
  bind_ok H lengths Hlen. bind_ok H idxs Hidx.
  bind_ok H a' Ha. bind_ok H m' Hm. injection H as <- <-.
  exists idxs. split; [eapply retained_idxs_spec; eauto|].
  split; apply take_idxs_spec; assumption.
Qed.

(** C1. Property: each configured threshold of the paired constructor keeps
    exactly the entries whose leading-dimension length is greater than the
    threshold (it drops exactly those of length at most the threshold), the
    positions kept are applied, in increasing order, to the audio list and
    to the mel list alike, and the two lists have the same length
    afterwards. *)
Theorem filtering_keeps_entries_above_threshold
  (kind : threshold_kind) (load_fn : loader) (threshold : Z)
  (audio_files mel_files audio_files' mel_files' : list string) :
  apply_threshold kind load_fn threshold audio_files mel_files
    = Ok (audio_files', mel_files') ->
  exists idxs,
    retains_above load_fn threshold (measured kind audio_files mel_files) idxs
    /\ selected_by audio_files idxs audio_files'
    /\ selected_by mel_files idxs mel_files'
    /\ List.length audio_files' = List.length mel_files'.
Proof.
  intros H.
  assert (Hstage : exists idxs,
    retains_above load_fn threshold (measured kind audio_files mel_files) idxs
    /\ selected_by audio_files idxs audio_files'
    /\ selected_by mel_files idxs mel_files').
  { destruct kind; simpl in *.
    - apply filter_by_audio_length_spec; exact H.
    - apply filter_by_mel_length_spec; exact H. }
  destruct Hstage as [idxs [Hkeep [Ha Hm]]].
  exists idxs. repeat split; try assumption; try apply Hkeep.
  rewrite (selected_by_length _ _ _ Ha), (selected_by_length _ _ _ Hm).
  reflexivity.
Qed.

(** A threshold returns whenever every file it measures has a leading
    dimension and the other list is at least as long. *)
Lemma mapM_returns {A B : Type} (f : A -> result B) (l : list A) :
  (forall x, In x l -> exists y, f x = Ok y) -> exists l', mapM f l = Ok l'.
Proof.
  induction l as [|x rest IH]; intros H; simpl; [eauto|].
  destruct (H x (or_introl eq_refl)) as [y Hy].
  destruct IH as [ys Hys]; [intros z Hz; apply H; right; exact Hz|].
  rewrite Hy; simpl. rewrite Hys; simpl. eauto.
Qed.

Lemma filterM_returns {A : Type} (p : A -> result bool) (l : list A) :
  (forall x, In x l -> exists b, p x = Ok b) ->
  exists l', filterM p l = Ok l' /\ incl l' l.
Proof.
  induction l as [|x rest IH]; intros H; simpl.
  - exists []. split; [reflexivity|apply incl_refl].
  - destruct (H x (or_introl eq_refl)) as [b Hb].
    destruct IH as [ys [Hys Hincl]]; [intros z Hz; apply H; right; exact Hz|].
    rewrite Hb; simpl. rewrite Hys; simpl.
    eexists. split; [reflexivity|].
    destruct b.
    + intros z [<-|Hz]; [left; reflexivity|right; apply Hincl; exact Hz].
    + intros z Hz. right. apply Hincl. exact Hz.
Qed.

Lemma apply_threshold_returns (kind : threshold_kind) (load_fn : loader)
  (threshold : Z) (audio_files mel_files : list string) :
  (forall f, In f (measured kind audio_files mel_files) ->
     exists n, length_of load_fn f = Ok n) ->
  List.length (measured kind audio_files mel_files)
    <= Nat.min (List.length audio_files) (List.length mel_files) ->
  exists audio_files' mel_files',
    apply_threshold kind load_fn threshold audio_files mel_files
    = Ok (audio_files', mel_files').
Proof.
  intros Hload Hlen.
  set (files := measured kind audio_files mel_files) in *.
  destruct (mapM_returns (length_of load_fn) files Hload) as [lengths Hl].
  pose proof (mapM_length _ _ _ Hl) as Hll.
  destruct (filterM_returns
              (fun idx => len <- getitem lengths idx ;;
                          Ok (len >? threshold)%Z)
              (seq 0 (List.length files))) as [idxs [Hi Hincl]].
  { intros idx Hidx. apply in_seq in Hidx.
    destruct (nth_error lengths idx) as [n|] eqn:Hn;
      [|apply nth_error_None in Hn; lia].
    unfold getitem. rewrite Hn. simpl. eauto. }
  assert (Htake : forall other, List.length files <= List.length other ->
                    exists l, take_idxs other idxs = Ok l).
  { intros other Ho. apply mapM_returns. intros idx Hidx.
    apply Hincl, in_seq in Hidx.
    destruct (nth_error other idx) as [f|] eqn:Hf;
      [|apply nth_error_None in Hf; lia].
    unfold getitem. rewrite Hf. eauto. }
  destruct (Htake audio_files ltac:(lia)) as [a' Ha].
  destruct (Htake mel_files ltac:(lia)) as [m' Hm].
  exists a', m'.
  destruct kind; subst files; cbn [measured apply_threshold] in *;
    unfold AudioMelDataset.filter_by_audio_length,
           AudioMelDataset.filter_by_mel_length, load_lengths, retained_idxs;
    rewrite Hl; simpl; rewrite Hi; simpl;
    rewrite Ha; simpl; rewrite Hm; reflexivity.
Qed.

(** ** [sorted] *)

Lemma ascii_compare_refl (a : ascii) : Ascii.compare a a = Eq.
Proof. unfold Ascii.compare. apply N.compare_refl. Qed.

Lemma ascii_compare_Lt_trans (a b c : ascii) :
  Ascii.compare a b = Lt -> Ascii.compare b c = Lt -> Ascii.compare a c = Lt.
Proof.
  unfold Ascii.compare. rewrite !N.compare_lt_iff. apply N.lt_trans.
Qed.

Lemma string_compare_Lt_trans (s1 s2 s3 : string) :
  String.compare s1 s2 = Lt -> String.compare s2 s3 = Lt ->
  String.compare s1 s3 = Lt.
Proof.
  revert s2 s3; induction s1 as [|a s1 IH]; intros [|b s2] [|c s3];
    simpl; try congruence.
  destruct (Ascii.compare a b) eqn:Hab; try discriminate;
    destruct (Ascii.compare b c) eqn:Hbc; try discriminate; intros H1 H2.
  - apply Ascii.compare_eq_iff in Hab, Hbc. subst.
    rewrite ascii_compare_refl. eapply IH; eauto.
  - apply Ascii.compare_eq_iff in Hab. subst. rewrite Hbc. reflexivity.
  - apply Ascii.compare_eq_iff in Hbc. subst. rewrite Hab. reflexivity.
  - rewrite (ascii_compare_Lt_trans _ _ _ Hab Hbc). reflexivity.
Qed.

Lemma le_str_cases (a b : string) :
  le_str a b <-> String.compare a b = Lt \/ a = b.
Proof.
  unfold le_str, String.leb. split.
  - destruct (String.compare a b) eqn:H; intros Hle;
      [right; apply String.compare_eq_iff; exact H|left; reflexivity
      |discriminate].
  - intros [H| ->]; [rewrite H; reflexivity|].
    destruct (String.compare b b) eqn:H; try reflexivity.
    assert (Hrefl : String.compare b b = Eq).
    { clear H. induction b as [|c b IH]; simpl; [reflexivity|].
      rewrite ascii_compare_refl. exact IH. }
    congruence.
Qed.

Lemma le_str_trans (a b c : string) : le_str a b -> le_str b c -> le_str a c.
Proof.
  rewrite !le_str_cases. intros [H1| ->] [H2| ->]; auto.
  left. eapply string_compare_Lt_trans; eauto.
Qed.

Lemma le_str_antisym (a b : string) : le_str a b -> le_str b a -> a = b.
Proof. unfold le_str. apply String.leb_antisym. Qed.

Lemma le_str_total (a b : string) : le_str a b \/ le_str b a.
Proof. unfold le_str. apply String.leb_total. Qed.

Lemma not_le_str (a b : string) : (a <=? b)%string = false -> le_str b a.
Proof.
  intros H. destruct (le_str_total a b) as [H'|H']; [|exact H'].
  unfold le_str in H'. congruence.
Qed.

Lemma insert_sorted_perm (x : string) (l : list string) :
  Permutation (x :: l) (insert_sorted x l).
Proof.
  induction l as [|y rest IH]; simpl; [reflexivity|].
  destruct (x <=? y)%string; [reflexivity|].
  rewrite perm_swap. constructor. exact IH.
Qed.

Lemma sorted_perm (l : list string) : Permutation l (sorted l).
Proof.
  induction l as [|x rest IH]; simpl; [constructor|].
  rewrite <- insert_sorted_perm. constructor. exact IH.
Qed.

Lemma sorted_length (l : list string) :
  List.length (sorted l) = List.length l.
Proof. symmetry. apply Permutation_length, sorted_perm. Qed.

Lemma insert_sorted_ordered (x : string) (l : list string) :
  StronglySorted le_str l -> StronglySorted le_str (insert_sorted x l).
Proof.
  induction 1 as [|y rest Hrest IH Hy]; simpl.
  - constructor; constructor.
  - destruct (x <=? y)%string eqn:Hxy.
    + constructor; [constructor; assumption|].
      constructor; [exact Hxy|].
      eapply Forall_impl; [|exact Hy].
      intros z Hz. eapply le_str_trans; eauto.
    + constructor; [exact IH|].
      apply Forall_forall. intros z Hz.
      apply (Permutation_in _ (Permutation_sym (insert_sorted_perm x rest)))
        in Hz.
      destruct Hz as [<-|Hz]; [apply not_le_str; exact Hxy|].
      rewrite Forall_forall in Hy. apply Hy; exact Hz.
Qed.

Lemma sorted_ordered (l : list string) : StronglySorted le_str (sorted l).
Proof.
  induction l as [|x rest IH]; simpl; [constructor|].
  apply insert_sorted_ordered; exact IH.
Qed.

Lemma insert_sorted_comm (x y : string) (l : list string) :
  insert_sorted x (insert_sorted y l) = insert_sorted y (insert_sorted x l).
Proof.
  induction l as [|z rest IH]; simpl.
  - destruct (x <=? y)%string eqn:Hxy, (y <=? x)%string eqn:Hyx;
      try reflexivity.
    + rewrite (le_str_antisym x y Hxy Hyx). reflexivity.
    + pose proof (not_le_str _ _ Hxy) as H. unfold le_str in H. congruence.
  - destruct (x <=? z)%string eqn:Hxz, (y <=? z)%string eqn:Hyz; simpl;
      rewrite ?Hxz, ?Hyz.
    + destruct (x <=? y)%string eqn:Hxy, (y <=? x)%string eqn:Hyx;
        try reflexivity.
      * rewrite (le_str_antisym x y Hxy Hyx). reflexivity.
      * pose proof (not_le_str _ _ Hxy) as H. unfold le_str in H.
        congruence.
    + destruct (y <=? x)%string eqn:Hyx; [|reflexivity].
      pose proof (le_str_trans y x z Hyx Hxz) as H. unfold le_str in H.
      congruence.
    + destruct (x <=? y)%string eqn:Hxy; [|reflexivity].
      pose proof (le_str_trans x y z Hxy Hyz) as H. unfold le_str in H.
      congruence.
    + rewrite IH. reflexivity.
Qed.

(** The result of [sorted] does not depend on the order in which the
    files were listed. *)
Lemma sorted_permutation_invariant (l1 l2 : list string) :
  Permutation l1 l2 -> sorted l1 = sorted l2.
Proof.
  induction 1 as [|x l1 l2 _ IH|x y l|l1 l2 l3 _ IH1 _ IH2]; simpl.
  - reflexivity.
  - rewrite IH. reflexivity.
  - apply insert_sorted_comm.
  - congruence.
Qed.

Lemma StronglySorted_selected (files : list string) (idxs : list nat)
  (files' : list string) :
  StronglySorted le_str files -> StronglySorted lt idxs ->
  selected_by files idxs files' -> StronglySorted le_str files'.
Proof.
  intros Hfiles Hidx Hsel.
  assert (Hmono : forall i j a b, i < j -> nth_error files i = Some a ->
                    nth_error files j = Some b -> le_str a b).
  { clear - Hfiles. induction Hfiles as [|x l Hl IH Hx];
      intros i j a b Hij Ha Hb.
    - destruct i; discriminate.
    - destruct j as [|j]; [lia|]. simpl in Hb.
      destruct i as [|i]; simpl in Ha.
      + injection Ha as <-. rewrite Forall_forall in Hx. apply Hx.
        eapply nth_error_In; eauto.
      + eapply (IH i j); eauto. lia. }
  unfold selected_by in Hsel.
  induction Hsel as [|i f idxs files' Hf Hsel IH]; [constructor|].
  apply StronglySorted_inv in Hidx. destruct Hidx as [Hidx Hi].
  constructor; [apply IH; exact Hidx|].
  apply Forall_forall. intros g Hg.
  apply In_nth_error in Hg. destruct Hg as [k Hk].
  destruct (Forall2_nth_error_l _ _ _ k g (Forall2_flip Hsel) Hk)
    as [j [Hj Hgj]].
  rewrite Forall_forall in Hi.
  eapply (Hmono i j); eauto. apply Hi. eapply nth_error_In; eauto.
Qed.

(** ** What a successful construction establishes *)

Lemma AudioMelDataset_init_inv (find_files : file_finder)
  (root_dir audio_query mel_query : string) (al ml : loader)
  (Ta Tm : option Z) (r : bool) (ds : AudioMelDataset.t) :
  AudioMelDataset.__init__ find_files root_dir audio_query mel_query
                           al ml Ta Tm r = Ok ds ->
  exists audio mel,
    AudioMelDataset.filtered_files find_files root_dir audio_query mel_query
                                   al ml Ta Tm = Ok (audio, mel)
    /\ audio <> []
    /\ List.length audio = List.length mel
    /\ ds = AudioMelDataset.mk
              (utt_ids_from "-wave.npy" audio_query audio) audio mel al ml r.
Proof.
  unfold AudioMelDataset.__init__. intros H.
  bind_ok H filtered Hf. destruct filtered as [audio mel]. simpl in H.
  destruct (List.length audio =? 0)%nat eqn:H0; [discriminate|].
  destruct (List.length audio =? List.length mel)%nat eqn:Heq;
    simpl in H; [|discriminate].
  injection H as <-.
  exists audio, mel. repeat split.
  - intros ->. discriminate.
  - apply Nat.eqb_eq. exact Heq.
Qed.

(** The lists that leave the filtering are in sorted path order. *)
Lemma AudioMelDataset_filtered_sorted (find_files : file_finder)
  (root_dir audio_query mel_query : string) (al ml : loader)
  (Ta Tm : option Z) (audio mel : list string) :
  AudioMelDataset.filtered_files find_files root_dir audio_query mel_query
                                 al ml Ta Tm = Ok (audio, mel) ->
  StronglySorted le_str audio /\ StronglySorted le_str mel.
Proof.
  unfold AudioMelDataset.filtered_files. intros H.
  bind_ok H filtered Hf. destruct filtered as [a1 m1]. simpl in H.
  assert (H1 : StronglySorted le_str a1 /\ StronglySorted le_str m1).
  { destruct Ta as [T|].
    - destruct (filter_by_audio_length_spec _ _ _ _ _ _ Hf)
        as [idxs [[Hs _] [Ha Hm]]].
      split.
      + exact (StronglySorted_selected _ _ _ (sorted_ordered _) Hs Ha).
      + exact (StronglySorted_selected _ _ _ (sorted_ordered _) Hs Hm).
    - injection Hf as <- <-. split; apply sorted_ordered. }
  destruct H1 as [Ha1 Hm1].
  destruct Tm as [T|].
  - destruct (filter_by_mel_length_spec _ _ _ _ _ _ H)
      as [idxs [[Hs _] [Ha Hm]]].
    split.
    + exact (StronglySorted_selected _ _ _ Ha1 Hs Ha).
    + exact (StronglySorted_selected _ _ _ Hm1 Hs Hm).
  - injection H as <- <-. auto.
Qed.

(** ** Generators *)

Lemma paired_body_item (self : AudioMelDataset.t) (j : nat)
  (utt_id : string) (it : items (ndarray * ndarray)) :
  AudioMelDataset.generator_body self j utt_id = Ok it <->
  paired_item_at self j utt_id it.
Proof.
  unfold AudioMelDataset.generator_body, paired_item_at. split.
  - intros H.
    bind_ok H fa Hfa. bind_ok H fm Hfm. bind_ok H a Ha. bind_ok H m Hm.
    injection H as <-. apply getitem_Some in Hfa, Hfm.
    exists fa, fm, a, m. auto.
  - intros (fa & fm & a & m & Hfa & Hfm & Ha & Hm & ->).
    apply getitem_Some in Hfa, Hfm.
    rewrite Hfa; simpl. rewrite Hfm; simpl.
    rewrite Ha; simpl. rewrite Hm; simpl. reflexivity.
Qed.

Lemma audio_body_item (self : AudioDataset.t) (j : nat)
  (utt_id : string) (it : items ndarray) :
  AudioDataset.generator_body self j utt_id = Ok it <->
  audio_item_at self j utt_id it.
Proof.
  unfold AudioDataset.generator_body, audio_item_at. split.
  - intros H. bind_ok H fa Hfa. bind_ok H a Ha.
    injection H as <-. apply getitem_Some in Hfa.
    exists fa, a. auto.
  - intros (fa & a & Hfa & Ha & ->).
    apply getitem_Some in Hfa.
    rewrite Hfa; simpl. rewrite Ha; simpl. reflexivity.
Qed.

(** With files that load, the body returns exactly at the positions of
    the file list. *)
Lemma paired_body_in_range (self : AudioMelDataset.t) (i : nat)
  (utt_id : string) :
  List.length (AudioMelDataset.audio_files self)
    = List.length (AudioMelDataset.mel_files self) ->
  loads_all (AudioMelDataset.audio_load_fn self)
            (AudioMelDataset.audio_files self) ->
  loads_all (AudioMelDataset.mel_load_fn self)
            (AudioMelDataset.mel_files self) ->
  i < List.length (AudioMelDataset.audio_files self) ->
  exists it, AudioMelDataset.generator_body self i utt_id = Ok it.
Proof.
  intros Hlen Hal Hml Hi. unfold AudioMelDataset.generator_body.
  destruct (nth_error (AudioMelDataset.audio_files self) i) as [fa|] eqn:Hfa;
    [|apply nth_error_None in Hfa; lia].
  destruct (nth_error (AudioMelDataset.mel_files self) i) as [fm|] eqn:Hfm;
    [|apply nth_error_None in Hfm; lia].
  destruct (Hal fa (nth_error_In _ _ Hfa)) as [a Ha].
  destruct (Hml fm (nth_error_In _ _ Hfm)) as [m Hm].
  unfold getitem. rewrite Hfa, Hfm. simpl. rewrite Ha. simpl.
  rewrite Hm. simpl. eauto.
Qed.

Lemma paired_body_out_of_range (self : AudioMelDataset.t) (i : nat)
  (utt_id : string) :
  List.length (AudioMelDataset.audio_files self) <= i ->
  AudioMelDataset.generator_body self i utt_id = Raise IndexError.
Proof.
  intros Hi. unfold AudioMelDataset.generator_body.
  rewrite getitem_out_of_range by exact Hi. reflexivity.
Qed.

Lemma audio_body_in_range (self : AudioDataset.t) (i : nat)
  (utt_id : string) :
  loads_all (AudioDataset.audio_load_fn self)
            (AudioDataset.audio_files self) ->
  i < List.length (AudioDataset.audio_files self) ->
  exists it, AudioDataset.generator_body self i utt_id = Ok it.
Proof.
  intros Hal Hi. unfold AudioDataset.generator_body.
  destruct (nth_error (AudioDataset.audio_files self) i) as [fa|] eqn:Hfa;
    [|apply nth_error_None in Hfa; lia].
  destruct (Hal fa (nth_error_In _ _ Hfa)) as [a Ha].
  unfold getitem. rewrite Hfa. simpl. rewrite Ha. simpl. eauto.
Qed.

Lemma audio_body_out_of_range (self : AudioDataset.t) (i : nat)
  (utt_id : string) :
  List.length (AudioDataset.audio_files self) <= i ->
  AudioDataset.generator_body self i utt_id = Raise IndexError.
Proof.
  intros Hi. unfold AudioDataset.generator_body.
  rewrite getitem_out_of_range by exact Hi. reflexivity.
Qed.

(** The shape of a run entered at position [i], for any loop body that
    returns exactly at the positions below [n]. *)
Section PositionalRun.
Context {A : Type}.
Variable body : nat -> string -> result (items A).
Variable n : nat.
Variable run_from : nat -> list string -> run A.
Hypothesis run_nil : forall i, run_from i [] = ([], None).
Hypothesis run_cons : forall i utt_id rest,
  run_from i (utt_id :: rest) =
  match body i utt_id with
  | Raise e => ([], Some e)
  | Ok it => let (yielded, stop) := run_from (S i) rest in
             (it :: yielded, stop)
  end.
Hypothesis body_in : forall i utt_id, i < n -> exists it, body i utt_id = Ok it.
Hypothesis body_out : forall i utt_id, n <= i -> body i utt_id = Raise IndexError.

Lemma run_from_positional (utt_ids : list string) (i : nat) :
  List.length (fst (run_from i utt_ids))
    = Nat.min (List.length utt_ids) (n - i)
  /\ (forall j utt_id, j < n - i -> nth_error utt_ids j = Some utt_id ->
        exists it, nth_error (fst (run_from i utt_ids)) j = Some it
                   /\ body (i + j) utt_id = Ok it)
  /\ snd (run_from i utt_ids)
     = (if (List.length utt_ids <=? n - i)%nat
        then None else Some IndexError).
Proof.
  revert i; induction utt_ids as [|utt_id rest IH]; intros i.
  - rewrite run_nil. simpl. repeat split.
    intros j u _ Hj. destruct j; discriminate.
  - rewrite run_cons.
    destruct (Nat.lt_ge_cases i n) as [Hi|Hi].
    + destruct (body_in i utt_id Hi) as [it Hit]. rewrite Hit.
      specialize (IH (S i)).
      destruct (run_from (S i) rest) as [yielded stop].
      cbn [fst snd List.length] in *. destruct IH as [Hlen [Hitems Hstop]].
      repeat split.
      * rewrite Hlen. lia.
      * intros j u Hj Hu. destruct j as [|j]; cbn [nth_error] in *.
        -- injection Hu as <-. exists it. rewrite Nat.add_0_r. auto.
        -- destruct (Hitems j u ltac:(lia) Hu) as [it' [H1 H2]].
           exists it'. split; [exact H1|].
           replace (i + S j) with (S i + j) by lia. exact H2.
      * rewrite Hstop.
        destruct (Nat.leb_spec (List.length rest) (n - S i)),
                 (Nat.leb_spec (S (List.length rest)) (n - i));
          try reflexivity; lia.
    + rewrite (body_out i utt_id Hi). simpl.
      replace (n - i) with 0 by lia. repeat split.
      intros j u Hj. lia.
Qed.

(** The values of the ids do not decide which positions are read. *)
Hypothesis body_ids : forall i u u',
  match body i u, body i u' with
  | Ok it, Ok it' => arrays_of it = arrays_of it'
  | Raise e, Raise e' => e = e'
  | _, _ => False
  end.

Lemma run_from_ids_irrelevant (utt_ids utt_ids' : list string) (i : nat) :
  List.length utt_ids = List.length utt_ids' ->
  map arrays_of (fst (run_from i utt_ids))
    = map arrays_of (fst (run_from i utt_ids'))
  /\ snd (run_from i utt_ids) = snd (run_from i utt_ids').
Proof.
  revert utt_ids' i; induction utt_ids as [|u rest IH];
    intros [|u' rest'] i Hlen; try discriminate.
  - rewrite run_nil. auto.
  - rewrite !run_cons. injection Hlen as Hlen.
    pose proof (body_ids i u u') as Hb.
    destruct (body i u) as [it|e], (body i u') as [it'|e'];
      try contradiction.
    + specialize (IH rest' (S i) Hlen).
      destruct (run_from (S i) rest) as [y s],
               (run_from (S i) rest') as [y' s'].
      simpl in *. destruct IH as [IH1 IH2]. split; congruence.
    + subst. auto.
Qed.
End PositionalRun.

Lemma paired_body_ids (self : AudioMelDataset.t) (i : nat) (u u' : string) :
  match AudioMelDataset.generator_body self i u,
        AudioMelDataset.generator_body self i u' with
  | Ok it, Ok it' => arrays_of it = arrays_of it'
  | Raise e, Raise e' => e = e'
  | _, _ => False
  end.
Proof.
  unfold AudioMelDataset.generator_body.
  destruct (getitem (AudioMelDataset.audio_files self) i); simpl; [|auto].
  destruct (getitem (AudioMelDataset.mel_files self) i); simpl; [|auto].
  destruct (AudioMelDataset.audio_load_fn self a); simpl; [|auto].
  destruct (AudioMelDataset.mel_load_fn self a0); simpl; [|auto].
  destruct (AudioMelDataset.return_utt_id self); reflexivity.
Qed.

Lemma audio_body_ids (self : AudioDataset.t) (i : nat) (u u' : string) :
  match AudioDataset.generator_body self i u,
        AudioDataset.generator_body self i u' with
  | Ok it, Ok it' => arrays_of it = arrays_of it'
  | Raise e, Raise e' => e = e'
  | _, _ => False
  end.
Proof.
  unfold AudioDataset.generator_body.
  destruct (getitem (AudioDataset.audio_files self) i); simpl; [|auto].
  destruct (AudioDataset.audio_load_fn self a); simpl; [|auto].
  destruct (AudioDataset.return_utt_id self); reflexivity.
Qed.

Lemma positional_of_run_from {A : Type}
  (body : nat -> string -> result (items A))
  (item_at : nat -> string -> items A -> Prop) (n : nat)
  (utt_ids : list string) (r : run A) :
  (forall j u it, body j u = Ok it -> item_at j u it) ->
  List.length (fst r) = Nat.min (List.length utt_ids) (n - 0)
  /\ (forall j utt_id, j < n - 0 -> nth_error utt_ids j = Some utt_id ->
        exists it, nth_error (fst r) j = Some it
                   /\ body (0 + j) utt_id = Ok it)
  /\ snd r = (if (List.length utt_ids <=? n - 0)%nat
              then None else Some IndexError) ->
  positional item_at n utt_ids r.
Proof.
  intros Hbody. rewrite Nat.sub_0_r. intros [Hlen [Hitems Hstop]].
  repeat split; try assumption.
  intros j u Hj Hu. destruct (Hitems j u Hj Hu) as [it [H1 H2]].
  exists it. split; [exact H1|]. apply Hbody. exact H2.
Qed.

Lemma paired_generator_positional (self : AudioMelDataset.t)
  (utt_ids : list string) :
  List.length (AudioMelDataset.audio_files self)
    = List.length (AudioMelDataset.mel_files self) ->
  loads_all (AudioMelDataset.audio_load_fn self)
            (AudioMelDataset.audio_files self) ->
  loads_all (AudioMelDataset.mel_load_fn self)
            (AudioMelDataset.mel_files self) ->
  positional (paired_item_at self)
             (List.length (AudioMelDataset.audio_files self)) utt_ids
             (AudioMelDataset.generator self utt_ids).
Proof.
  intros Hlen Hal Hml.
  apply (positional_of_run_from (AudioMelDataset.generator_body self)).
  - intros j u it. apply paired_body_item.
  - apply (run_from_positional (AudioMelDataset.generator_body self) _
             (AudioMelDataset.generator_from self)); try reflexivity.
    + intros i u Hi. apply paired_body_in_range; assumption.
    + intros i u Hi. apply paired_body_out_of_range; assumption.
Qed.

Lemma audio_generator_positional (self : AudioDataset.t)
  (utt_ids : list string) :
  loads_all (AudioDataset.audio_load_fn self)
            (AudioDataset.audio_files self) ->
  positional (audio_item_at self)
             (List.length (AudioDataset.audio_files self)) utt_ids
             (AudioDataset.generator self utt_ids).
Proof.
  intros Hal.
  apply (positional_of_run_from (AudioDataset.generator_body self)).
  - intros j u it. apply audio_body_item.
  - apply (run_from_positional (AudioDataset.generator_body self) _
             (AudioDataset.generator_from self)); try reflexivity.
    + intros i u Hi. apply audio_body_in_range; assumption.
    + intros i u Hi. apply audio_body_out_of_range; assumption.
Qed.

(** C9. Property: the generators choose files by the position of the
    enumeration and never by the value of a supplied id.  With files that
    load, a list of [k] ids against [n] files yields the items of the first
    [min k n] positions; when [k <= n] the run ends normally, and when
    [k > n] it raises [IndexError] at position [n].  Two id lists of the
    same length read the same arrays and stop the same way. *)
Theorem generator_selects_files_by_position :
  (forall (self : AudioMelDataset.t) (utt_ids : list string),
     List.length (AudioMelDataset.audio_files self)
       = List.length (AudioMelDataset.mel_files self) ->
     loads_all (AudioMelDataset.audio_load_fn self)
               (AudioMelDataset.audio_files self) ->
     loads_all (AudioMelDataset.mel_load_fn self)
               (AudioMelDataset.mel_files self) ->
     positional (paired_item_at self)
                (List.length (AudioMelDataset.audio_files self)) utt_ids
                (AudioMelDataset.generator self utt_ids)
     /\ forall utt_ids', List.length utt_ids' = List.length utt_ids ->
          map arrays_of (fst (AudioMelDataset.generator self utt_ids'))
            = map arrays_of (fst (AudioMelDataset.generator self utt_ids))
          /\ snd (AudioMelDataset.generator self utt_ids')
             = snd (AudioMelDataset.generator self utt_ids))
  /\
  (forall (self : AudioDataset.t) (utt_ids : list string),
     loads_all (AudioDataset.audio_load_fn self)
               (AudioDataset.audio_files self) ->
     positional (audio_item_at self)
                (List.length (AudioDataset.audio_files self)) utt_ids
                (AudioDataset.generator self utt_ids)
     /\ forall utt_ids', List.length utt_ids' = List.length utt_ids ->
          map arrays_of (fst (AudioDataset.generator self utt_ids'))
            = map arrays_of (fst (AudioDataset.generator self utt_ids))
          /\ snd (AudioDataset.generator self utt_ids')
             = snd (AudioDataset.generator self utt_ids)).
Proof.
  split.
  - intros self utt_ids Hlen Hal Hml. split.
    + apply paired_generator_positional; assumption.
    + intros utt_ids' Hk.
      apply (run_from_ids_irrelevant (AudioMelDataset.generator_body self)
               (AudioMelDataset.generator_from self));
        try reflexivity; try assumption.
      apply paired_body_ids.
  - intros self utt_ids Hal. split.
    + apply audio_generator_positional; assumption.
    + intros utt_ids' Hk.
      apply (run_from_ids_irrelevant (AudioDataset.generator_body self)
               (AudioDataset.generator_from self));
        try reflexivity; try assumption.
      apply audio_body_ids.
Qed.

(** ** Thresholds that drop nothing *)

Lemma take_idxs_all_app (pre files : list string) :
  take_idxs (pre ++ files) (seq (List.length pre) (List.length files))
    = Ok files.
Proof.
  revert pre; induction files as [|f rest IH]; intros pre; simpl;
    [reflexivity|].
  unfold take_idxs in *. simpl.
  unfold getitem at 1.
  rewrite nth_error_app2 by lia. rewrite Nat.sub_diag. simpl.
  specialize (IH (pre ++ [f])).
  rewrite <- app_assoc, length_app in IH. simpl in IH.
  rewrite Nat.add_1_r in IH. rewrite IH. reflexivity.
Qed.

Lemma take_idxs_all (files : list string) :
  take_idxs files (seq 0 (List.length files)) = Ok files.
Proof. exact (take_idxs_all_app [] files). Qed.

Lemma load_lengths_all_above (load_fn : loader) (t : Z)
  (files : list string) :
  (forall f, In f files ->
     exists n, length_of load_fn f = Ok n /\ (t < n)%Z) ->
  exists lengths,
    load_lengths load_fn files = Ok lengths
    /\ List.length lengths = List.length files
    /\ Forall (fun n => (t < n)%Z) lengths.
Proof.
  unfold load_lengths.
  induction files as [|f rest IH]; intros H; simpl.
  - exists []. repeat split. constructor.
  - destruct (H f (or_introl eq_refl)) as [n [Hn Hlt]].
    destruct IH as [lengths [Hl [Hlen Hall]]].
    { intros g Hg. apply H. right. exact Hg. }
    exists (n :: lengths). rewrite Hn. simpl. rewrite Hl. simpl.
    repeat split; [congruence|constructor; assumption].
Qed.

Lemma retained_idxs_all_above (files : list string) (lengths : list Z)
  (t : Z) :
  List.length lengths = List.length files ->
  Forall (fun n => (t < n)%Z) lengths ->
  retained_idxs files lengths t = Ok (seq 0 (List.length files)).
Proof.
  intros Hlen Hall. unfold retained_idxs.
  rewrite (filterM_filter _ (fun _ => true)).
  - rewrite filter_true. reflexivity.
  - intros idx Hidx. apply in_seq in Hidx.
    destruct (nth_error lengths idx) as [n|] eqn:Hn;
      [|apply nth_error_None in Hn; lia].
    unfold getitem. rewrite Hn. simpl.
    rewrite Forall_forall in Hall.
    specialize (Hall n (nth_error_In _ _ Hn)).
    apply Z.gtb_lt in Hall. rewrite Hall. reflexivity.
Qed.

Lemma filtered_files_no_loss (find_files : file_finder)
  (root_dir audio_query mel_query : string) (al ml : loader)
  (Ta Tm : option Z) :
  List.length (find_files root_dir audio_query)
    = List.length (find_files root_dir mel_query) ->
  all_above al Ta (find_files root_dir audio_query) ->
  all_above ml Tm (find_files root_dir mel_query) ->
  AudioMelDataset.filtered_files find_files root_dir audio_query mel_query
                                 al ml Ta Tm
    = Ok (sorted (find_files root_dir audio_query),
          sorted (find_files root_dir mel_query)).
Proof.
  intros Hlen Ha Hm. unfold AudioMelDataset.filtered_files.
  set (audio := sorted (find_files root_dir audio_query)).
  set (mel := sorted (find_files root_dir mel_query)).
  assert (Hlen' : List.length audio = List.length mel).
  { unfold audio, mel. rewrite !sorted_length. exact Hlen. }
  assert (H1 : match Ta with
               | Some threshold =>
                   AudioMelDataset.filter_by_audio_length al threshold
                                                          audio mel
               | None => Ok (audio, mel)
               end = Ok (audio, mel)).
  { destruct Ta as [t|]; [|reflexivity].
    unfold AudioMelDataset.filter_by_audio_length.
    destruct (load_lengths_all_above al t audio) as [ls [Hl [Hll Hall]]].
    { intros f Hf. apply Ha.
      eapply Permutation_in; [apply Permutation_sym, sorted_perm|exact Hf]. }
    rewrite Hl. simpl.
    rewrite (retained_idxs_all_above _ _ _ Hll Hall). simpl.
    rewrite take_idxs_all. simpl.
    rewrite Hlen', take_idxs_all. reflexivity. }
  rewrite H1. simpl.
  destruct Tm as [t|]; [|reflexivity].
  unfold AudioMelDataset.filter_by_mel_length.
  destruct (load_lengths_all_above ml t mel) as [ls [Hl [Hll Hall]]].
  { intros f Hf. apply Hm.
    eapply Permutation_in; [apply Permutation_sym, sorted_perm|exact Hf]. }
  rewrite Hl. simpl.
  rewrite (retained_idxs_all_above _ _ _ Hll Hall). simpl.
  rewrite <- Hlen' at 1. rewrite take_idxs_all. simpl.
  rewrite take_idxs_all. reflexivity.
Qed.

Lemma utt_ids_from_length (suffix query : string) (files : list string) :
  List.length (utt_ids_from suffix query files) = List.length files.
Proof.
  unfold utt_ids_from. destruct (contains ".npy" query);
    apply length_map.
Qed.

Lemma loads_all_perm (load_fn : loader) (l l' : list string) :
  Permutation l l' -> loads_all load_fn l -> loads_all load_fn l'.
Proof.
  intros Hp H f Hf. apply H.
  eapply Permutation_in; [apply Permutation_sym, Hp|exact Hf].
Qed.

(** C8. Property: over [N > 0] audio files and [N] mel files of which no
    threshold drops any, and with files that load, the paired adapter is
    constructed over the two sorted lists; the generator called with the
    full id list yields exactly [N] items and ends normally, the [i]-th item
    holding the audio loaded from the [i]-th sorted audio file and the mel
    loaded from the [i]-th sorted mel file; and [get_len_dataset] returns
    [N]. *)
Theorem paired_adapter_yields_aligned_records
  (find_files : file_finder) (root_dir audio_query mel_query : string)
  (al ml : loader) (Ta Tm : option Z) (r : bool) (N : nat) :
  0 < N ->
  List.length (find_files root_dir audio_query) = N ->
  List.length (find_files root_dir mel_query) = N ->
  all_above al Ta (find_files root_dir audio_query) ->
  all_above ml Tm (find_files root_dir mel_query) ->
  loads_all al (find_files root_dir audio_query) ->
  loads_all ml (find_files root_dir mel_query) ->
  exists ds,
    AudioMelDataset.__init__ find_files root_dir audio_query mel_query
                             al ml Ta Tm r = Ok ds
    /\ AudioMelDataset.get_len_dataset ds = N
    /\ AudioMelDataset.audio_files ds
       = sorted (find_files root_dir audio_query)
    /\ AudioMelDataset.mel_files ds
       = sorted (find_files root_dir mel_query)
    /\ exists yielded,
         AudioMelDataset.generator ds (AudioMelDataset.utt_ids ds)
           = (yielded, None)
         /\ List.length yielded = N
         /\ forall i, i < N ->
              exists utt_id audio_file mel_file audio mel,
                nth_error (AudioMelDataset.utt_ids ds) i = Some utt_id
                /\ nth_error (sorted (find_files root_dir audio_query)) i
                   = Some audio_file
                /\ nth_error (sorted (find_files root_dir mel_query)) i
                   = Some mel_file
                /\ al audio_file = Ok audio
                /\ ml mel_file = Ok mel
                /\ nth_error yielded i
                   = Some (if r then WithId utt_id (audio, mel)
                           else Arrays (audio, mel)).
Proof.
  intros HN HA HM Hta Htm Hal Hml.
  set (audio := sorted (find_files root_dir audio_query)).
  set (mel := sorted (find_files root_dir mel_query)).
  set (ds := AudioMelDataset.mk
               (utt_ids_from "-wave.npy" audio_query audio) audio mel al ml r).
  assert (Hla : List.length audio = N)
    by (unfold audio; rewrite sorted_length; exact HA).
  assert (Hlm : List.length mel = N)
    by (unfold mel; rewrite sorted_length; exact HM).
  exists ds.
  assert (Hinit : AudioMelDataset.__init__ find_files root_dir audio_query
                    mel_query al ml Ta Tm r = Ok ds).
  { unfold AudioMelDataset.__init__.
    rewrite filtered_files_no_loss by (try assumption; congruence).
    cbn [rbind fst snd]. fold audio. fold mel. rewrite Hla, Hlm.
    destruct (Nat.eqb_spec N 0) as [->|_]; [lia|].
    rewrite Nat.eqb_refl. reflexivity. }
  assert (Hlen : AudioMelDataset.get_len_dataset ds = N).
  { unfold AudioMelDataset.get_len_dataset, ds. simpl.
    rewrite utt_ids_from_length. exact Hla. }
  split; [exact Hinit|]. split; [exact Hlen|].
  split; [reflexivity|]. split; [reflexivity|].
  destruct (paired_generator_positional ds (AudioMelDataset.utt_ids ds))
    as [Hcount [Hitems Hstop]].
  { simpl. congruence. }
  { simpl. eapply loads_all_perm; [apply sorted_perm|exact Hal]. }
  { simpl. eapply loads_all_perm; [apply sorted_perm|exact Hml]. }
  unfold AudioMelDataset.get_len_dataset in Hlen.
  destruct (AudioMelDataset.generator ds (AudioMelDataset.utt_ids ds))
    as [yielded stop].
  cbn [fst snd] in *.
  assert (Hn : List.length (AudioMelDataset.audio_files ds) = N)
    by exact Hla.
  rewrite Hn, Hlen in *. rewrite Nat.leb_refl in Hstop. subst stop.
  exists yielded. split; [reflexivity|].
  split; [rewrite Hcount; lia|].
  intros i Hi.
  destruct (nth_error (AudioMelDataset.utt_ids ds) i) as [utt_id|] eqn:Hu;
    [|apply nth_error_None in Hu; lia].
  destruct (Hitems i utt_id Hi Hu)
    as (it & Hit & fa & fm & a & m & Hfa & Hfm & Ha & Hm & ->).
  exists utt_id, fa, fm, a, m. simpl in *. auto 10.
Qed.

(** ** Determinism *)

(** A run reads the loaders only at the files of the adapter. *)
Lemma paired_generator_same_reads (self : AudioMelDataset.t)
  (al' ml' : loader) (utt_ids : list string) :
  same_reads (AudioMelDataset.audio_load_fn self) al'
             (AudioMelDataset.audio_files self) ->
  same_reads (AudioMelDataset.mel_load_fn self) ml'
             (AudioMelDataset.mel_files self) ->
  AudioMelDataset.generator
    (AudioMelDataset.mk (AudioMelDataset.utt_ids self)
                        (AudioMelDataset.audio_files self)
                        (AudioMelDataset.mel_files self)
                        al' ml' (AudioMelDataset.return_utt_id self))
    utt_ids
  = AudioMelDataset.generator self utt_ids.
Proof.
  intros Ha Hm. unfold AudioMelDataset.generator.
  generalize 0 as i.
  induction utt_ids as [|u rest IH]; intros i; simpl; [reflexivity|].
  rewrite IH.
  replace (AudioMelDataset.generator_body _ i u)
    with (AudioMelDataset.generator_body self i u); [reflexivity|].
  unfold AudioMelDataset.generator_body. simpl.
  unfold getitem.
  destruct (nth_error (AudioMelDataset.audio_files self) i) as [fa|] eqn:Hfa;
    simpl; [|reflexivity].
  destruct (nth_error (AudioMelDataset.mel_files self) i) as [fm|] eqn:Hfm;
    simpl; [|reflexivity].
  rewrite (Ha fa (nth_error_In _ _ Hfa)), (Hm fm (nth_error_In _ _ Hfm)).
  reflexivity.
Qed.

Lemma filtered_files_listing_order (find_files find_files' : file_finder)
  (root_dir audio_query mel_query : string) (al ml : loader)
  (Ta Tm : option Z) :
  Permutation (find_files root_dir audio_query)
              (find_files' root_dir audio_query) ->
  Permutation (find_files root_dir mel_query)
              (find_files' root_dir mel_query) ->
  AudioMelDataset.filtered_files find_files' root_dir audio_query mel_query
                                 al ml Ta Tm
  = AudioMelDataset.filtered_files find_files root_dir audio_query mel_query
                                   al ml Ta Tm.
Proof.
  intros Ha Hm. unfold AudioMelDataset.filtered_files.
  rewrite (sorted_permutation_invariant _ _ Ha),
          (sorted_permutation_invariant _ _ Hm).
  reflexivity.
Qed.

(** C6. Property: discovery sorts the matched paths lexicographically (the
    sorted list is ordered and a permutation of what was listed, so the
    adapter does not depend on the listing order), the files and the ids
    of a constructed adapter are in that sorted path order, and a second
    run of the generator over the same id list, with loaders that read the
    same arrays from the adapter's files, yields the same sequence of items
    and ends the same way. *)
Theorem dataset_iteration_is_deterministic
  (find_files : file_finder) (root_dir audio_query mel_query : string)
  (al ml : loader) (Ta Tm : option Z) (r : bool) (ds : AudioMelDataset.t) :
  AudioMelDataset.__init__ find_files root_dir audio_query mel_query
                           al ml Ta Tm r = Ok ds ->
  (StronglySorted le_str (sorted (find_files root_dir audio_query))
   /\ Permutation (find_files root_dir audio_query)
                  (sorted (find_files root_dir audio_query)))
  /\ (StronglySorted le_str (sorted (find_files root_dir mel_query))
      /\ Permutation (find_files root_dir mel_query)
                     (sorted (find_files root_dir mel_query)))
  /\ StronglySorted le_str (AudioMelDataset.audio_files ds)
  /\ StronglySorted le_str (AudioMelDataset.mel_files ds)
  /\ AudioMelDataset.utt_ids ds
     = utt_ids_from "-wave.npy" audio_query (AudioMelDataset.audio_files ds)
  /\ (forall find_files',
        Permutation (find_files root_dir audio_query)
                    (find_files' root_dir audio_query) ->
        Permutation (find_files root_dir mel_query)
                    (find_files' root_dir mel_query) ->
        AudioMelDataset.__init__ find_files' root_dir audio_query mel_query
                                 al ml Ta Tm r = Ok ds)
  /\ (forall al' ml' utt_ids,
        same_reads al al' (AudioMelDataset.audio_files ds) ->
        same_reads ml ml' (AudioMelDataset.mel_files ds) ->
        AudioMelDataset.generator
          (AudioMelDataset.mk (AudioMelDataset.utt_ids ds)
                              (AudioMelDataset.audio_files ds)
                              (AudioMelDataset.mel_files ds)
                              al' ml' (AudioMelDataset.return_utt_id ds))
          utt_ids
        = AudioMelDataset.generator ds utt_ids).
Proof.
  intros Hinit.
  destruct (AudioMelDataset_init_inv _ _ _ _ _ _ _ _ _ _ Hinit)
    as (audio & mel & Hf & Hne & Hlen & Hds).
  destruct (AudioMelDataset_filtered_sorted _ _ _ _ _ _ _ _ _ _ Hf)
    as [Hsa Hsm].
  split; [split; [apply sorted_ordered|apply sorted_perm]|].
  split; [split; [apply sorted_ordered|apply sorted_perm]|].
  subst ds. cbn [AudioMelDataset.audio_files AudioMelDataset.mel_files
                 AudioMelDataset.utt_ids AudioMelDataset.return_utt_id].
  repeat (split; [assumption || reflexivity|]).
  split.
  - intros find_files' Ha Hm.
    unfold AudioMelDataset.__init__ in *.
    rewrite (filtered_files_listing_order find_files find_files')
      by assumption.
    exact Hinit.
  - intros al' ml' utt_ids Ha Hm.
    apply (paired_generator_same_reads
             (AudioMelDataset.mk (utt_ids_from "-wave.npy" audio_query audio)
                                 audio mel al ml r)); assumption.
Qed.

(** ** Utterance ids *)

Lemma prefix_refl (s : string) : prefix s s = true.
Proof.
  induction s as [|c s IH]; simpl; [reflexivity|].
  destruct (ascii_dec c c); [exact IH|congruence].
Qed.

Lemma replace_from_cons_0 (old new : string) (c : ascii) (rest : string) :
  replace_from old new 0 (String c rest) =
  if prefix old (String c rest)
  then (new ++ replace_from old new (String.length old - 1) rest)%string
  else String c (replace_from old new 0 rest).
Proof. reflexivity. Qed.

Lemma replace_from_skip_all (old new : string) (s : string) (k : nat) :
  String.length s <= k -> replace_from old new k s = EmptyString.
Proof.
  revert k; induction s as [|c s IH]; intros k Hk; simpl; [reflexivity|].
  destruct k as [|k]; simpl in Hk; [lia|]. apply IH. lia.
Qed.

(** Removing every occurrence of a suffix token that occurs at the end
    only strips it. *)
Lemma replace_only_suffix (old stem : string) :
  old <> EmptyString -> only_as_suffix old stem ->
  replace old "" (stem ++ old) = stem.
Proof.
  intros Hold. unfold replace, only_as_suffix.
  induction stem as [|c stem IH]; intros H.
  - destruct old as [|c rest]; [congruence|].
    change (("" ++ String c rest)%string) with (String c rest).
    rewrite replace_from_cons_0, prefix_refl.
    rewrite replace_from_skip_all by (simpl; lia). reflexivity.
  - change ((String c stem ++ old)%string) with (String c (stem ++ old)).
    rewrite replace_from_cons_0.
    pose proof (H 0 ltac:(simpl; lia)) as H0. simpl slice_from in H0.
    change ((String c stem ++ old)%string) with (String c (stem ++ old))
      in H0.
    rewrite H0. f_equal. apply IH.
    intros i Hi. apply (H (S i)). simpl. lia.
Qed.

(** C7. Property: the utterance ids are derived from the files kept, by one
    of two rules chosen by the query string.  When the query contains
    [".npy"], the id is the basename with every occurrence of the fixed
    token removed (["-wave.npy"] for the audio adapters on the audio query,
    ["-feats.npy"] for the mel adapter on the mel query); for a basename
    that carries the token as its suffix and nowhere else this is the
    basename with the suffix stripped, so [utt1-wave.npy] gives [utt1].
    Otherwise the id is the basename without its extension, so [utt2.h5]
    gives [utt2]. *)
Theorem utt_ids_follow_the_query :
  (forall find_files root_dir audio_query mel_query al ml Ta Tm r ds,
     AudioMelDataset.__init__ find_files root_dir audio_query mel_query
                              al ml Ta Tm r = Ok ds ->
     AudioMelDataset.utt_ids ds =
     if contains ".npy" audio_query
     then map (fun f => replace "-wave.npy" "" (basename f))
              (AudioMelDataset.audio_files ds)
     else map (fun f => fst (splitext (basename f)))
              (AudioMelDataset.audio_files ds))
  /\ (forall find_files root_dir audio_query al Ta r ds,
        AudioDataset.__init__ find_files root_dir audio_query al Ta r
          = Ok ds ->
        AudioDataset.utt_ids ds =
        if contains ".npy" audio_query
        then map (fun f => replace "-wave.npy" "" (basename f))
                 (AudioDataset.audio_files ds)
        else map (fun f => fst (splitext (basename f)))
                 (AudioDataset.audio_files ds))
  /\ (forall find_files root_dir mel_query ml Tm r ds,
        MelDataset.__init__ find_files root_dir mel_query ml Tm r = Ok ds ->
        MelDataset.utt_ids ds =
        if contains ".npy" mel_query
        then map (fun f => replace "-feats.npy" "" (basename f))
                 (MelDataset.mel_files ds)
        else map (fun f => fst (splitext (basename f)))
                 (MelDataset.mel_files ds))
  /\ (forall stem,
        only_as_suffix "-wave.npy" stem ->
        replace "-wave.npy" "" (stem ++ "-wave.npy") = stem
        /\ strip_suffix "-wave.npy" (stem ++ "-wave.npy")
           = replace "-wave.npy" "" (stem ++ "-wave.npy"))
  /\ utt_id_npy "-wave.npy" "utt1-wave.npy" = "utt1"
  /\ utt_id_generic "utt2.h5" = "utt2".
Proof.
  split; [|split; [|split; [|split; [|split]]]].
  - intros until ds. intros H.
    apply AudioMelDataset_init_inv in H.
    destruct H as (audio & mel & _ & _ & _ & ->). reflexivity.
  - intros until ds. unfold AudioDataset.__init__. intros H.
    bind_ok H files Hf.
    destruct (List.length files =? 0)%nat; [discriminate|].
    injection H as <-. reflexivity.
  - intros until ds. unfold MelDataset.__init__. intros H.
    bind_ok H files Hf.
    destruct (List.length files =? 0)%nat; [discriminate|].
    injection H as <-. reflexivity.
  - intros stem Hstem.
    assert (Hrep : replace "-wave.npy" "" (stem ++ "-wave.npy") = stem)
      by (apply replace_only_suffix; [discriminate|exact Hstem]).
    split; [exact Hrep|]. rewrite Hrep.
    unfold strip_suffix, ends_with.
    assert (Hlen : forall s t, String.length (s ++ t)
                               = String.length s + String.length t)
      by (induction s; intros; simpl; auto).
    rewrite Hlen.
    replace (String.length stem + String.length "-wave.npy"
             - String.length "-wave.npy") with (String.length stem) by lia.
    assert (Hfrom : forall s t, slice_from (String.length s) (s ++ t) = t)
      by (induction s; simpl; auto).
    assert (Hto : forall s t, slice_to (String.length s) (s ++ t) = s)
      by (induction s as [|c s IHs]; intros t; simpl;
          [destruct t; reflexivity|rewrite IHs; reflexivity]).
    rewrite Hfrom, Hto, String.eqb_refl.
    destruct (Nat.leb_spec (String.length "-wave.npy")
                (String.length stem + String.length "-wave.npy"));
      [reflexivity|lia].
  - reflexivity.
  - reflexivity.
Qed.

(** On a file name that carries the token twice the two readings differ:
    the constructor removes both occurrences, stripping the suffix removes
    one. *)
Lemma utt_id_removes_every_occurrence :
  let f := "dump/a-wave.npy-wave.npy" in
  let al : loader := fun _ => Ok (mk_ndarray [16000%Z] []) in
  contains ".npy" "*-wave.npy" = true
  /\ (exists ds,
        AudioDataset.__init__ (fun _ _ => [f]) "dump" "*-wave.npy" al None
                              false = Ok ds
        /\ AudioDataset.audio_files ds = [f]
        /\ AudioDataset.utt_ids ds = ["a"]
        /\ AudioDataset.utt_ids ds
           <> map (fun f => strip_suffix "-wave.npy" (basename f))
                  (AudioDataset.audio_files ds))
  /\ strip_suffix "-wave.npy" (basename f) = "a-wave.npy".
Proof.
  cbv zeta. split; [reflexivity|]. split; [|reflexivity].
  eexists. split; [reflexivity|].
  split; [reflexivity|]. split; [reflexivity|].
  vm_compute. discriminate.
Qed.

(** ** Construction failures *)

(** C3. Property: constructing [AudioDataset] or [MelDataset] over zero
    matching files fails with an [AssertionError]; constructing
    [AudioMelDataset] fails with an [AssertionError] whenever its filtering
    completes with an empty audio list or with audio and mel lists of
    different lengths, which is the case in particular when no audio file
    matches and either no mel threshold is configured or no mel file matches
    either.  A failed construction returns no adapter. *)
Theorem construction_fails_with_assertion_error :
  (forall find_files root_dir audio_query al Ta r,
     find_files root_dir audio_query = [] ->
     AudioDataset.__init__ find_files root_dir audio_query al Ta r
     = Raise (AssertionError
                ("Not found any audio files in $" ++ root_dir ++ ".")))
  /\ (forall find_files root_dir mel_query ml Tm r,
        find_files root_dir mel_query = [] ->
        MelDataset.__init__ find_files root_dir mel_query ml Tm r
        = Raise (AssertionError
                   ("Not found any mel files in $" ++ root_dir ++ ".")))
  /\ (forall find_files root_dir audio_query mel_query al ml Ta Tm r,
        find_files root_dir audio_query = [] ->
        Tm = None \/ find_files root_dir mel_query = [] ->
        AudioMelDataset.__init__ find_files root_dir audio_query mel_query
                                 al ml Ta Tm r
        = Raise (AssertionError
                   ("Not found any audio files in $" ++ root_dir ++ ".")))
  /\ (forall find_files root_dir audio_query mel_query al ml Ta Tm r
             audio mel,
        AudioMelDataset.filtered_files find_files root_dir audio_query
                                       mel_query al ml Ta Tm
          = Ok (audio, mel) ->
        audio = [] \/ List.length audio <> List.length mel ->
        exists msg,
          AudioMelDataset.__init__ find_files root_dir audio_query mel_query
                                   al ml Ta Tm r
          = Raise (AssertionError msg)).
Proof.
  split; [|split; [|split]].
  - intros until r. intros H. unfold AudioDataset.__init__.
    rewrite H. destruct Ta; reflexivity.
  - intros until r. intros H. unfold MelDataset.__init__.
    rewrite H. destruct Tm; reflexivity.
  - intros until r. intros Ha Hm.
    unfold AudioMelDataset.__init__, AudioMelDataset.filtered_files.
    rewrite Ha. destruct Hm as [->|Hm].
    + destruct Ta; reflexivity.
    + rewrite Hm. destruct Ta, Tm; reflexivity.
  - intros until mel. intros Hf Hbad.
    unfold AudioMelDataset.__init__. rewrite Hf. cbn [rbind fst snd].
    destruct (List.length audio =? 0)%nat eqn:H0; [eauto|].
    destruct (List.length audio =? List.length mel)%nat eqn:Heq;
      cbn [negb]; [|eauto].
    apply Nat.eqb_eq in Heq. destruct Hbad as [->|Hbad];
      [discriminate|contradiction].
Qed.

(** With no audio file, one mel file and a mel threshold that keeps it,
    the constructor fails while indexing the empty audio list, before its
    assertions are reached; and where an assertion does fail, over an empty
    directory, the exception is an [AssertionError]. *)
Lemma empty_audio_set_raises_index_error :
  let find_files : file_finder :=
    fun _ query =>
      if String.eqb query "*-wave.h5" then [] else ["dump/a-feats.h5"] in
  let al : loader := fun _ => Ok (mk_ndarray [16000%Z] []) in
  let ml : loader := fun _ => Ok (mk_ndarray [100%Z; 80%Z] []) in
  find_files "dump" "*-wave.h5" = []
  /\ AudioMelDataset.__init__ find_files "dump" "*-wave.h5" "*-feats.h5"
                              al ml None (Some 0%Z) false
     = Raise IndexError
  /\ ~ (exists msg,
          AudioMelDataset.__init__ find_files "dump" "*-wave.h5" "*-feats.h5"
                                   al ml None (Some 0%Z) false
          = Raise (AssertionError msg))
  /\ (exists e,
        AudioDataset.__init__ (fun _ _ => []) "dump" "*.h5" al None false
        = Raise e
        /\ class_name e = "AssertionError"
        /\ class_name e <> "DataIntegrityError").
Proof.
  cbv zeta. split; [reflexivity|]. split; [reflexivity|]. split.
  - intros [msg H]. vm_compute in H. discriminate.
  - eexists. split; [reflexivity|]. split; [reflexivity|].
    cbn. discriminate.
Qed.

(** ** The trainer *)

Section TrainerProperties.

Context {Batch Weights : Type}.
Variable P : Persistence Weights.

Import GanBasedTrainer.

Local Abbreviation World := (GanBasedTrainer.World Batch Weights P).

Ltac run_monad :=
  cbv [save_checkpoint save_checkpoint_path ckpt_steps_assign
       ckpt_epochs_assign ckp_manager_save load_checkpoint ckpt_restore
       bind ret gets modify attr raise observe].

(** What a save changes: the two variables of the checkpoint object, and
    the checkpoint directory once the manager is reached. *)
Lemma save_checkpoint_path_cases (w : World) :
  match ckpt (self w), ckp_manager (self w) with
  | None, _ =>
      save_checkpoint_path P w = Raises (AttributeError "ckpt") w
  | Some ck, None =>
      save_checkpoint_path P w =
      Raises (AttributeError "ckp_manager")
        (mk_World
           (set_ckpt (Some (Checkpoint.mk (steps (self w))
                              (epochs (self w))
                              (Checkpoint.generator ck)
                              (Checkpoint.discriminator ck)
                              (Checkpoint.gen_optimizer ck)
                              (Checkpoint.dis_optimizer ck)))
                     (self w))
           (disk w) (trace w))
  | Some ck, Some mgr =>
      let ck' := Checkpoint.mk (steps (self w)) (epochs (self w))
                   (Checkpoint.generator ck) (Checkpoint.discriminator ck)
                   (Checkpoint.gen_optimizer ck)
                   (Checkpoint.dis_optimizer ck) in
      let saved := manager_save P mgr (steps (self w))
                     (snapshot_of ck' (objects (self w))) (disk w) in
      save_checkpoint_path P w =
      Returns (snd saved)
        (mk_World (set_ckpt (Some ck') (self w)) (fst saved) (trace w))
  end.
Proof.
  destruct w as [s d tr]. run_monad. simpl.
  destruct (ckpt s) as [ck|] eqn:Hck; [|reflexivity].
  simpl.
  destruct (ckp_manager s) as [mgr|] eqn:Hmgr; simpl.
  - destruct (manager_save P mgr (steps s) _ d) as [st path] eqn:Hs.
    simpl. reflexivity.
  - reflexivity.
Qed.


Lemma set_ckpt_same (s : t Batch Weights) : set_ckpt (ckpt s) s = s.
Proof. destruct s; reflexivity. Qed.




(** *** One step of the loop *)

Variable hooks : Hooks Batch Weights.
Hypothesis hooks_well_behaved : well_behaved hooks.

Lemma same_bookkeeping_refl (s : t Batch Weights) : same_bookkeeping s s.
Proof. repeat split. Qed.

Lemma same_bookkeeping_trans (s1 s2 s3 : t Batch Weights) :
  same_bookkeeping s1 s2 -> same_bookkeeping s2 s3 ->
  same_bookkeeping s1 s3.
Proof.
  unfold same_bookkeeping. intros (?&?&?&?) (?&?&?&?).
  repeat split; congruence.
Qed.

Lemma save_checkpoint_final (w : World) :
  exists v,
    self (final (save_checkpoint P w)) = set_ckpt v (self w)
    /\ trace (final (save_checkpoint P w)) = trace w.
Proof.
  pose proof (save_checkpoint_path_cases w) as H.
  unfold save_checkpoint, bind, ret.
  destruct (ckpt (self w)) as [ck|] eqn:Hck.
  - destruct (ckp_manager (self w)) as [mgr|];
      cbv zeta in H; rewrite H; cbn [final self trace]; eauto.
  - rewrite H. cbn [final self trace]. exists None.
    rewrite <- Hck, set_ckpt_same. auto.
Qed.

Lemma save_checkpoint_bookkeeping (w : World) :
  same_bookkeeping (self w) (self (final (save_checkpoint P w)))
  /\ trace (final (save_checkpoint P w)) = trace w.
Proof.
  destruct (save_checkpoint_final w) as [v [Hs Ht]].
  rewrite Hs. split; [repeat split|exact Ht].
Qed.

Lemma train_steps_app (tr1 tr2 : list (event Batch)) :
  train_steps (tr1 ++ tr2) = train_steps tr1 ++ train_steps tr2.
Proof. unfold train_steps. apply flat_map_app. Qed.

(** The interval checks keep the bookkeeping and train on nothing. *)
Lemma check_eval_interval_frame (w : World) :
  same_bookkeeping (self w)
                   (self (final (_check_eval_interval P hooks w)))
  /\ exists ev,
       trace (final (_check_eval_interval P hooks w)) = trace w ++ ev
       /\ train_steps ev = [].
Proof.
  destruct hooks_well_behaved as (_ & Hev & _ & _).
  destruct w as [s d tr].
  cbv [_check_eval_interval py_mod bind ret gets modify observe raise].
  cbn [self disk trace].
  destruct (eval_interval_steps (config s) =? 0)%Z.
  - cbn [final self trace]. split; [apply same_bookkeeping_refl|].
    eexists; split; [reflexivity|reflexivity].
  - destruct (steps s mod eval_interval_steps (config s) =? 0)%Z;
      cbn [final self trace].
    + split; [exact (Hev s)|].
      rewrite <- app_assoc. eexists; split; [reflexivity|reflexivity].
    + split; [apply same_bookkeeping_refl|].
      eexists; split; [reflexivity|reflexivity].
Qed.

Lemma check_save_interval_frame (w : World) :
  same_bookkeeping (self w)
                   (self (final (_check_save_interval P w)))
  /\ exists ev,
       trace (final (_check_save_interval P w)) = trace w ++ ev
       /\ train_steps ev = [].
Proof.
  destruct w as [s d tr].
  cbv [_check_save_interval py_mod bind ret gets modify observe raise].
  cbn [self disk trace].
  destruct (save_interval_steps (config s) =? 0)%Z.
  - cbn [final self trace]. split; [apply same_bookkeeping_refl|].
    eexists; split; [reflexivity|reflexivity].
  - destruct (steps s mod save_interval_steps (config s) =? 0)%Z.
    + cbn [self disk trace].
      match goal with
      | |- context [save_checkpoint P ?w0] =>
          destruct (save_checkpoint_bookkeeping w0) as [Hb Ht]
      end.
      split; [exact Hb|].
      rewrite Ht. cbn [trace]. rewrite <- app_assoc.
      eexists; split; [reflexivity|reflexivity].
    + cbn [final self trace]. split; [apply same_bookkeeping_refl|].
      eexists; split; [reflexivity|reflexivity].
Qed.


Lemma quiet_bind {A B : Type} (c : M Batch Weights P A)
  (k : A -> M Batch Weights P B) :
  quiet c -> (forall a, quiet (k a)) -> quiet (bind Batch Weights P c k).
Proof.
  intros Hc Hk w. unfold bind. specialize (Hc w).
  destruct (c w) as [a w1|e w1]; cbn [final] in Hc.
  - destruct Hc as [Hb1 [ev1 [Ht1 Hn1]]].
    destruct (Hk a w1) as [Hb2 [ev2 [Ht2 Hn2]]].
    split; [eapply same_bookkeeping_trans; eauto|].
    exists (ev1 ++ ev2). rewrite Ht2, Ht1, app_assoc.
    split; [reflexivity|]. rewrite train_steps_app, Hn1, Hn2. reflexivity.
  - exact Hc.
Qed.

Lemma quiet_now {A : Type} (o : World -> outcome Batch Weights P A) :
  (forall w, final (o w) = w) -> quiet o.
Proof.
  intros H w. rewrite H. split; [apply same_bookkeeping_refl|].
  exists []. rewrite app_nil_r. auto.
Qed.

Lemma quiet_modify (h : t Batch Weights -> t Batch Weights) :
  keeps_bookkeeping h -> quiet (modify Batch Weights P h).
Proof.
  intros Hh w. cbn. split; [exact (Hh (self w))|].
  exists []. rewrite app_nil_r. auto.
Qed.

Lemma quiet_observe (e : event Batch) :
  train_steps [e] = [] -> quiet (observe Batch Weights P e).
Proof.
  intros He w. cbn. split; [apply same_bookkeeping_refl|].
  exists [e]. auto.
Qed.

Lemma quiet_check_eval_interval : quiet (_check_eval_interval P hooks).
Proof. exact check_eval_interval_frame. Qed.

Lemma quiet_check_save_interval :
  @quiet Batch Weights P unit (_check_save_interval P).
Proof. exact check_save_interval_frame. Qed.

Lemma quiet_check_interval : quiet (check_interval P hooks).
Proof.
  destruct hooks_well_behaved as (_ & _ & Hlog & _).
  unfold check_interval.
  apply quiet_bind; [apply quiet_now; reflexivity|intros c].
  destruct (rank c =? 0)%Z.
  - apply quiet_bind; [apply quiet_observe; reflexivity|intros _].
    apply quiet_bind; [apply quiet_modify; exact Hlog|intros _].
    apply quiet_bind; [apply quiet_check_eval_interval|intros _].
    apply quiet_check_save_interval.
  - apply quiet_now. reflexivity.
Qed.

Lemma train_iteration_unfold (batch : Batch) (v : Z) (w : World) :
  tqdm (self w) = Some v ->
  train_iteration P hooks batch w
  = check_interval P hooks (before_checks hooks batch v w).
Proof.
  intros Hv. destruct hooks_well_behaved as (Hts & _ & _ & _).
  destruct (Hts batch (self w)) as (_ & _ & _ & Ht1).
  unfold train_iteration, tqdm_update, before_checks.
  cbv [bind ret gets modify observe attr]. cbn [self disk trace].
  change (tqdm (set_steps (steps (_train_step hooks batch (self w)) + 1)
                          (_train_step hooks batch (self w))))
    with (tqdm (_train_step hooks batch (self w))).
  rewrite Ht1, Hv. cbn [self disk trace].
  rewrite <- app_assoc. reflexivity.
Qed.

Lemma before_checks_bookkeeping (batch : Batch) (v : Z) (w : World) :
  let s := self (before_checks hooks batch v w) in
  steps s = (steps (self w) + 1)%Z
  /\ epochs s = epochs (self w)
  /\ config s = config (self w)
  /\ tqdm s = Some (v + 1)%Z.
Proof.
  destruct hooks_well_behaved as (Hts & _ & _ & Hfin).
  destruct (Hts batch (self w)) as (Hs1 & He1 & Hc1 & _).
  unfold before_checks. cbn [self].
  match goal with
  | |- context [_check_train_finish hooks ?s2] =>
      destruct (Hfin s2) as (Hs3 & He3 & Hc3 & Ht3)
  end.
  cbv zeta. rewrite Hs3, He3, Hc3, Ht3. cbn.
  rewrite Hs1, He1, Hc1. auto.
Qed.

(** One step: the training step, the counter, the call of
    [_check_train_finish], then the interval checks. *)
Lemma train_iteration_frame (batch : Batch) (w : World) :
  tqdm (self w) <> None ->
  let w' := final (train_iteration P hooks batch w) in
  steps (self w') = (steps (self w) + 1)%Z
  /\ epochs (self w') = epochs (self w)
  /\ config (self w') = config (self w)
  /\ tqdm (self w') <> None
  /\ exists ev,
       trace w' = trace w ++ Call_train_step batch
                            :: Call_check_train_finish :: ev
       /\ train_steps ev = [].
Proof.
  intros Htq.
  destruct (tqdm (self w)) as [v|] eqn:Hv; [|congruence].
  rewrite (train_iteration_unfold batch v w Hv).
  destruct (before_checks_bookkeeping batch v w) as (Hs & He & Hc & Ht).
  destruct (quiet_check_interval (before_checks hooks batch v w))
    as [(Hs4 & He4 & Hc4 & Ht4) (ev & Hev & Hn)].
  cbv zeta in *.
  repeat split; try congruence.
  exists ev. split; [|exact Hn].
  rewrite Hev. unfold before_checks. cbn [trace].
  rewrite <- app_assoc. reflexivity.
Qed.


(** *** The interval checks of a step *)






(** *** The loop over the batches *)

Lemma train_steps_nil_not_in (ev : list (event Batch)) (b : Batch) :
  train_steps ev = [] -> ~ In (Call_train_step b) ev.
Proof.
  induction ev as [|e ev IH]; intros H Hin; [exact Hin|].
  destruct Hin as [->|Hin]; [discriminate H|].
  unfold train_steps in H. simpl in H.
  apply app_eq_nil in H. apply IH; [apply H|exact Hin].
Qed.

(** The events of one step, followed by a trace in which every step is
    checked, make a trace in which every step is checked. *)
Lemma finish_checked_step (b : Batch) (ev1 ev2 : list (event Batch)) :
  train_steps ev1 = [] ->
  finish_checked_after_each_step ev2 ->
  finish_checked_after_each_step
    (Call_train_step b :: Call_check_train_finish :: ev1 ++ ev2).
Proof.
  intros Hn H2 pre b' post Heq.
  destruct pre as [|e pre]; cbn [app] in Heq.
  - injection Heq as _ <-. eauto.
  - injection Heq as _ Heq.
    destruct pre as [|e' pre]; cbn [app] in Heq; [discriminate Heq|].
    injection Heq as _ Heq.
    symmetry in Heq. apply app_eq_app in Heq.
    destruct Heq as [l [[H1 H3]|[H1 H3]]].
    + apply (H2 l b' post). exact H3.
    + destruct l as [|x l]; cbn [app] in H3.
      * apply (H2 [] b' post). symmetry. exact H3.
      * injection H3 as <- H3.
        exfalso. apply (train_steps_nil_not_in ev1 b' Hn).
        rewrite H1. apply in_or_app. right. left. reflexivity.
Qed.

Lemma finish_checked_quiet (ev : list (event Batch)) :
  train_steps ev = [] -> finish_checked_after_each_step ev.
Proof.
  intros Hn pre b post Heq. exfalso.
  apply (train_steps_nil_not_in ev b Hn).
  rewrite Heq. apply in_or_app. right. left. reflexivity.
Qed.

Lemma train_loop_cons (b : Batch) (rest : list Batch) (count : Z)
  (local : option Z) (w : World) :
  train_loop P hooks (b :: rest) count local w =
  match train_iteration P hooks b w with
  | Returns _ w1 =>
      if finish_train (self w1) then Returns Returned w1
      else train_loop P hooks rest (count + 1)%Z (Some count) w1
  | Raises e w1 => Raises e w1
  end.
Proof.
  cbn [train_loop]. unfold bind at 1.
  destruct (train_iteration P hooks b w) as [[] w1|e w1];
    [|reflexivity].
  unfold bind, gets, ret. destruct (finish_train (self w1)); reflexivity.
Qed.

(** How the loop ends, what it trained on, and what it left of the
    counters. *)
Lemma train_loop_spec (loader : list Batch) :
  forall (count : Z) (local : option Z) (w : World),
    tqdm (self w) <> None ->
    let o := train_loop P hooks loader count local w in
    epochs (self (final o)) = epochs (self w)
    /\ exists done rest ev,
         loader = done ++ rest
         /\ trace (final o) = trace w ++ ev
         /\ train_steps ev = done
         /\ finish_checked_after_each_step ev
         /\ match o with
            | Returns Returned w1 =>
                done <> [] /\ finish_train (self w1) = true
            | Returns (Exhausted l) w1 =>
                rest = []
                /\ match loader with
                   | [] => l = local /\ w1 = w
                   | _ :: _ =>
                       l = Some (count + Z.of_nat (List.length loader)
                                 - 1)%Z
                       /\ finish_train (self w1) = false
                   end
            | Raises _ _ => done <> []
            end.
Proof.
  induction loader as [|b loader IH]; intros count local w Htq.
  - cbn. split; [reflexivity|].
    exists [], [], [].
    split; [reflexivity|]. split; [symmetry; apply app_nil_r|].
    split; [reflexivity|].
    split; [apply finish_checked_quiet; reflexivity|auto].
  - cbv zeta. rewrite train_loop_cons.
    destruct (train_iteration_frame b w Htq)
      as (Hs & He & Hc & Ht & ev1 & Hev1 & Hn1).
    destruct (train_iteration P hooks b w) as [[] w1|e w1];
      cbn [final] in *.
    + destruct (finish_train (self w1)) eqn:Hfin.
      * cbn [final]. split; [exact He|].
        exists [b], loader, (Call_train_step b
                             :: Call_check_train_finish :: ev1).
        split; [reflexivity|]. split; [exact Hev1|].
        split; [unfold train_steps in *; cbn; rewrite Hn1; reflexivity|].
        split; [|split; [discriminate|exact Hfin]].
        rewrite <- (app_nil_r ev1).
        apply finish_checked_step; [exact Hn1|].
        apply finish_checked_quiet. reflexivity.
      * specialize (IH (count + 1)%Z (Some count) w1 Ht).
        cbv zeta in IH.
        destruct IH as (He2 & done & rest & ev2 & Hl & Htr & Hts & Hfc
                        & Hend).
        split; [rewrite He2; exact He|].
        exists (b :: done), rest,
               (Call_train_step b :: Call_check_train_finish
                :: ev1 ++ ev2).
        split; [rewrite Hl; reflexivity|].
        split; [rewrite Htr, Hev1, <- app_assoc; reflexivity|].
        split.
        { unfold train_steps in *. cbn. rewrite flat_map_app, Hn1, Hts.
          reflexivity. }
        split; [apply finish_checked_step; assumption|].
        destruct (train_loop P hooks loader (count + 1) (Some count) w1)
          as [[|l] w2|e w2].
        -- split; [discriminate|apply Hend].
        -- destruct Hend as [Hrest Hend]. split; [exact Hrest|].
           destruct loader as [|b' loader'].
           ++ destruct Hend as [-> ->]. cbn [List.length].
              split; [f_equal; lia|exact Hfin].
           ++ destruct Hend as [-> Hf]. split; [|exact Hf].
              f_equal. cbn [List.length]. lia.
        -- discriminate.
    + split; [exact He|].
      exists [b], loader, (Call_train_step b
                           :: Call_check_train_finish :: ev1).
      split; [reflexivity|]. split; [exact Hev1|].
      split; [unfold train_steps in *; cbn; rewrite Hn1; reflexivity|].
      split; [|discriminate].
      rewrite <- (app_nil_r ev1).
      apply finish_checked_step; [exact Hn1|].
      apply finish_checked_quiet. reflexivity.
Qed.

Lemma train_epoch_unfold (loader : list Batch) (w : World) :
  train_data_loader (self w) = Some loader ->
  _train_epoch P hooks w =
  match train_loop P hooks loader 1%Z None w with
  | Returns Returned w1 => Returns tt w1
  | Returns (Exhausted None) w1 =>
      Raises (UnboundLocalError "train_steps_per_epoch")
        (mk_World (set_epochs (epochs (self w1) + 1)%Z (self w1))
                  (disk w1) (trace w1))
  | Returns (Exhausted (Some n)) w1 =>
      Returns tt
        (mk_World (set_train_steps_per_epoch (Some n)
                     (set_epochs (epochs (self w1) + 1)%Z (self w1)))
                  (disk w1) (trace w1))
  | Raises e w1 => Raises e w1
  end.
Proof.
  intros Hl. unfold _train_epoch.
  unfold bind at 1, attr at 1. rewrite Hl. unfold bind at 1.
  destruct (train_loop P hooks loader 1 None w) as [[|[n|]] w1|e w1];
    reflexivity.
Qed.


End TrainerProperties.

(** ** The statements at concrete inputs *)

Lemma corpus_audio_loads (files : list string) :
  loads_all corpus_audio_load_fn files.
Proof. intros f _. eexists. reflexivity. Defined.

Lemma corpus_mel_loads (files : list string) :
  loads_all corpus_mel_load_fn files.
Proof. intros f _. eexists. reflexivity. Defined.

(** The threshold 100 on audio lengths 50, 150 and 200 keeps the second
    and the third utterance, on both sides. *)
Lemma filtering_keeps_entries_above_threshold_witness :
  apply_threshold AudioThreshold corpus_audio_load_fn 100
                  corpus_audio_files corpus_mel_files
  = Ok (["dump/b-wave.npy"; "dump/c-wave.npy"],
        ["dump/b-feats.npy"; "dump/c-feats.npy"])
  /\ exists idxs,
       retains_above corpus_audio_load_fn 100 corpus_audio_files idxs
       /\ selected_by corpus_audio_files idxs
                      ["dump/b-wave.npy"; "dump/c-wave.npy"]
       /\ selected_by corpus_mel_files idxs
                      ["dump/b-feats.npy"; "dump/c-feats.npy"]
       /\ List.length ["dump/b-wave.npy"; "dump/c-wave.npy"]
          = List.length ["dump/b-feats.npy"; "dump/c-feats.npy"].
Proof.
  split; [reflexivity|].
  apply (filtering_keeps_entries_above_threshold
           AudioThreshold corpus_audio_load_fn 100
           corpus_audio_files corpus_mel_files).
  reflexivity.
Defined.

Lemma construction_fails_with_assertion_error_witness :
  (fun _ _ : string => @nil string) "dump" "*.h5" = []
  /\ AudioDataset.__init__ (fun _ _ => []) "dump" "*.h5"
                           corpus_audio_load_fn (Some 100%Z) false
     = Raise (AssertionError
                ("Not found any audio files in $" ++ "dump" ++ ".")).
Proof.
  split; [reflexivity|].
  apply (proj1 construction_fails_with_assertion_error).
  reflexivity.
Defined.

Lemma utt_ids_follow_the_query_witness :
  only_as_suffix "-wave.npy" "utt1"
  /\ replace "-wave.npy" "" ("utt1" ++ "-wave.npy") = "utt1".
Proof.
  assert (H : only_as_suffix "-wave.npy" "utt1").
  { intros i Hi.
    do 4 (destruct i as [|i]; [reflexivity|]).
    simpl in Hi. lia. }
  split; [exact H|].
  exact (proj1 (proj1 (proj2 (proj2 (proj2 utt_ids_follow_the_query)))
                  "utt1" H)).
Defined.

Lemma dataset_iteration_is_deterministic_witness :
  let ds :=
    AudioMelDataset.mk ["b"; "c"]
      ["dump/b-wave.npy"; "dump/c-wave.npy"]
      ["dump/b-feats.npy"; "dump/c-feats.npy"]
      corpus_audio_load_fn corpus_mel_load_fn true in
  AudioMelDataset.__init__ corpus_find_files "dump" "*-wave.npy"
                           "*-feats.npy" corpus_audio_load_fn
                           corpus_mel_load_fn (Some 100%Z) None true
  = Ok ds
  /\ StronglySorted le_str (AudioMelDataset.audio_files ds)
  /\ StronglySorted le_str (AudioMelDataset.mel_files ds).
Proof.
  cbv zeta.
  assert (H : AudioMelDataset.__init__ corpus_find_files "dump" "*-wave.npy"
                "*-feats.npy" corpus_audio_load_fn corpus_mel_load_fn
                (Some 100%Z) None true
              = Ok (AudioMelDataset.mk ["b"; "c"]
                      ["dump/b-wave.npy"; "dump/c-wave.npy"]
                      ["dump/b-feats.npy"; "dump/c-feats.npy"]
                      corpus_audio_load_fn corpus_mel_load_fn true))
    by reflexivity.
  split; [exact H|].
  pose proof (dataset_iteration_is_deterministic _ _ _ _ _ _ _ _ _ _ H)
    as (_ & _ & Ha & Hm & _).
  split; [exact Ha|exact Hm].
Defined.

Lemma corpus_all_above :
  all_above corpus_audio_load_fn (Some 10%Z)
            (corpus_find_files "dump" "*-wave.npy").
Proof.
  intros f [<-|[<-|[<-|[]]]]; eexists; (split; [reflexivity|reflexivity]).
Defined.

Lemma paired_adapter_yields_aligned_records_witness :
  exists ds,
    AudioMelDataset.__init__ corpus_find_files "dump" "*-wave.npy"
                             "*-feats.npy" corpus_audio_load_fn
                             corpus_mel_load_fn (Some 10%Z) None true
    = Ok ds
    /\ AudioMelDataset.get_len_dataset ds = 3.
Proof.
  destruct (paired_adapter_yields_aligned_records
              corpus_find_files "dump" "*-wave.npy" "*-feats.npy"
              corpus_audio_load_fn corpus_mel_load_fn (Some 10%Z) None true 3
              ltac:(lia) eq_refl eq_refl corpus_all_above I
              (corpus_audio_loads _) (corpus_mel_loads _))
    as [ds [Hinit [Hlen _]]].
  exists ds. split; [exact Hinit|exact Hlen].
Defined.

(** Four ids against three files: three items, then [IndexError]. *)
Lemma generator_selects_files_by_position_witness :
  positional (paired_item_at corpus_paired) 3 ["x"; "y"; "z"; "w"]
             (AudioMelDataset.generator corpus_paired ["x"; "y"; "z"; "w"])
  /\ snd (AudioMelDataset.generator corpus_paired ["x"; "y"; "z"; "w"])
     = Some IndexError.
Proof.
  split; [|reflexivity].
  exact (proj1 (proj1 generator_selects_files_by_position
                  corpus_paired ["x"; "y"; "z"; "w"] eq_refl
                  (corpus_audio_loads _) (corpus_mel_loads _))).
Defined.

Lemma directory_store_round_trip (Weights : Type) :
  round_trip (directory_store Weights).
Proof.
  intros mgr n snap st. cbn. rewrite String.eqb_refl. reflexivity.
Defined.

Lemma counting_hooks_well_behaved : well_behaved counting_hooks.
Proof.
  repeat split; intros; cbn;
    try (destruct (_ <=? _)%Z; reflexivity); reflexivity.
Defined.




(** * Further properties of the adapters *)

(** ** Filtering as a filter *)

Lemma load_lengths_nth (load_fn : loader) (files : list string)
  (lengths : list Z) (i : nat) (f : string) :
  load_lengths load_fn files = Ok lengths ->
  nth_error files i = Some f ->
  exists n, nth_error lengths i = Some n /\ length_of load_fn f = Ok n.
Proof.
  unfold load_lengths. intros H Hf. apply mapM_Forall2 in H.
  destruct (Forall2_nth_error_l _ _ _ _ _ H Hf) as [n [Hn Hl]]. eauto.
Qed.

(** The positions kept, as a filter on positions. *)
Lemma retained_idxs_filter (load_fn : loader) (threshold : Z)
  (files : list string) (lengths : list Z) :
  load_lengths load_fn files = Ok lengths ->
  retained_idxs files lengths threshold
  = Ok (filter (fun i => match nth_error files i with
                         | Some f => above load_fn threshold f
                         | None => false
                         end)
               (seq 0 (List.length files))).
Proof.
  intros Hl. unfold retained_idxs. apply filterM_filter.
  intros idx Hidx. apply in_seq in Hidx.
  destruct (nth_error files idx) as [f|] eqn:Hf;
    [|apply nth_error_None in Hf; lia].
  destruct (load_lengths_nth _ _ _ _ _ Hl Hf) as [n [Hn Hfn]].
  unfold getitem, above. rewrite Hn, Hfn. reflexivity.
Qed.

(** Reading a list at the positions of the elements that satisfy a
    predicate gives the elements that satisfy it. *)
Lemma take_idxs_filter {X : Type} (g : X -> string) (p : X -> bool)
  (xs : list X) :
  forall pre : list X,
    take_idxs (map g (pre ++ xs))
      (filter (fun i => match nth_error (pre ++ xs) i with
                        | Some x => p x
                        | None => false
                        end)
              (seq (List.length pre) (List.length xs)))
    = Ok (map g (filter p xs)).
Proof.
  unfold take_idxs.
  induction xs as [|x xs IH]; intros pre; [reflexivity|].
  cbn [List.length seq filter].
  rewrite nth_error_app2 by lia. rewrite Nat.sub_diag. cbn [nth_error].
  specialize (IH (pre ++ [x])).
  rewrite <- app_assoc, length_app in IH. cbn [List.length app] in IH.
  rewrite Nat.add_1_r in IH.
  destruct (p x).
  - cbn [mapM map]. unfold getitem at 1.
    rewrite nth_error_map, nth_error_app2 by lia.
    rewrite Nat.sub_diag. cbn [nth_error option_map rbind].
    rewrite IH. reflexivity.
  - exact IH.
Qed.

Lemma filter_idx_map {X : Type} (g : X -> string) (q : string -> bool)
  (xs : list X) (idxs : list nat) :
  filter (fun i => match nth_error (map g xs) i with
                   | Some f => q f
                   | None => false
                   end) idxs
  = filter (fun i => match nth_error xs i with
                     | Some x => q (g x)
                     | None => false
                     end) idxs.
Proof.
  apply filter_ext. intros i. rewrite nth_error_map.
  destruct (nth_error xs i); reflexivity.
Qed.

(** One threshold over a list carried by [xs]: the list measured is
    [map g xs], and any list [map h xs] read at the positions kept is the
    [h]-image of the elements whose [g]-image passes. *)
Lemma threshold_on_carrier {X : Type} (g h : X -> string)
  (load_fn : loader) (threshold : Z) (xs : list X) (lengths : list Z)
  (idxs : list nat) :
  load_lengths load_fn (map g xs) = Ok lengths ->
  retained_idxs (map g xs) lengths threshold = Ok idxs ->
  take_idxs (map h xs) idxs
  = Ok (map h (filter (fun x => above load_fn threshold (g x)) xs)).
Proof.
  intros Hl Hi. rewrite (retained_idxs_filter _ _ _ _ Hl) in Hi.
  injection Hi as <-. rewrite filter_idx_map, length_map.
  exact (take_idxs_filter h (fun x => above load_fn threshold (g x)) xs []).
Qed.

Lemma load_lengths_returns (load_fn : loader) (files : list string) :
  (forall f, In f files -> exists n, length_of load_fn f = Ok n) ->
  exists lengths, load_lengths load_fn files = Ok lengths.
Proof. apply mapM_returns. Qed.

Lemma load_lengths_measured (load_fn : loader) (files : list string)
  (lengths : list Z) :
  load_lengths load_fn files = Ok lengths ->
  forall f, In f files -> exists n, length_of load_fn f = Ok n.
Proof.
  intros Hl f Hf. apply In_nth_error in Hf. destruct Hf as [i Hi].
  destruct (load_lengths_nth _ _ _ _ _ Hl Hi) as [n [_ Hn]]. eauto.
Qed.

Lemma audio_filter_inv (load_fn : loader) (threshold : Z)
  (files files' : list string) :
  AudioDataset.filter_by_audio_length load_fn threshold files = Ok files' ->
  files' = filter (above load_fn threshold) files
  /\ forall f, In f files -> exists n, length_of load_fn f = Ok n.
Proof.
  unfold AudioDataset.filter_by_audio_length. intros H.
  bind_ok H lengths Hl. bind_ok H idxs Hi.
  split; [|eapply load_lengths_measured; eauto].
  rewrite <- (map_id files) in Hl, Hi, H.
  rewrite (threshold_on_carrier (fun f => f) (fun f => f) _ _ _ _ _ Hl Hi)
    in H.
  injection H as <-. rewrite map_id. reflexivity.
Qed.

Lemma audio_filter_returns (load_fn : loader) (threshold : Z)
  (files : list string) :
  (forall f, In f files -> exists n, length_of load_fn f = Ok n) ->
  AudioDataset.filter_by_audio_length load_fn threshold files
  = Ok (filter (above load_fn threshold) files).
Proof.
  intros Hm. unfold AudioDataset.filter_by_audio_length.
  destruct (load_lengths_returns _ _ Hm) as [lengths Hl].
  rewrite Hl. cbn [rbind].
  rewrite (retained_idxs_filter _ _ _ _ Hl). cbn [rbind].
  pose proof (take_idxs_filter (fun f : string => f)
                (above load_fn threshold) files []) as H.
  cbn [app List.length] in H. rewrite !map_id in H. exact H.
Qed.

Lemma mel_filter_inv (load_fn : loader) (threshold : Z)
  (files files' : list string) :
  MelDataset.filter_by_mel_length load_fn threshold files = Ok files' ->
  files' = filter (above load_fn threshold) files
  /\ forall f, In f files -> exists n, length_of load_fn f = Ok n.
Proof. exact (audio_filter_inv load_fn threshold files files'). Qed.

Lemma mel_filter_returns (load_fn : loader) (threshold : Z)
  (files : list string) :
  (forall f, In f files -> exists n, length_of load_fn f = Ok n) ->
  MelDataset.filter_by_mel_length load_fn threshold files
  = Ok (filter (above load_fn threshold) files).
Proof. exact (audio_filter_returns load_fn threshold files). Qed.

(** X1. Property: a constructed [AudioDataset] holds exactly the sorted
    matched files whose leading dimension is greater than the threshold,
    in sorted order (all of them without a threshold), at least one, with
    one utterance id per file; and the constructor returns whenever the
    files can be measured and at least one passes.  The same holds of
    [MelDataset]. *)
Theorem single_adapters_hold_the_files_above_threshold :
  (forall find_files root_dir audio_query al Ta r,
     (forall ds,
        AudioDataset.__init__ find_files root_dir audio_query al Ta r
          = Ok ds ->
        AudioDataset.audio_files ds
          = filter (above_opt al Ta)
                   (sorted (find_files root_dir audio_query))
        /\ AudioDataset.audio_files ds <> []
        /\ List.length (AudioDataset.utt_ids ds)
           = List.length (AudioDataset.audio_files ds))
     /\ (measurable al Ta (find_files root_dir audio_query) ->
         filter (above_opt al Ta) (sorted (find_files root_dir audio_query))
           <> [] ->
         exists ds,
           AudioDataset.__init__ find_files root_dir audio_query al Ta r
             = Ok ds))
  /\
  (forall find_files root_dir mel_query ml Tm r,
     (forall ds,
        MelDataset.__init__ find_files root_dir mel_query ml Tm r = Ok ds ->
        MelDataset.mel_files ds
          = filter (above_opt ml Tm)
                   (sorted (find_files root_dir mel_query))
        /\ MelDataset.mel_files ds <> []
        /\ List.length (MelDataset.utt_ids ds)
           = List.length (MelDataset.mel_files ds))
     /\ (measurable ml Tm (find_files root_dir mel_query) ->
         filter (above_opt ml Tm) (sorted (find_files root_dir mel_query))
           <> [] ->
         exists ds,
           MelDataset.__init__ find_files root_dir mel_query ml Tm r
             = Ok ds)).
Proof.
  assert (Hall : forall (load_fn : loader) (files : list string),
             filter (above_opt load_fn None) files = files).
  { intros. apply forallb_filter_id. apply forallb_forall. reflexivity. }
  split; intros find_files root_dir query load_fn T r; split.
  - intros ds. unfold AudioDataset.__init__. intros H.
    bind_ok H files Hf.
    destruct (List.length files =? 0)%nat eqn:H0; [discriminate|].
    injection H as <-. cbn [AudioDataset.audio_files AudioDataset.utt_ids].
    assert (Hfiles : files = filter (above_opt load_fn T)
                               (sorted (find_files root_dir query))).
    { destruct T as [t|].
      - apply audio_filter_inv in Hf. apply Hf.
      - injection Hf as <-. symmetry. apply Hall. }
    split; [exact Hfiles|]. split.
    + intros ->. discriminate.
    + destruct (contains ".npy" query); apply length_map.
  - intros Hm Hne. unfold AudioDataset.__init__.
    assert (Hf : match T with
                 | Some threshold =>
                     AudioDataset.filter_by_audio_length load_fn threshold
                       (sorted (find_files root_dir query))
                 | None => Ok (sorted (find_files root_dir query))
                 end
                 = Ok (filter (above_opt load_fn T)
                              (sorted (find_files root_dir query)))).
    { destruct T as [t|].
      - apply audio_filter_returns. intros f Hf. apply Hm.
        eapply Permutation_in; [apply Permutation_sym, sorted_perm|].
        exact Hf.
      - rewrite Hall. reflexivity. }
    rewrite Hf. cbn [rbind].
    destruct (filter (above_opt load_fn T)
                     (sorted (find_files root_dir query))) as [|f fs];
      [congruence|].
    cbn [List.length Nat.eqb]. eauto.
  - intros ds. unfold MelDataset.__init__. intros H.
    bind_ok H files Hf.
    destruct (List.length files =? 0)%nat eqn:H0; [discriminate|].
    injection H as <-. cbn [MelDataset.mel_files MelDataset.utt_ids].
    assert (Hfiles : files = filter (above_opt load_fn T)
                               (sorted (find_files root_dir query))).
    { destruct T as [t|].
      - apply mel_filter_inv in Hf. apply Hf.
      - injection Hf as <-. symmetry. apply Hall. }
    split; [exact Hfiles|]. split.
    + intros ->. discriminate.
    + destruct (contains ".npy" query); apply length_map.
  - intros Hm Hne. unfold MelDataset.__init__.
    assert (Hf : match T with
                 | Some threshold =>
                     MelDataset.filter_by_mel_length load_fn threshold
                       (sorted (find_files root_dir query))
                 | None => Ok (sorted (find_files root_dir query))
                 end
                 = Ok (filter (above_opt load_fn T)
                              (sorted (find_files root_dir query)))).
    { destruct T as [t|].
      - apply mel_filter_returns. intros f Hf. apply Hm.
        eapply Permutation_in; [apply Permutation_sym, sorted_perm|].
        exact Hf.
      - rewrite Hall. reflexivity. }
    rewrite Hf. cbn [rbind].
    destruct (filter (above_opt load_fn T)
                     (sorted (find_files root_dir query))) as [|f fs];
      [congruence|].
    cbn [List.length Nat.eqb]. eauto.
Qed.

(** ** The paired constructor on pairs *)

Lemma take_idxs_app_l (files extra : list string) (idxs : list nat) :
  Forall (fun i => i < List.length files) idxs ->
  take_idxs (files ++ extra) idxs = take_idxs files idxs.
Proof.
  unfold take_idxs. induction 1 as [|i idxs Hi _ IH]; [reflexivity|].
  cbn [mapM]. unfold getitem at 1 3.
  rewrite nth_error_app1 by exact Hi. rewrite IH. reflexivity.
Qed.

Lemma map_fst_combine_le {A B : Type} (l : list A) (l' : list B) :
  List.length l <= List.length l' -> map fst (combine l l') = l.
Proof.
  revert l'; induction l as [|x l IH]; intros [|y l'] H; cbn in *;
    try reflexivity; try lia.
  rewrite IH by lia. reflexivity.
Qed.

Lemma map_snd_combine_le {A B : Type} (l : list A) (l' : list B) :
  List.length l' <= List.length l -> map snd (combine l l') = l'.
Proof.
  revert l'; induction l as [|x l IH]; intros [|y l'] H; cbn in *;
    try reflexivity; try lia.
  rewrite IH by lia. reflexivity.
Qed.

Lemma map_snd_combine_skipn {A B : Type} (l : list A) (l' : list B) :
  map snd (combine l l') ++ skipn (List.length l) l' = l'.
Proof.
  revert l'; induction l as [|x l IH]; intros [|y l']; cbn;
    try reflexivity.
  rewrite IH. reflexivity.
Qed.

Lemma map_fst_combine_skipn {A B : Type} (l : list A) (l' : list B) :
  map fst (combine l l') ++ skipn (List.length l') l = l.
Proof.
  revert l'; induction l as [|x l IH]; intros [|y l']; cbn;
    try reflexivity.
  rewrite IH. reflexivity.
Qed.

Lemma combine_fst_snd {A B : Type} (ps : list (A * B)) :
  combine (map fst ps) (map snd ps) = ps.
Proof.
  induction ps as [|[a b] ps IH]; cbn; [reflexivity|].
  rewrite IH. reflexivity.
Qed.

Lemma filter_twice {A : Type} (p q : A -> bool) (l : list A) :
  filter q (filter p l) = filter (fun x => p x && q x) l.
Proof.
  induction l as [|x l IH]; cbn; [reflexivity|].
  destruct (p x); cbn; [destruct (q x)|]; rewrite IH; reflexivity.
Qed.

Lemma retained_in_range (load_fn : loader) (threshold : Z)
  (files : list string) (lengths : list Z) (idxs : list nat) :
  load_lengths load_fn files = Ok lengths ->
  retained_idxs files lengths threshold = Ok idxs ->
  Forall (fun i => i < List.length files) idxs.
Proof.
  intros Hl Hi. destruct (retained_idxs_spec _ _ _ _ _ Hl Hi) as (_ & H & _).
  apply Forall_forall. exact H.
Qed.

(** The audio threshold over pairs, with mel files in surplus. *)
Lemma audio_stage_on_pairs (load_fn : loader) (threshold : Z)
  (ps : list (string * string)) (extra : list string) :
  (forall f, In f (map fst ps) -> exists n, length_of load_fn f = Ok n) ->
  AudioMelDataset.filter_by_audio_length load_fn threshold
    (map fst ps) (map snd ps ++ extra)
  = Ok (map fst (filter (fun p => above load_fn threshold (fst p)) ps),
        map snd (filter (fun p => above load_fn threshold (fst p)) ps)).
Proof.
  intros Hm. unfold AudioMelDataset.filter_by_audio_length.
  destruct (load_lengths_returns _ _ Hm) as [lengths Hl].
  rewrite Hl. cbn [rbind].
  destruct (retained_idxs (map fst ps) lengths threshold) as [idxs|e] eqn:Hi;
    [|rewrite (retained_idxs_filter _ _ _ _ Hl) in Hi; discriminate].
  cbn [rbind].
  rewrite (threshold_on_carrier fst fst _ _ _ _ _ Hl Hi). cbn [rbind].
  rewrite take_idxs_app_l.
  - rewrite (threshold_on_carrier fst snd _ _ _ _ _ Hl Hi). reflexivity.
  - pose proof (retained_in_range _ _ _ _ _ Hl Hi) as H.
    rewrite !length_map in *. exact H.
Qed.

(** The mel threshold over pairs, with audio files in surplus. *)
Lemma mel_stage_on_pairs (load_fn : loader) (threshold : Z)
  (ps : list (string * string)) (extra : list string) :
  (forall f, In f (map snd ps) -> exists n, length_of load_fn f = Ok n) ->
  AudioMelDataset.filter_by_mel_length load_fn threshold
    (map fst ps ++ extra) (map snd ps)
  = Ok (map fst (filter (fun p => above load_fn threshold (snd p)) ps),
        map snd (filter (fun p => above load_fn threshold (snd p)) ps)).
Proof.
  intros Hm. unfold AudioMelDataset.filter_by_mel_length.
  destruct (load_lengths_returns _ _ Hm) as [lengths Hl].
  rewrite Hl. cbn [rbind].
  destruct (retained_idxs (map snd ps) lengths threshold) as [idxs|e] eqn:Hi;
    [|rewrite (retained_idxs_filter _ _ _ _ Hl) in Hi; discriminate].
  cbn [rbind].
  rewrite take_idxs_app_l.
  - rewrite (threshold_on_carrier snd fst _ _ _ _ _ Hl Hi). cbn [rbind].
    rewrite (threshold_on_carrier snd snd _ _ _ _ _ Hl Hi). reflexivity.
  - pose proof (retained_in_range _ _ _ _ _ Hl Hi) as H.
    rewrite !length_map in *. exact H.
Qed.

(** A stage that returned has measured its files. *)
Lemma audio_stage_measured (load_fn : loader) (threshold : Z)
  (audio mel : list string) (res : list string * list string) :
  AudioMelDataset.filter_by_audio_length load_fn threshold audio mel
    = Ok res ->
  forall f, In f audio -> exists n, length_of load_fn f = Ok n.
Proof.
  unfold AudioMelDataset.filter_by_audio_length. intros H.
  bind_ok H lengths Hl. eapply load_lengths_measured; eauto.
Qed.

Lemma mel_stage_measured (load_fn : loader) (threshold : Z)
  (audio mel : list string) (res : list string * list string) :
  AudioMelDataset.filter_by_mel_length load_fn threshold audio mel
    = Ok res ->
  forall f, In f mel -> exists n, length_of load_fn f = Ok n.
Proof.
  unfold AudioMelDataset.filter_by_mel_length. intros H.
  bind_ok H lengths Hl. eapply load_lengths_measured; eauto.
Qed.

Lemma filter_above_none (load_fn : loader) {X : Type} (g : X -> string)
  (xs : list X) :
  filter (fun x => above_opt load_fn None (g x)) xs = xs.
Proof. apply forallb_filter_id, forallb_forall. reflexivity. Qed.

(** The two thresholds in turn, over pairs; a surplus of mel files is
    allowed when the audio threshold is configured. *)
Lemma thresholds_on_pairs (al ml : loader) (Ta Tm : option Z)
  (ps : list (string * string)) (extra : list string)
  (res : list string * list string) :
  (Ta = None -> extra = []) ->
  (filtered <-
     match Ta with
     | Some threshold =>
         AudioMelDataset.filter_by_audio_length al threshold
           (map fst ps) (map snd ps ++ extra)
     | None => Ok (map fst ps, map snd ps ++ extra)
     end ;;
   match Tm with
   | Some threshold =>
       AudioMelDataset.filter_by_mel_length ml threshold
         (fst filtered) (snd filtered)
   | None => Ok filtered
   end) = Ok res ->
  res = (map fst (filter (fun p => above_opt al Ta (fst p)
                                   && above_opt ml Tm (snd p)) ps),
         map snd (filter (fun p => above_opt al Ta (fst p)
                                   && above_opt ml Tm (snd p)) ps)).
Proof.
  intros Hextra H. bind_ok H res1 H1.
  set (k1 := filter (fun p => above_opt al Ta (fst p)) ps).
  assert (Hres1 : res1 = (map fst k1, map snd k1)).
  { destruct Ta as [t|].
    - pose proof (audio_stage_measured _ _ _ _ _ H1) as Hm.
      rewrite (audio_stage_on_pairs al t ps extra Hm) in H1.
      injection H1 as <-. reflexivity.
    - rewrite (Hextra eq_refl), app_nil_r in H1. injection H1 as <-.
      unfold k1. rewrite (filter_above_none al fst). reflexivity. }
  subst res1. cbn [fst snd] in H.
  rewrite <- (filter_twice (fun p => above_opt al Ta (fst p))
                           (fun p => above_opt ml Tm (snd p))).
  fold k1.
  destruct Tm as [t|].
  - pose proof (mel_stage_measured _ _ _ _ _ H) as Hm.
    rewrite <- (app_nil_r (map fst k1)) in H.
    rewrite (mel_stage_on_pairs ml t k1 [] Hm) in H.
    injection H as <-. reflexivity.
  - injection H as <-. rewrite (filter_above_none ml snd). reflexivity.
Qed.

Lemma thresholds_on_pairs_return (al ml : loader) (Ta Tm : option Z)
  (ps : list (string * string)) (extra : list string) :
  (Ta = None -> extra = []) ->
  measurable al Ta (map fst ps) ->
  measurable ml Tm (map snd ps) ->
  exists res,
    (filtered <-
       match Ta with
       | Some threshold =>
           AudioMelDataset.filter_by_audio_length al threshold
             (map fst ps) (map snd ps ++ extra)
       | None => Ok (map fst ps, map snd ps ++ extra)
       end ;;
     match Tm with
     | Some threshold =>
         AudioMelDataset.filter_by_mel_length ml threshold
           (fst filtered) (snd filtered)
     | None => Ok filtered
     end) = Ok res.
Proof.
  intros Hextra Ha Hm.
  set (k1 := filter (fun p => above_opt al Ta (fst p)) ps).
  assert (H1 : match Ta with
               | Some threshold =>
                   AudioMelDataset.filter_by_audio_length al threshold
                     (map fst ps) (map snd ps ++ extra)
               | None => Ok (map fst ps, map snd ps ++ extra)
               end = Ok (map fst k1, map snd k1)).
  { destruct Ta as [t|].
    - apply audio_stage_on_pairs. exact Ha.
    - rewrite (Hextra eq_refl), app_nil_r. unfold k1.
      rewrite (filter_above_none al fst). reflexivity. }
  rewrite H1. cbn [rbind fst snd].
  destruct Tm as [t|]; [|eauto].
  rewrite <- (app_nil_r (map fst k1)).
  rewrite (mel_stage_on_pairs ml t k1 []); [eauto|].
  intros f Hf. apply Hm. apply in_map_iff in Hf.
  destruct Hf as [p [<- Hp]]. apply in_map. unfold k1 in Hp.
  apply filter_In in Hp. apply Hp.
Qed.

(** The lists found, as pairs with a surplus of mel files. *)
Lemma found_as_pairs (audio mel : list string) :
  List.length audio <= List.length mel ->
  audio = map fst (combine audio mel)
  /\ mel = map snd (combine audio mel) ++ skipn (List.length audio) mel.
Proof.
  intros H. split.
  - symmetry. apply map_fst_combine_le. exact H.
  - symmetry. apply map_snd_combine_skipn.
Qed.

Lemma filtered_files_as_pairs (find_files : file_finder)
  (root_dir audio_query mel_query : string) (al ml : loader)
  (Ta Tm : option Z) (res : list string * list string) :
  List.length (find_files root_dir audio_query)
    <= List.length (find_files root_dir mel_query) ->
  (Ta = None ->
   List.length (find_files root_dir audio_query)
     = List.length (find_files root_dir mel_query)) ->
  AudioMelDataset.filtered_files find_files root_dir audio_query mel_query
                                 al ml Ta Tm = Ok res ->
  res = (map fst (kept_pairs al ml Ta Tm
                    (sorted (find_files root_dir audio_query))
                    (sorted (find_files root_dir mel_query))),
         map snd (kept_pairs al ml Ta Tm
                    (sorted (find_files root_dir audio_query))
                    (sorted (find_files root_dir mel_query)))).
Proof.
  intros Hle Heq. unfold AudioMelDataset.filtered_files, kept_pairs.
  set (audio := sorted (find_files root_dir audio_query)).
  set (mel := sorted (find_files root_dir mel_query)).
  assert (Hle' : List.length audio <= List.length mel)
    by (unfold audio, mel; rewrite !sorted_length; exact Hle).
  destruct (found_as_pairs audio mel Hle') as [Ha Hm].
  assert (Hextra : Ta = None -> skipn (List.length audio) mel = []).
  { intros HT. apply skipn_all2. unfold audio, mel.
    rewrite !sorted_length. rewrite (Heq HT). lia. }
  remember (combine audio mel) as ps eqn:Hps.
  remember (skipn (List.length audio) mel) as extra eqn:Hex.
  clearbody audio mel. subst audio mel.
  cbv zeta. intros H.
  apply thresholds_on_pairs in H; [exact H|exact Hextra].
Qed.

Lemma measurable_perm (load_fn : loader) (T : option Z)
  (l l' : list string) :
  (forall f, In f l' -> In f l) ->
  measurable load_fn T l -> measurable load_fn T l'.
Proof.
  intros Hincl. destruct T as [t|]; cbn; [|trivial].
  intros H f Hf. apply H, Hincl, Hf.
Qed.

Lemma in_sorted (l : list string) (f : string) : In f (sorted l) -> In f l.
Proof.
  apply Permutation_in, Permutation_sym, sorted_perm.
Qed.

Lemma filtered_files_return_pairs (find_files : file_finder)
  (root_dir audio_query mel_query : string) (al ml : loader)
  (Ta Tm : option Z) :
  List.length (find_files root_dir audio_query)
    <= List.length (find_files root_dir mel_query) ->
  (Ta = None ->
   List.length (find_files root_dir audio_query)
     = List.length (find_files root_dir mel_query)) ->
  measurable al Ta (find_files root_dir audio_query) ->
  measurable ml Tm (find_files root_dir mel_query) ->
  AudioMelDataset.filtered_files find_files root_dir audio_query mel_query
                                 al ml Ta Tm
  = Ok (map fst (kept_pairs al ml Ta Tm
                   (sorted (find_files root_dir audio_query))
                   (sorted (find_files root_dir mel_query))),
        map snd (kept_pairs al ml Ta Tm
                   (sorted (find_files root_dir audio_query))
                   (sorted (find_files root_dir mel_query)))).
Proof.
  intros Hle Heq Hma Hmm.
  destruct (AudioMelDataset.filtered_files find_files root_dir audio_query
              mel_query al ml Ta Tm) as [res|e] eqn:H.
  - f_equal. eapply filtered_files_as_pairs; eauto.
  - exfalso. unfold AudioMelDataset.filtered_files in H.
    set (audio := sorted (find_files root_dir audio_query)) in *.
    set (mel := sorted (find_files root_dir mel_query)) in *.
    assert (Hle' : List.length audio <= List.length mel)
      by (unfold audio, mel; rewrite !sorted_length; exact Hle).
    assert (Hma' : measurable al Ta audio)
      by (eapply measurable_perm; [apply in_sorted|exact Hma]).
    assert (Hmm' : measurable ml Tm mel)
      by (eapply measurable_perm; [apply in_sorted|exact Hmm]).
    destruct (found_as_pairs audio mel Hle') as [Ha Hm].
    assert (Hextra : Ta = None -> skipn (List.length audio) mel = []).
    { intros HT. apply skipn_all2. unfold audio, mel.
      rewrite !sorted_length. rewrite (Heq HT). lia. }
    remember (combine audio mel) as ps eqn:Hps.
    remember (skipn (List.length audio) mel) as extra eqn:Hex.
    clearbody audio mel. subst audio mel. cbv zeta in H.
    destruct (thresholds_on_pairs_return al ml Ta Tm ps extra Hextra Hma')
      as [res Hres].
    + eapply measurable_perm; [|exact Hmm'].
      intros f Hf. apply in_or_app. left. exact Hf.
    + congruence.
Qed.

Lemma init_of_filtered (find_files : file_finder)
  (root_dir audio_query mel_query : string) (al ml : loader)
  (Ta Tm : option Z) (r : bool) (ps : list (string * string)) :
  AudioMelDataset.filtered_files find_files root_dir audio_query mel_query
                                 al ml Ta Tm
    = Ok (map fst ps, map snd ps) ->
  ps <> [] ->
  AudioMelDataset.__init__ find_files root_dir audio_query mel_query
                           al ml Ta Tm r
  = Ok (AudioMelDataset.mk
          (utt_ids_from "-wave.npy" audio_query (map fst ps))
          (map fst ps) (map snd ps) al ml r).
Proof.
  intros Hf Hne. unfold AudioMelDataset.__init__. rewrite Hf.
  cbn [rbind fst snd]. rewrite !length_map.
  destruct ps as [|p ps]; [congruence|].
  cbn [List.length Nat.eqb]. rewrite Nat.eqb_refl. reflexivity.
Qed.

(** X2. Property: over equally many audio and mel files, a constructed
    [AudioMelDataset] holds exactly the pairs (i-th sorted audio file,
    i-th sorted mel file) of which the audio passes the audio threshold and
    the mel passes the mel threshold, in sorted order, with one utterance
    id per pair; and the constructor returns whenever the files can be
    measured and at least one pair passes. *)
Theorem paired_adapter_holds_the_pairs_above_thresholds
  (find_files : file_finder) (root_dir audio_query mel_query : string)
  (al ml : loader) (Ta Tm : option Z) (r : bool) :
  List.length (find_files root_dir audio_query)
    = List.length (find_files root_dir mel_query) ->
  let kept := kept_pairs al ml Ta Tm
                (sorted (find_files root_dir audio_query))
                (sorted (find_files root_dir mel_query)) in
  (forall ds,
     AudioMelDataset.__init__ find_files root_dir audio_query mel_query
                              al ml Ta Tm r = Ok ds ->
     combine (AudioMelDataset.audio_files ds) (AudioMelDataset.mel_files ds)
       = kept
     /\ AudioMelDataset.audio_files ds = map fst kept
     /\ AudioMelDataset.mel_files ds = map snd kept
     /\ List.length (AudioMelDataset.utt_ids ds) = List.length kept)
  /\ (measurable al Ta (find_files root_dir audio_query) ->
      measurable ml Tm (find_files root_dir mel_query) ->
      kept <> [] ->
      exists ds,
        AudioMelDataset.__init__ find_files root_dir audio_query mel_query
                                 al ml Ta Tm r = Ok ds).
Proof.
  intros Hlen kept. split.
  - intros ds Hinit.
    destruct (AudioMelDataset_init_inv _ _ _ _ _ _ _ _ _ _ Hinit)
      as (audio & mel & Hf & _ & _ & ->).
    apply filtered_files_as_pairs in Hf; [|lia|intros _; exact Hlen].
    injection Hf as -> ->. fold kept.
    cbn [AudioMelDataset.audio_files AudioMelDataset.mel_files
         AudioMelDataset.utt_ids].
    rewrite combine_fst_snd, utt_ids_from_length, length_map. auto.
  - intros Hma Hmm Hne. eexists.
    apply init_of_filtered; [|exact Hne].
    apply filtered_files_return_pairs; try assumption; [lia|].
    intros _. exact Hlen.
Qed.

(** X3. Property: a configured audio threshold hides a surplus of mel
    files.  With more mel files than audio files, the constructor with an
    audio threshold returns an adapter over the pairs formed with the
    first mel files in sorted order, the surplus being dropped without a
    word; the same lists without any threshold fail the assertion on the
    number of files. *)
Theorem audio_threshold_hides_surplus_mel_files
  (find_files : file_finder) (root_dir audio_query mel_query : string)
  (al ml : loader) (t : Z) (Tm : option Z) (r : bool) :
  List.length (find_files root_dir audio_query)
    < List.length (find_files root_dir mel_query) ->
  measurable al (Some t) (find_files root_dir audio_query) ->
  measurable ml Tm (find_files root_dir mel_query) ->
  let kept := kept_pairs al ml (Some t) Tm
                (sorted (find_files root_dir audio_query))
                (sorted (find_files root_dir mel_query)) in
  kept <> [] ->
  (exists ds,
     AudioMelDataset.__init__ find_files root_dir audio_query mel_query
                              al ml (Some t) Tm r = Ok ds
     /\ combine (AudioMelDataset.audio_files ds)
                (AudioMelDataset.mel_files ds) = kept
     /\ List.length (AudioMelDataset.mel_files ds)
        <= List.length (find_files root_dir audio_query))
  /\ (exists msg,
        AudioMelDataset.__init__ find_files root_dir audio_query mel_query
                                 al ml None None r
        = Raise (AssertionError msg)).
Proof.
  intros Hlt Hma Hmm kept Hne. split.
  - eexists. split; [|split].
    + apply init_of_filtered; [|exact Hne].
      apply filtered_files_return_pairs; try assumption; [lia|discriminate].
    + cbn [AudioMelDataset.audio_files AudioMelDataset.mel_files].
      apply combine_fst_snd.
    + cbn [AudioMelDataset.mel_files]. rewrite length_map.
      fold kept. unfold kept, kept_pairs.
      etransitivity; [apply filter_length_le|].
      rewrite length_combine, !sorted_length. lia.
  - unfold AudioMelDataset.__init__, AudioMelDataset.filtered_files.
    cbn [rbind fst snd]. rewrite !sorted_length.
    destruct (List.length (find_files root_dir audio_query) =? 0)%nat;
      [eauto|].
    destruct (Nat.eqb_spec (List.length (find_files root_dir audio_query))
                (List.length (find_files root_dir mel_query)));
      [lia|]. cbn [negb]. eauto.
Qed.

(** ** Positions out of range *)

Lemma take_idxs_out_of_range (files : list string) (idxs : list nat)
  (i : nat) :
  In i idxs -> List.length files <= i ->
  take_idxs files idxs = Raise IndexError.
Proof.
  unfold take_idxs. intros Hin Hi.
  induction idxs as [|j idxs IH]; [contradiction|].
  cbn [mapM]. unfold getitem at 1.
  destruct (nth_error files j) as [f|] eqn:Hf; [|reflexivity].
  cbn [rbind]. destruct Hin as [->|Hin].
  - apply nth_error_None in Hi. congruence.
  - rewrite (IH Hin). reflexivity.
Qed.

Lemma take_idxs_in_range (files : list string) (idxs : list nat) :
  Forall (fun i => i < List.length files) idxs ->
  exists l, take_idxs files idxs = Ok l.
Proof.
  intros H. apply mapM_returns. intros i Hi.
  rewrite Forall_forall in H. specialize (H i Hi).
  unfold getitem. destruct (nth_error files i) as [f|] eqn:Hf; [eauto|].
  apply nth_error_None in Hf. lia.
Qed.

(** X4. Property: a threshold reads the other list at the positions it
    keeps, before any assertion.  With an audio threshold, an audio file
    that passes it at a position beyond the end of the mel list makes the
    constructor raise [IndexError]; with a mel threshold alone, so does a
    mel file that passes it at a position beyond the end of the audio
    list. *)
Theorem kept_position_beyond_other_list_raises_index_error
  (find_files : file_finder) (root_dir audio_query mel_query : string)
  (al ml : loader) (t : Z) (r : bool) (i : nat) (f : string) :
  (measurable al (Some t) (find_files root_dir audio_query) ->
   nth_error (sorted (find_files root_dir audio_query)) i = Some f ->
   above al t f = true ->
   List.length (find_files root_dir mel_query) <= i ->
   forall Tm,
     AudioMelDataset.__init__ find_files root_dir audio_query mel_query
                              al ml (Some t) Tm r = Raise IndexError)
  /\ (measurable ml (Some t) (find_files root_dir mel_query) ->
      nth_error (sorted (find_files root_dir mel_query)) i = Some f ->
      above ml t f = true ->
      List.length (find_files root_dir audio_query) <= i ->
      AudioMelDataset.__init__ find_files root_dir audio_query mel_query
                               al ml None (Some t) r = Raise IndexError).
Proof.
  split.
  - intros Hm Hf Hab Hi Tm.
    unfold AudioMelDataset.__init__, AudioMelDataset.filtered_files,
           AudioMelDataset.filter_by_audio_length.
    set (audio := sorted (find_files root_dir audio_query)) in *.
    set (mel := sorted (find_files root_dir mel_query)).
    destruct (load_lengths_returns al audio) as [lengths Hl].
    { intros g Hg. apply Hm, in_sorted, Hg. }
    rewrite Hl. cbn [rbind].
    rewrite (retained_idxs_filter _ _ _ _ Hl). cbn [rbind].
    set (idxs := filter _ _).
    assert (Hin : In i idxs).
    { apply filter_In. split.
      - apply in_seq. split; [lia|]. cbn.
        apply nth_error_Some. congruence.
      - rewrite Hf. exact Hab. }
    destruct (take_idxs_in_range audio idxs) as [a' Ha].
    { apply Forall_forall. intros j Hj. apply filter_In in Hj.
      destruct Hj as [Hj _]. apply in_seq in Hj. lia. }
    rewrite Ha. cbn [rbind].
    rewrite (take_idxs_out_of_range mel idxs i Hin)
      by (unfold mel; rewrite sorted_length; exact Hi).
    reflexivity.
  - intros Hm Hf Hab Hi.
    unfold AudioMelDataset.__init__, AudioMelDataset.filtered_files,
           AudioMelDataset.filter_by_mel_length.
    set (audio := sorted (find_files root_dir audio_query)).
    set (mel := sorted (find_files root_dir mel_query)) in *.
    cbn [rbind fst snd].
    destruct (load_lengths_returns ml mel) as [lengths Hl].
    { intros g Hg. apply Hm, in_sorted, Hg. }
    rewrite Hl. cbn [rbind].
    rewrite (retained_idxs_filter _ _ _ _ Hl). cbn [rbind].
    set (idxs := filter _ _).
    assert (Hin : In i idxs).
    { apply filter_In. split.
      - apply in_seq. split; [lia|]. cbn.
        apply nth_error_Some. congruence.
      - rewrite Hf. exact Hab. }
    rewrite (take_idxs_out_of_range audio idxs i Hin)
      by (unfold audio; rewrite sorted_length; exact Hi).
    reflexivity.
Qed.

(** ** Failures of the loaders *)

Lemma mapM_first_failure {A B : Type} (f : A -> result B)
  (pre : list A) (x : A) (post : list A) (e : exn) :
  (forall y, In y pre -> exists b, f y = Ok b) ->
  f x = Raise e ->
  mapM f (pre ++ x :: post) = Raise e.
Proof.
  intros Hpre Hx. induction pre as [|y pre IH]; cbn.
  - rewrite Hx. reflexivity.
  - destruct (Hpre y (or_introl eq_refl)) as [b Hb]. rewrite Hb. cbn.
    rewrite IH; [reflexivity|].
    intros z Hz. apply Hpre. right. exact Hz.
Qed.

(** X5. Property: with a threshold configured, a file that cannot be
    measured (its loader raises, or the array it returns has no
    dimension) makes the constructor fail with that very exception, the
    one of the first such file in sorted order; no assertion message
    replaces it.  Without a threshold no loader is called at
    construction: over the same directory the constructor returns an
    adapter that holds the unmeasurable file. *)
Theorem unmeasurable_file_fails_the_construction
  (find_files : file_finder) (root_dir query : string) (load_fn : loader)
  (t : Z) (r : bool) (pre post : list string) (f : string) (e : exn) :
  sorted (find_files root_dir query) = pre ++ f :: post ->
  (forall g, In g pre -> exists n, length_of load_fn g = Ok n) ->
  length_of load_fn f = Raise e ->
  AudioDataset.__init__ find_files root_dir query load_fn (Some t) r
    = Raise e
  /\ MelDataset.__init__ find_files root_dir query load_fn (Some t) r
     = Raise e
  /\ (forall mel_query ml Tm,
        AudioMelDataset.__init__ find_files root_dir query mel_query
                                 load_fn ml (Some t) Tm r = Raise e)
  /\ (exists ds,
        AudioDataset.__init__ find_files root_dir query load_fn None r
          = Ok ds
        /\ AudioDataset.audio_files ds = pre ++ f :: post).
Proof.
  intros Hs Hpre Hf.
  assert (Hl : load_lengths load_fn (sorted (find_files root_dir query))
               = Raise e).
  { unfold load_lengths. rewrite Hs.
    apply mapM_first_failure; assumption. }
  split; [|split; [|split]].
  - unfold AudioDataset.__init__, AudioDataset.filter_by_audio_length.
    rewrite Hl. reflexivity.
  - unfold MelDataset.__init__, MelDataset.filter_by_mel_length.
    rewrite Hl. reflexivity.
  - intros mel_query ml Tm.
    unfold AudioMelDataset.__init__, AudioMelDataset.filtered_files,
           AudioMelDataset.filter_by_audio_length.
    rewrite Hl. reflexivity.
  - unfold AudioDataset.__init__. cbn [rbind]. rewrite Hs.
    rewrite length_app. cbn [List.length].
    rewrite Nat.add_succ_r. cbn [Nat.eqb].
    eexists. split; reflexivity.
Qed.

(** ** Runs of the generators *)

Section FailingRun.
Context {A : Type}.
Variable body : nat -> string -> result (items A).
Variable run_from : nat -> list string -> run A.
Hypothesis run_nil : forall i, run_from i [] = ([], None).
Hypothesis run_cons : forall i utt_id rest,
  run_from i (utt_id :: rest) =
  match body i utt_id with
  | Raise e => ([], Some e)
  | Ok it => let (yielded, stop) := run_from (S i) rest in
             (it :: yielded, stop)
  end.

(** A run entered at [i] whose body returns up to position [j] and raises
    there. *)
Lemma run_from_failure (j : nat) (e : exn) :
  (forall p u, p < j -> exists it, body p u = Ok it) ->
  (forall u, body j u = Raise e) ->
  forall (utt_ids : list string) (i : nat),
    i <= j -> j - i < List.length utt_ids ->
    List.length (fst (run_from i utt_ids)) = j - i
    /\ snd (run_from i utt_ids) = Some e
    /\ forall p u, p < j - i -> nth_error utt_ids p = Some u ->
         exists it, nth_error (fst (run_from i utt_ids)) p = Some it
                    /\ body (i + p) u = Ok it.
Proof.
  intros Hok Hfail. induction utt_ids as [|u rest IH]; intros i Hij Hlen.
  - cbn in Hlen. lia.
  - rewrite run_cons. destruct (Nat.eq_dec i j) as [->|Hne].
    + rewrite Hfail. rewrite Nat.sub_diag. cbn. repeat split.
      intros p v Hp. lia.
    + destruct (Hok i u ltac:(lia)) as [it Hit]. rewrite Hit.
      cbn [List.length] in Hlen.
      destruct (IH (S i) ltac:(lia) ltac:(lia)) as (H1 & H2 & H3).
      destruct (run_from (S i) rest) as [yielded stop].
      cbn [fst snd List.length] in *. repeat split.
      * lia.
      * exact H2.
      * intros p v Hp Hv. destruct p as [|p]; cbn [nth_error] in *.
        -- injection Hv as <-. exists it. rewrite Nat.add_0_r. auto.
        -- destruct (H3 p v ltac:(lia) Hv) as [it' [Ha Hb]].
           exists it'. split; [exact Ha|].
           replace (i + S p) with (S i + p) by lia. exact Hb.
Qed.

(** The ids of the items yielded are the ids supplied, or none at all. *)
Variable flag : bool.
Hypothesis body_tag : forall i u it,
  body i u = Ok it -> id_of it = (if flag then Some u else None).

Lemma run_from_tags (utt_ids : list string) (i : nat) :
  map id_of (fst (run_from i utt_ids))
  = map (fun u => if flag then Some u else None)
        (firstn (List.length (fst (run_from i utt_ids))) utt_ids).
Proof.
  revert i; induction utt_ids as [|u rest IH]; intros i.
  - rewrite run_nil. reflexivity.
  - rewrite run_cons. destruct (body i u) as [it|e] eqn:Hb; [|reflexivity].
    specialize (IH (S i)).
    destruct (run_from (S i) rest) as [yielded stop].
    cbn [fst List.length firstn map] in *.
    rewrite (body_tag _ _ _ Hb), IH. reflexivity.
Qed.
End FailingRun.

(** X6. Property: a loader failure during iteration ends the paired
    generator with that exception and is not skipped.  If the files of the
    positions before [j] load and the [j]-th audio file does not, or it
    does and the [j]-th mel file does not, a run over more than [j] ids
    yields the items of the positions before [j] and then raises the
    exception of the loader; the audio loader is called first. *)
Theorem paired_generator_stops_at_the_first_loader_failure
  (self : AudioMelDataset.t) (utt_ids : list string) (j : nat)
  (audio_file mel_file : string) (e : exn) :
  j < List.length utt_ids ->
  nth_error (AudioMelDataset.audio_files self) j = Some audio_file ->
  nth_error (AudioMelDataset.mel_files self) j = Some mel_file ->
  (forall p, p < j ->
     exists fa fm a m,
       nth_error (AudioMelDataset.audio_files self) p = Some fa
       /\ nth_error (AudioMelDataset.mel_files self) p = Some fm
       /\ AudioMelDataset.audio_load_fn self fa = Ok a
       /\ AudioMelDataset.mel_load_fn self fm = Ok m) ->
  (AudioMelDataset.audio_load_fn self audio_file = Raise e
   \/ (exists a, AudioMelDataset.audio_load_fn self audio_file = Ok a)
      /\ AudioMelDataset.mel_load_fn self mel_file = Raise e) ->
  let r := AudioMelDataset.generator self utt_ids in
  List.length (fst r) = j
  /\ snd r = Some e
  /\ forall p u, p < j -> nth_error utt_ids p = Some u ->
       exists it, nth_error (fst r) p = Some it
                  /\ paired_item_at self p u it.
Proof.
  intros Hj Hfa Hfm Hbefore Hfail r.
  destruct (run_from_failure (AudioMelDataset.generator_body self)
              (AudioMelDataset.generator_from self)
              (fun _ _ _ => eq_refl) j e) with
    (utt_ids := utt_ids) (i := 0) as (H1 & H2 & H3).
  - intros p u Hp.
    destruct (Hbefore p Hp) as (fa & fm & a & m & Ha & Hm & Hla & Hlm).
    eexists. apply paired_body_item.
    exists fa, fm, a, m. auto.
  - intros u. unfold AudioMelDataset.generator_body.
    apply getitem_Some in Hfa, Hfm. rewrite Hfa, Hfm. cbn [rbind].
    destruct Hfail as [Hra|[[a Ha] Hm]].
    + rewrite Hra. reflexivity.
    + rewrite Ha. cbn [rbind]. rewrite Hm. reflexivity.
  - lia.
  - lia.
  - rewrite Nat.sub_0_r in H1, H3. subst r.
    unfold AudioMelDataset.generator.
    split; [exact H1|]. split; [exact H2|].
    intros p u Hp Hu. destruct (H3 p u Hp Hu) as [it [Ha Hb]].
    exists it. split; [exact Ha|]. apply paired_body_item. exact Hb.
Qed.

Lemma paired_body_tag (self : AudioMelDataset.t) (i : nat) (u : string)
  (it : items (ndarray * ndarray)) :
  AudioMelDataset.generator_body self i u = Ok it ->
  id_of it = (if AudioMelDataset.return_utt_id self then Some u else None).
Proof.
  intros H. apply paired_body_item in H.
  destruct H as (fa & fm & a & m & _ & _ & _ & _ & ->).
  destruct (AudioMelDataset.return_utt_id self); reflexivity.
Qed.

Lemma audio_body_tag (self : AudioDataset.t) (i : nat) (u : string)
  (it : items ndarray) :
  AudioDataset.generator_body self i u = Ok it ->
  id_of it = (if AudioDataset.return_utt_id self then Some u else None).
Proof.
  intros H. apply audio_body_item in H.
  destruct H as (fa & a & _ & _ & ->).
  destruct (AudioDataset.return_utt_id self); reflexivity.
Qed.

Lemma mel_body_item (self : MelDataset.t) (j : nat)
  (utt_id : string) (it : items ndarray) :
  MelDataset.generator_body self j utt_id = Ok it <->
  mel_item_at self j utt_id it.
Proof.
  unfold MelDataset.generator_body, mel_item_at. split.
  - intros H. bind_ok H fm Hfm. bind_ok H m Hm.
    injection H as <-. apply getitem_Some in Hfm.
    exists fm, m. auto.
  - intros (fm & m & Hfm & Hm & ->).
    apply getitem_Some in Hfm.
    rewrite Hfm; simpl. rewrite Hm; simpl. reflexivity.
Qed.

Lemma mel_body_tag (self : MelDataset.t) (i : nat) (u : string)
  (it : items ndarray) :
  MelDataset.generator_body self i u = Ok it ->
  id_of it = (if MelDataset.return_utt_id self then Some u else None).
Proof.
  intros H. apply mel_body_item in H.
  destruct H as (fm & m & _ & _ & ->).
  destruct (MelDataset.return_utt_id self); reflexivity.
Qed.

(** X7. Property: the utterance ids that come out of a generator are the
    ids that were passed in, position by position, not the ids the adapter
    derived from its files: with [return_utt_id] every item yielded carries
    the supplied id of its position, and without it no item carries an
    id. *)
Theorem generators_echo_the_supplied_ids :
  (forall (self : AudioMelDataset.t) (utt_ids : list string),
     let yielded := fst (AudioMelDataset.generator self utt_ids) in
     map id_of yielded
     = map (fun u => if AudioMelDataset.return_utt_id self
                     then Some u else None)
           (firstn (List.length yielded) utt_ids))
  /\ (forall (self : AudioDataset.t) (utt_ids : list string),
        let yielded := fst (AudioDataset.generator self utt_ids) in
        map id_of yielded
        = map (fun u => if AudioDataset.return_utt_id self
                        then Some u else None)
              (firstn (List.length yielded) utt_ids))
  /\ (forall (self : MelDataset.t) (utt_ids : list string),
        let yielded := fst (MelDataset.generator self utt_ids) in
        map id_of yielded
        = map (fun u => if MelDataset.return_utt_id self
                        then Some u else None)
              (firstn (List.length yielded) utt_ids)).
Proof.
  split; [|split]; intros self utt_ids.
  - apply (run_from_tags (AudioMelDataset.generator_body self)
             (AudioMelDataset.generator_from self)
             (fun _ => eq_refl) (fun _ _ _ => eq_refl)).
    apply paired_body_tag.
  - apply (run_from_tags (AudioDataset.generator_body self)
             (AudioDataset.generator_from self)
             (fun _ => eq_refl) (fun _ _ _ => eq_refl)).
    apply audio_body_tag.
  - apply (run_from_tags (MelDataset.generator_body self)
             (MelDataset.generator_from self)
             (fun _ => eq_refl) (fun _ _ _ => eq_refl)).
    apply mel_body_tag.
Qed.

Lemma mel_body_in_range (self : MelDataset.t) (i : nat) (utt_id : string) :
  loads_all (MelDataset.mel_load_fn self) (MelDataset.mel_files self) ->
  i < List.length (MelDataset.mel_files self) ->
  exists it, MelDataset.generator_body self i utt_id = Ok it.
Proof.
  intros Hml Hi. unfold MelDataset.generator_body.
  destruct (nth_error (MelDataset.mel_files self) i) as [fm|] eqn:Hfm;
    [|apply nth_error_None in Hfm; lia].
  destruct (Hml fm (nth_error_In _ _ Hfm)) as [m Hm].
  unfold getitem. rewrite Hfm. simpl. rewrite Hm. simpl. eauto.
Qed.

Lemma mel_body_out_of_range (self : MelDataset.t) (i : nat)
  (utt_id : string) :
  List.length (MelDataset.mel_files self) <= i ->
  MelDataset.generator_body self i utt_id = Raise IndexError.
Proof.
  intros Hi. unfold MelDataset.generator_body.
  rewrite getitem_out_of_range by exact Hi. reflexivity.
Qed.

Lemma mel_body_ids (self : MelDataset.t) (i : nat) (u u' : string) :
  match MelDataset.generator_body self i u,
        MelDataset.generator_body self i u' with
  | Ok it, Ok it' => arrays_of it = arrays_of it'
  | Raise e, Raise e' => e = e'
  | _, _ => False
  end.
Proof.
  unfold MelDataset.generator_body.
  destruct (getitem (MelDataset.mel_files self) i); simpl; [|auto].
  destruct (MelDataset.mel_load_fn self a); simpl; [|auto].
  destruct (MelDataset.return_utt_id self); reflexivity.
Qed.

(** X8. Property: a constructed [MelDataset] iterated over its own ids
    yields one item per file, the [i]-th holding the mel loaded from the
    [i]-th file kept, and then stops normally; for any id list the mel
    generator goes by position: [k] ids against [n] files give the items
    of the first [min k n] positions, with an [IndexError] at position [n]
    when [k > n]. *)
Theorem mel_generator_goes_by_position (self : MelDataset.t)
  (utt_ids : list string) :
  loads_all (MelDataset.mel_load_fn self) (MelDataset.mel_files self) ->
  positional (mel_item_at self) (List.length (MelDataset.mel_files self))
             utt_ids (MelDataset.generator self utt_ids)
  /\ (forall utt_ids', List.length utt_ids' = List.length utt_ids ->
        map arrays_of (fst (MelDataset.generator self utt_ids'))
          = map arrays_of (fst (MelDataset.generator self utt_ids))
        /\ snd (MelDataset.generator self utt_ids')
           = snd (MelDataset.generator self utt_ids))
  /\ (forall find_files root_dir mel_query Tm,
        MelDataset.__init__ find_files root_dir mel_query
          (MelDataset.mel_load_fn self) Tm (MelDataset.return_utt_id self)
          = Ok self ->
        List.length (fst (MelDataset.generator self
                            (MelDataset.utt_ids self)))
          = List.length (MelDataset.mel_files self)
        /\ snd (MelDataset.generator self (MelDataset.utt_ids self))
           = None).
Proof.
  intros Hml.
  assert (Hpos : forall ids,
             positional (mel_item_at self)
               (List.length (MelDataset.mel_files self)) ids
               (MelDataset.generator self ids)).
  { intros ids.
    apply (positional_of_run_from (MelDataset.generator_body self)).
    - intros j u it. apply mel_body_item.
    - apply (run_from_positional (MelDataset.generator_body self) _
               (MelDataset.generator_from self)); try reflexivity.
      + intros i u Hi. apply mel_body_in_range; assumption.
      + intros i u Hi. apply mel_body_out_of_range; assumption. }
  split; [apply Hpos|]. split.
  - intros utt_ids' Hk.
    apply (run_from_ids_irrelevant (MelDataset.generator_body self)
             (MelDataset.generator_from self));
      try reflexivity; try assumption.
    apply mel_body_ids.
  - intros find_files root_dir mel_query Tm Hinit.
    assert (Hlen : List.length (MelDataset.utt_ids self)
                   = List.length (MelDataset.mel_files self)).
    { unfold MelDataset.__init__ in Hinit. bind_ok Hinit files Hf.
      destruct (List.length files =? 0)%nat; [discriminate|].
      injection Hinit as Hs. rewrite <- Hs. cbn.
      destruct (contains ".npy" mel_query); apply length_map. }
    destruct (Hpos (MelDataset.utt_ids self)) as (H1 & _ & H3).
    rewrite H1, H3, Hlen, Nat.min_id, Nat.leb_refl. auto.
Qed.

(** X9. Property: the declared output types of the paired adapter agree
    with the items its generator yields: two [float32] entries, preceded
    by a string entry exactly when the items carry an id.  The single
    adapters declare the bare dtype [float32], not a tuple, and with
    [return_utt_id] set [get_output_dtypes] raises [TypeError] on
    unpacking it, although their generators do yield (id, array) items. *)
Theorem declared_output_types :
  (forall (self : AudioMelDataset.t),
     AudioMelDataset.get_output_dtypes self
     = Ok (TypeTuple (if AudioMelDataset.return_utt_id self
                      then [tf_string; float32; float32]
                      else [float32; float32]))
     /\ forall utt_ids it,
          In it (fst (AudioMelDataset.generator self utt_ids)) ->
          (id_of it <> None <-> AudioMelDataset.return_utt_id self = true))
  /\ (forall (self : AudioDataset.t),
        AudioDataset.get_output_dtypes self
        = (if AudioDataset.return_utt_id self
           then Raise (Propagated "TypeError")
           else Ok (OneType float32))
        /\ forall utt_ids it,
             In it (fst (AudioDataset.generator self utt_ids)) ->
             (id_of it <> None <-> AudioDataset.return_utt_id self = true))
  /\ (forall (self : MelDataset.t),
        MelDataset.get_output_dtypes self
        = (if MelDataset.return_utt_id self
           then Raise (Propagated "TypeError")
           else Ok (OneType float32))
        /\ forall utt_ids it,
             In it (fst (MelDataset.generator self utt_ids)) ->
             (id_of it <> None <-> MelDataset.return_utt_id self = true)).
Proof.
  assert (Htag : forall (A : Type) (flag : bool) (yielded : list (items A))
                        (ids : list string) (it : items A),
             map id_of yielded
               = map (fun u => if flag then Some u else None) ids ->
             In it yielded -> (id_of it <> None <-> flag = true)).
  { intros A flag yielded ids it Hmap Hin.
    apply (in_map id_of) in Hin. rewrite Hmap in Hin.
    apply in_map_iff in Hin. destruct Hin as [u [Hu _]].
    rewrite <- Hu. destruct flag; split; congruence. }
  split; [|split]; intros self; split.
  - unfold AudioMelDataset.get_output_dtypes.
    destruct (AudioMelDataset.return_utt_id self); reflexivity.
  - intros utt_ids it. eapply Htag.
    apply (run_from_tags (AudioMelDataset.generator_body self)
             (AudioMelDataset.generator_from self)
             (fun _ => eq_refl) (fun _ _ _ => eq_refl)).
    apply paired_body_tag.
  - unfold AudioDataset.get_output_dtypes.
    destruct (AudioDataset.return_utt_id self); reflexivity.
  - intros utt_ids it. eapply Htag.
    apply (run_from_tags (AudioDataset.generator_body self)
             (AudioDataset.generator_from self)
             (fun _ => eq_refl) (fun _ _ _ => eq_refl)).
    apply audio_body_tag.
  - unfold MelDataset.get_output_dtypes.
    destruct (MelDataset.return_utt_id self); reflexivity.
  - intros utt_ids it. eapply Htag.
    apply (run_from_tags (MelDataset.generator_body self)
             (MelDataset.generator_from self)
             (fun _ => eq_refl) (fun _ _ _ => eq_refl)).
    apply mel_body_tag.
Qed.

(** ** Utterance ids of paths *)

Lemma rfind_absent (c : ascii) (s : string) :
  absent c s = true -> rfind c s = (-1)%Z.
Proof.
  induction s as [|a s IH]; cbn; [reflexivity|].
  intros H. apply andb_true_iff in H. destruct H as [Ha Hs].
  rewrite (IH Hs). cbn. apply negb_true_iff in Ha. rewrite Ha. reflexivity.
Qed.

Lemma rfind_last (c : ascii) (s t : string) :
  absent c t = true ->
  rfind c (s ++ String c t) = Z.of_nat (String.length s).
Proof.
  intros Ht. induction s as [|a s IH].
  - cbn [append String.length rfind]. rewrite (rfind_absent c t Ht).
    cbn. rewrite Ascii.eqb_refl. reflexivity.
  - cbn [append String.length rfind]. rewrite IH.
    destruct (Z.leb_spec 0 (Z.of_nat (String.length s))); lia.
Qed.

Lemma absent_app (c : ascii) (s t : string) :
  absent c (s ++ t) = absent c s && absent c t.
Proof.
  induction s as [|a s IH]; cbn; [reflexivity|].
  rewrite IH, andb_assoc. reflexivity.
Qed.

Lemma slice_from_after (c : ascii) (s t : string) :
  slice_from (S (String.length s)) (s ++ String c t) = t.
Proof. induction s as [|a s IH]; cbn; [destruct t; reflexivity|exact IH]. Qed.

Lemma slice_to_app (s t : string) :
  slice_to (String.length s) (s ++ t) = s.
Proof.
  induction s as [|a s IH]; cbn; [destruct t; reflexivity|].
  rewrite IH. reflexivity.
Qed.

Lemma basename_of_path (dir name : string) :
  absent "/" name = true ->
  basename (dir ++ String "/" name) = name.
Proof.
  intros H. unfold basename. rewrite (rfind_last _ dir name H).
  replace (Z.to_nat (Z.of_nat (String.length dir) + 1))
    with (S (String.length dir)) by lia.
  apply slice_from_after.
Qed.

Lemma basename_of_name (name : string) :
  absent "/" name = true -> basename name = name.
Proof.
  intros H. unfold basename. rewrite (rfind_absent _ name H).
  reflexivity.
Qed.

Lemma splitext_of_name (c : ascii) (stem ext : string) :
  c <> "."%char ->
  absent "/" (String c stem) = true ->
  absent "/" ext = true -> absent "." ext = true ->
  splitext (String c stem ++ String "." ext) = (String c stem, String "." ext).
Proof.
  intros Hc Hs He Hd. unfold splitext.
  assert (Hsep : rfind "/" (String c stem ++ String "." ext) = (-1)%Z).
  { apply rfind_absent. rewrite absent_app, Hs. cbn [absent andb].
    rewrite He. reflexivity. }
  rewrite Hsep, (rfind_last "." (String c stem) ext Hd).
  replace (-1 <? Z.of_nat (String.length (String c stem)))%Z with true
    by (symmetry; apply Z.ltb_lt; lia).
  replace (Z.to_nat (Z.of_nat (String.length (String c stem)) - (-1 + 1)))
    with (S (String.length stem)) by (cbn [String.length]; lia).
  change (Z.to_nat (-1 + 1)) with 0.
  cbn [splitext_scan andb].
  assert (Hfirst : String.eqb
                     (slice_to 1 (slice_from 0
                                    (String c stem ++ String "." ext)))
                     "." = false).
  { cbn. destruct (Ascii.eqb_spec c "."); [contradiction|reflexivity]. }
  rewrite Hfirst. cbn [negb].
  rewrite Nat2Z.id. rewrite slice_to_app. f_equal.
  clear. generalize (String c stem). intros s.
  induction s as [|a s IH]; cbn; [reflexivity|exact IH].
Qed.

(** X10. Property: the utterance id does not depend on the directory of a
    file.  For a path [dir/stem.ext] whose file name does not begin with a
    dot and whose extension holds no further dot, the generic rule gives
    [stem], dots inside the stem included; for a path
    [dir/stem-wave.npy] in which the token occurs at the end only, the
    rule for [.npy] queries gives [stem]. *)
Theorem utt_id_drops_directory_and_extension
  (dir stem ext : string) (c : ascii) :
  c <> "."%char ->
  absent "/" (String c stem) = true ->
  absent "/" ext = true ->
  absent "." ext = true ->
  utt_id_generic (dir ++ String "/" (String c stem ++ String "." ext))
    = String c stem
  /\ utt_id_generic (String c stem ++ String "." ext) = String c stem
  /\ (only_as_suffix "-wave.npy" (String c stem) ->
      utt_id_npy "-wave.npy"
        (dir ++ String "/" (String c stem ++ "-wave.npy"))
      = String c stem).
Proof.
  intros Hc Hs He Hd.
  assert (Hname : absent "/" (String c stem ++ String "." ext) = true).
  { rewrite absent_app, Hs. cbn [absent andb]. rewrite He. reflexivity. }
  unfold utt_id_generic, utt_id_npy. split; [|split].
  - rewrite (basename_of_path dir _ Hname).
    rewrite (splitext_of_name c stem ext Hc Hs He Hd). reflexivity.
  - rewrite (basename_of_name _ Hname).
    rewrite (splitext_of_name c stem ext Hc Hs He Hd). reflexivity.
  - intros Hsuf. rewrite basename_of_path.
    + apply replace_only_suffix; [discriminate|exact Hsuf].
    + rewrite absent_app, Hs. reflexivity.
Qed.

(** * Further properties of the trainer *)

Section TrainerSetup.

Context {Batch Weights : Type}.
Variable P : Persistence Weights.

Import GanBasedTrainer.

Local Abbreviation World := (GanBasedTrainer.World Batch Weights P).

Section MixedPrecision.

(** [tf.keras.mixed_precision.experimental.LossScaleOptimizer(_, "dynamic")] *)
Variable wrap : ref -> ref.

(** X11. Property: once the two models and the two optimizers have been
    set, [create_checkpoint_manager] returns; the checkpoint it creates
    tracks exactly the objects the getters return (an optimizer set under
    mixed precision is tracked through its loss-scale wrapper), its two
    variables start at 1 whatever the counters of the trainer are, and
    the manager writes under [<outdir>/checkpoints/] unless a path was
    given.  Counters, checkpoint directory and trace are untouched. *)
Theorem setters_prepare_the_checkpoint_manager (w : World)
  (g d go do_ : ref) (saved_path : option string) (max_to_keep : Z) :
  let go' := if is_generator_mixed_precision Batch Weights (self w)
             then wrap go else go in
  let do' := if is_discriminator_mixed_precision Batch Weights (self w)
             then wrap do_ else do_ in
  exists w1 w2 w3 w4 w5,
    set_gen_model P g w = Returns tt w1
    /\ set_dis_model P d w1 = Returns tt w2
    /\ set_gen_optimizer P wrap go w2 = Returns tt w3
    /\ set_dis_optimizer P wrap do_ w3 = Returns tt w4
    /\ create_checkpoint_manager P saved_path max_to_keep w4
       = Returns tt w5
    /\ get_gen_model P w5 = Returns g w5
    /\ get_dis_model P w5 = Returns d w5
    /\ get_gen_optimizer P w5 = Returns go' w5
    /\ get_dis_optimizer P w5 = Returns do' w5
    /\ ckpt (self w5) = Some (Checkpoint.mk 1 1 g d go' do')
    /\ ckp_manager (self w5)
       = Some (CheckpointManager.mk
                 (match saved_path with
                  | Some p => p
                  | None => outdir (config (self w)) ++ "/checkpoints/"
                  end)
                 max_to_keep)
    /\ steps (self w5) = steps (self w)
    /\ epochs (self w5) = epochs (self w)
    /\ disk w5 = disk w
    /\ trace w5 = trace w.
Proof.
  destruct w as [s dk tr]. destruct s.
  cbn [self is_generator_mixed_precision is_discriminator_mixed_precision].
  destruct is_generator_mixed_precision0,
           is_discriminator_mixed_precision0, saved_path;
    do 5 eexists;
    do 5 (split; [cbv [set_gen_model set_dis_model set_gen_optimizer
                       set_dis_optimizer create_checkpoint_manager
                       bind gets modify attr ret];
                  cbn; reflexivity|]);
    cbn; repeat split.
Qed.

End MixedPrecision.

(** X12. Property: [create_checkpoint_manager] called before a model or
    an optimizer has been set raises [AttributeError] for the first
    attribute missing in the order generator, discriminator,
    gen_optimizer, dis_optimizer, and leaves the trainer as it was: no
    checkpoint object and no manager are created. *)
Theorem create_checkpoint_manager_needs_the_models (w : World)
  (saved_path : option string) (max_to_keep : Z) :
  (generator (self w) = None ->
   create_checkpoint_manager P saved_path max_to_keep w
   = Raises (AttributeError "generator") w)
  /\ (generator (self w) <> None -> discriminator (self w) = None ->
      create_checkpoint_manager P saved_path max_to_keep w
      = Raises (AttributeError "discriminator") w)
  /\ (generator (self w) <> None -> discriminator (self w) <> None ->
      gen_optimizer (self w) = None ->
      create_checkpoint_manager P saved_path max_to_keep w
      = Raises (AttributeError "gen_optimizer") w)
  /\ (generator (self w) <> None -> discriminator (self w) <> None ->
      gen_optimizer (self w) <> None -> dis_optimizer (self w) = None ->
      create_checkpoint_manager P saved_path max_to_keep w
      = Raises (AttributeError "dis_optimizer") w).
Proof.
  destruct w as [s dk tr]. destruct s. cbn [self generator discriminator
    gen_optimizer dis_optimizer].
  cbv [create_checkpoint_manager bind gets modify attr ret].
  destruct generator0 as [g|], discriminator0 as [d|],
           gen_optimizer0 as [go|], dis_optimizer0 as [do_|];
    repeat split; intros; try congruence; reflexivity.
Qed.


(** ** Loading a checkpoint *)

(** X13. Property: a load that fails changes nothing.  Without a
    checkpoint object [load_checkpoint] raises [AttributeError], and with
    a path that is no checkpoint it raises what the persistence layer
    raises; in both cases the trainer, its objects and the checkpoint
    directory are exactly as before: no counter is reset and there is no
    fallback state. *)
Theorem failed_load_changes_nothing (w : World) (path : string) :
  (ckpt (self w) = None ->
   load_checkpoint P path w = Raises (AttributeError "ckpt") w)
  /\ (ckpt (self w) <> None -> restore P path (disk w) = None ->
      exists e, load_checkpoint P path w = Raises e w).
Proof.
  destruct w as [s dk tr]. cbn [self disk].
  cbv [load_checkpoint ckpt_restore bind gets modify attr ret].
  cbn [self disk trace]. split.
  - intros H. rewrite H. reflexivity.
  - intros Hck Hr. destruct (ckpt s) as [ck|]; [|congruence].
    cbn [self disk trace]. rewrite Hr. eauto.
Qed.

Lemma load_checkpoint_returns (w : World) (path : string)
  (ck : Checkpoint.t) (snap : Snapshot.t Weights) :
  ckpt (self w) = Some ck ->
  restore P path (disk w) = Some snap ->
  load_checkpoint P path w =
  Returns tt
    (mk_World
       (mk Batch Weights
          (Snapshot.steps snap) (Snapshot.epochs snap)
          (config (self w)) (finish_train (self w))
          (is_generator_mixed_precision Batch Weights (self w))
          (is_discriminator_mixed_precision Batch Weights (self w))
          (train_data_loader (self w))
          (eval_data_loader Batch Weights (self w))
          (Some (Checkpoint.generator ck))
          (Some (Checkpoint.discriminator ck))
          (Some (Checkpoint.gen_optimizer ck))
          (Some (Checkpoint.dis_optimizer ck))
          (Some (Checkpoint.mk (Snapshot.steps snap) (Snapshot.epochs snap)
                   (Checkpoint.generator ck) (Checkpoint.discriminator ck)
                   (Checkpoint.gen_optimizer ck)
                   (Checkpoint.dis_optimizer ck)))
          (ckp_manager (self w)) (tqdm (self w))
          (train_steps_per_epoch (self w))
          (store_object Weights (Checkpoint.dis_optimizer ck)
             (Snapshot.dis_optimizer snap)
             (store_object Weights (Checkpoint.gen_optimizer ck)
                (Snapshot.gen_optimizer snap)
                (store_object Weights (Checkpoint.discriminator ck)
                   (Snapshot.discriminator snap)
                   (store_object Weights (Checkpoint.generator ck)
                      (Snapshot.generator snap)
                      (objects (self w)))))))
       (disk w) (trace w)).
Proof.
  intros Hck Hr. destruct w as [s dk tr]. cbn [self disk trace] in *.
  cbv [load_checkpoint ckpt_restore bind gets modify attr ret].
  cbn [self disk trace]. rewrite Hck. cbn [self disk trace].
  rewrite Hr. cbn. reflexivity.
Qed.

Lemma store_object_same (r : ref) (v : Weights) (objs : ref -> Weights) :
  store_object Weights r v objs r = v.
Proof. unfold store_object. rewrite Nat.eqb_refl. reflexivity. Qed.

Lemma store_object_other (r r' : ref) (v : Weights)
  (objs : ref -> Weights) :
  r' <> r -> store_object Weights r v objs r' = objs r'.
Proof.
  intros H. unfold store_object.
  destruct (Nat.eqb_spec r' r); [contradiction|reflexivity].
Qed.

(** What a restore writes into the objects. *)
Lemma restored_objects (ck : Checkpoint.t) (snap : Snapshot.t Weights)
  (objs : ref -> Weights) :
  let objs' :=
    store_object Weights (Checkpoint.dis_optimizer ck)
      (Snapshot.dis_optimizer snap)
      (store_object Weights (Checkpoint.gen_optimizer ck)
         (Snapshot.gen_optimizer snap)
         (store_object Weights (Checkpoint.discriminator ck)
            (Snapshot.discriminator snap)
            (store_object Weights (Checkpoint.generator ck)
               (Snapshot.generator snap) objs))) in
  (NoDup (tracked ck) ->
   objs' (Checkpoint.generator ck) = Snapshot.generator snap
   /\ objs' (Checkpoint.discriminator ck) = Snapshot.discriminator snap
   /\ objs' (Checkpoint.gen_optimizer ck) = Snapshot.gen_optimizer snap
   /\ objs' (Checkpoint.dis_optimizer ck) = Snapshot.dis_optimizer snap)
  /\ (forall r, ~ In r (tracked ck) -> objs' r = objs r).
Proof.
  cbv zeta. unfold tracked. split.
  - intros Hnd.
    inversion Hnd as [|? ? Hg Hnd1]; subst.
    inversion Hnd1 as [|? ? Hd Hnd2]; subst.
    inversion Hnd2 as [|? ? Hgo _]; subst.
    cbn [In] in Hg, Hd, Hgo.
    repeat split.
    + rewrite !store_object_other by intuition congruence.
      apply store_object_same.
    + rewrite !store_object_other by intuition congruence.
      apply store_object_same.
    + rewrite store_object_other by intuition congruence.
      apply store_object_same.
    + apply store_object_same.
  - intros r Hr. cbn [In] in Hr.
    rewrite !store_object_other by intuition congruence. reflexivity.
Qed.

(** X14. Property: a successful [load_checkpoint] sets the counters to
    the saved ones, makes the trainer's models and optimizers the objects
    the checkpoint tracks, and overwrites the state of those objects with
    the saved state (each with its own when the four objects are
    distinct); objects the checkpoint does not track, [finish_train], the
    configuration, the loaders, the progress bar, the manager, the
    checkpoint directory and the trace are as before. *)
Theorem load_checkpoint_restores_the_tracked_objects (w : World)
  (path : string) (ck : Checkpoint.t) (snap : Snapshot.t Weights) :
  ckpt (self w) = Some ck ->
  restore P path (disk w) = Some snap ->
  exists w',
    load_checkpoint P path w = Returns tt w'
    /\ steps (self w') = Snapshot.steps snap
    /\ epochs (self w') = Snapshot.epochs snap
    /\ generator (self w') = Some (Checkpoint.generator ck)
    /\ discriminator (self w') = Some (Checkpoint.discriminator ck)
    /\ gen_optimizer (self w') = Some (Checkpoint.gen_optimizer ck)
    /\ dis_optimizer (self w') = Some (Checkpoint.dis_optimizer ck)
    /\ (NoDup (tracked ck) ->
        objects (self w') (Checkpoint.generator ck)
          = Snapshot.generator snap
        /\ objects (self w') (Checkpoint.discriminator ck)
           = Snapshot.discriminator snap
        /\ objects (self w') (Checkpoint.gen_optimizer ck)
           = Snapshot.gen_optimizer snap
        /\ objects (self w') (Checkpoint.dis_optimizer ck)
           = Snapshot.dis_optimizer snap)
    /\ (forall r, ~ In r (tracked ck) ->
          objects (self w') r = objects (self w) r)
    /\ finish_train (self w') = finish_train (self w)
    /\ config (self w') = config (self w)
    /\ train_data_loader (self w') = train_data_loader (self w)
    /\ tqdm (self w') = tqdm (self w)
    /\ ckp_manager (self w') = ckp_manager (self w)
    /\ disk w' = disk w
    /\ trace w' = trace w.
Proof.
  intros Hck Hr. eexists.
  split; [apply (load_checkpoint_returns w path ck snap Hck Hr)|].
  cbn [self disk trace steps epochs generator discriminator gen_optimizer
       dis_optimizer objects finish_train config train_data_loader tqdm
       ckp_manager].
  do 6 (split; [reflexivity|]).
  destruct (restored_objects ck snap (objects (self w))) as [H1 H2].
  split; [exact H1|]. split; [exact H2|].
  repeat split.
Qed.

(** X15. Property: the round trip of a checkpoint covers the models: with
    a persistence mechanism that gives back what it wrote, loading the
    checkpoint just saved, after any further training and into any
    trainer whose checkpoint tracks the same four distinct objects and
    which sees the same directory, puts the generator, the discriminator
    and the two optimizers back in the state they had at the save. *)
Theorem checkpoint_round_trip_restores_the_models
  (w w1 w2 : World) (path : string) (ck ck2 : Checkpoint.t) :
  round_trip P ->
  ckpt (self w) = Some ck ->
  save_checkpoint_path P w = Returns path w1 ->
  disk w2 = disk w1 ->
  ckpt (self w2) = Some ck2 ->
  tracked ck2 = tracked ck ->
  NoDup (tracked ck) ->
  exists w3,
    load_checkpoint P path w2 = Returns tt w3
    /\ Forall (fun r => objects (self w3) r = objects (self w) r)
              (tracked ck)
    /\ generator (self w3) = Some (Checkpoint.generator ck)
    /\ discriminator (self w3) = Some (Checkpoint.discriminator ck)
    /\ gen_optimizer (self w3) = Some (Checkpoint.gen_optimizer ck)
    /\ dis_optimizer (self w3) = Some (Checkpoint.dis_optimizer ck).
Proof.
  intros HP Hck Hsave Hdisk Hck2 Htr Hnd.
  pose proof (save_checkpoint_path_cases P w) as H. rewrite Hck in H.
  destruct (ckp_manager (self w)) as [mgr|]; [|congruence].
  cbv zeta in H. rewrite Hsave in H. injection H as Hpath Hw1.
  set (snap := snapshot_of
                 (Checkpoint.mk (steps (self w)) (epochs (self w))
                    (Checkpoint.generator ck) (Checkpoint.discriminator ck)
                    (Checkpoint.gen_optimizer ck)
                    (Checkpoint.dis_optimizer ck))
                 (objects (self w))) in *.
  assert (Hr : restore P path (disk w2) = Some snap).
  { rewrite Hdisk, Hw1, Hpath. cbn [disk]. apply HP. }
  eexists.
  split; [apply (load_checkpoint_returns w2 path ck2 snap Hck2 Hr)|].
  unfold tracked in Htr. injection Htr as Hg Hd Hgo Hdo.
  cbn [self objects generator discriminator gen_optimizer dis_optimizer].
  rewrite Hg, Hd, Hgo, Hdo.
  split; [|repeat split].
  destruct (restored_objects ck snap (objects (self w2))) as [H1 _].
  destruct (H1 Hnd) as (Ha & Hb & Hc & He).
  repeat constructor; assumption.
Qed.

End TrainerSetup.

Section TrainerLoop.

Context {Batch Weights : Type}.
Variable P : Persistence Weights.
Variable hooks : GanBasedTrainer.Hooks Batch Weights.
Hypothesis hooks_well_behaved : well_behaved hooks.

Import GanBasedTrainer.

Local Abbreviation World := (GanBasedTrainer.World Batch Weights P).

(** ** One step, counted *)

Lemma train_iteration_counts (batch : Batch) (v : Z) (w : World) :
  tqdm (self w) = Some v ->
  let w' := final (train_iteration P hooks batch w) in
  steps (self w') = (steps (self w) + 1)%Z
  /\ epochs (self w') = epochs (self w)
  /\ config (self w') = config (self w)
  /\ tqdm (self w') = Some (v + 1)%Z
  /\ exists ev,
       trace w' = trace w ++ Call_train_step batch
                            :: Call_check_train_finish :: ev
       /\ train_steps ev = [].
Proof.
  intros Hv.
  rewrite (train_iteration_unfold P hooks hooks_well_behaved batch v w Hv).
  destruct (before_checks_bookkeeping P hooks hooks_well_behaved batch v w)
    as (Hs & He & Hc & Ht).
  destruct (quiet_check_interval P hooks hooks_well_behaved
              (before_checks hooks batch v w))
    as [(Hs4 & He4 & Hc4 & Ht4) (ev & Hev & Hn)].
  cbv zeta in *.
  repeat split; try congruence.
  exists ev. split; [|exact Hn].
  rewrite Hev. unfold before_checks. cbn [trace].
  rewrite <- app_assoc. reflexivity.
Qed.


(** A rank other than 0 goes through a step without touching the
    checkpoint directory, whatever the intervals are. *)
Lemma train_iteration_other_rank (batch : Batch) (v : Z) (w : World) :
  tqdm (self w) = Some v ->
  rank (config (self w)) <> 0%Z ->
  train_iteration P hooks batch w
  = Returns tt (before_checks hooks batch v w).
Proof.
  intros Hv Hr.
  destruct (before_checks_bookkeeping P hooks hooks_well_behaved batch v w)
    as (_ & _ & Hc1 & _).
  cbv zeta in Hc1.
  rewrite (train_iteration_unfold P hooks hooks_well_behaved batch v w Hv).
  unfold check_interval, bind, gets. rewrite Hc1.
  destruct (Z.eqb_spec (rank (config (self w))) 0); [contradiction|].
  reflexivity.
Qed.

(** ** The loop, counted *)

Lemma train_loop_counts (loader : list Batch) :
  forall (count : Z) (local : option Z) (v : Z) (w : World),
    tqdm (self w) = Some v ->
    let w' := final (train_loop P hooks loader count local w) in
    config (self w') = config (self w)
    /\ exists ev,
         trace w' = trace w ++ ev
         /\ steps (self w')
            = (steps (self w) + Z.of_nat (List.length (train_steps ev)))%Z
         /\ tqdm (self w')
            = Some (v + Z.of_nat (List.length (train_steps ev)))%Z.
Proof.
  induction loader as [|b rest IH]; intros count local v w Hv.
  - cbn. split; [reflexivity|]. exists []. rewrite app_nil_r. cbn.
    rewrite !Z.add_0_r. auto.
  - cbv zeta. rewrite train_loop_cons.
    destruct (train_iteration_counts b v w Hv)
      as (Hs & _ & Hc & Ht & ev & Hev & Hn).
    cbv zeta in Hs, Hc, Ht, Hev.
    assert (Hone : forall w1 : World,
               config (self w1) = config (self w) ->
               trace w1 = trace w ++ Call_train_step b
                                  :: Call_check_train_finish :: ev ->
               steps (self w1) = (steps (self w) + 1)%Z ->
               tqdm (self w1) = Some (v + 1)%Z ->
               config (self w1) = config (self w)
               /\ exists ev0,
                    trace w1 = trace w ++ ev0
                    /\ steps (self w1)
                       = (steps (self w)
                          + Z.of_nat (List.length (train_steps ev0)))%Z
                    /\ tqdm (self w1)
                       = Some (v + Z.of_nat
                                     (List.length (train_steps ev0)))%Z).
    { intros w1 Hc1 Ht1 Hs1 Hq1. split; [exact Hc1|].
      exists (Call_train_step b :: Call_check_train_finish :: ev).
      split; [exact Ht1|].
      cbn [train_steps flat_map app].
      change (flat_map _ ev) with (train_steps ev). rewrite Hn.
      cbn [List.length]. rewrite Hs1, Hq1. auto. }
    destruct (train_iteration P hooks b w) as [[] w1|e w1];
      cbn [final] in *; [|apply Hone; assumption].
    destruct (finish_train (self w1)); [apply Hone; assumption|].
    destruct (IH (count + 1)%Z (Some count) (v + 1)%Z w1 Ht)
      as (Hc2 & ev2 & Hev2 & Hs2 & Ht2).
    cbv zeta in Hc2, Hev2, Hs2, Ht2.
    split; [congruence|].
    exists ((Call_train_step b :: Call_check_train_finish :: ev) ++ ev2).
    rewrite Hev2, Hev, Hs2, Ht2, Hs, <- app_assoc.
    split; [reflexivity|].
    rewrite train_steps_app.
    cbn [train_steps flat_map app].
    change (flat_map _ ev) with (train_steps ev). rewrite Hn.
    cbn [app List.length].
    split; [lia|f_equal; lia].
Qed.

Lemma train_epoch_no_loader (w : World) :
  train_data_loader (self w) = None ->
  _train_epoch P hooks w = Raises (AttributeError "train_data_loader") w.
Proof.
  intros Hl. unfold _train_epoch. unfold bind at 1, attr at 1.
  rewrite Hl. reflexivity.
Qed.

Lemma train_epoch_counts (v : Z) (w : World) :
  tqdm (self w) = Some v ->
  let w' := final (_train_epoch P hooks w) in
  config (self w') = config (self w)
  /\ exists ev,
       trace w' = trace w ++ ev
       /\ steps (self w')
          = (steps (self w) + Z.of_nat (List.length (train_steps ev)))%Z
       /\ tqdm (self w')
          = Some (v + Z.of_nat (List.length (train_steps ev)))%Z.
Proof.
  intros Hv. cbv zeta.
  destruct (train_data_loader (self w)) as [loader|] eqn:Hl.
  - rewrite (train_epoch_unfold P hooks loader w Hl).
    pose proof (train_loop_counts loader 1%Z None v w Hv) as H.
    cbv zeta in H.
    destruct (train_loop P hooks loader 1 None w) as [[|[n|]] w1|e w1];
      cbn [final self disk trace] in *; try exact H;
      unfold set_train_steps_per_epoch, set_epochs;
      cbn [steps tqdm config]; exact H.
  - rewrite (train_epoch_no_loader w Hl). cbn [final].
    split; [reflexivity|]. exists []. rewrite app_nil_r. cbn.
    rewrite !Z.add_0_r. auto.
Qed.

Lemma run_epochs_cons (fuel : nat) (w : World) :
  run_epochs P hooks (S fuel) w =
  match _train_epoch P hooks w with
  | Returns _ w1 =>
      if finish_train (self w1) then Returns true w1
      else run_epochs P hooks fuel w1
  | Raises e w1 => Raises e w1
  end.
Proof.
  cbn [run_epochs]. unfold bind at 1.
  destruct (_train_epoch P hooks w) as [[] w1|e w1]; [|reflexivity].
  unfold bind, gets, ret. destruct (finish_train (self w1)); reflexivity.
Qed.

Lemma run_epochs_counts (fuel : nat) :
  forall (v : Z) (w : World),
    tqdm (self w) = Some v ->
    let w' := final (run_epochs P hooks fuel w) in
    config (self w') = config (self w)
    /\ exists ev,
         trace w' = trace w ++ ev
         /\ steps (self w')
            = (steps (self w) + Z.of_nat (List.length (train_steps ev)))%Z
         /\ tqdm (self w')
            = Some (v + Z.of_nat (List.length (train_steps ev)))%Z.
Proof.
  induction fuel as [|fuel IH]; intros v w Hv.
  - cbn. split; [reflexivity|]. exists []. rewrite app_nil_r. cbn.
    rewrite !Z.add_0_r. auto.
  - cbv zeta. rewrite run_epochs_cons.
    pose proof (train_epoch_counts v w Hv) as H. cbv zeta in H.
    destruct (_train_epoch P hooks w) as [[] w1|e w1];
      cbn [final] in *; [|exact H].
    destruct (finish_train (self w1)); [exact H|].
    destruct H as (Hc & ev & Hev & Hs & Ht).
    destruct (IH _ w1 Ht) as (Hc2 & ev2 & Hev2 & Hs2 & Ht2).
    cbv zeta in Hc2, Hev2, Hs2, Ht2.
    split; [congruence|].
    exists (ev ++ ev2).
    rewrite Hev2, Hev, Hs2, Ht2, Hs, <- app_assoc.
    split; [reflexivity|].
    rewrite train_steps_app, length_app, Nat2Z.inj_add.
    split; [lia|f_equal; lia].
Qed.

Lemma run_unfold (fuel : nat) (w : World) :
  run P hooks fuel w = run_epochs P hooks fuel (with_bar w).
Proof. reflexivity. Qed.

(** X16. Property: [run] creates the progress bar at the current step
    count, and every training step adds one to both: whether [run] breaks
    out of its loop or an exception ends it, [steps] has advanced by the
    number of batches trained on, the progress bar stands at [steps], and
    the configuration is the one [run] started with. *)
Theorem progress_bar_follows_the_step_count (fuel : nat) (w : World) :
  let w' := final (run P hooks fuel w) in
  config (self w') = config (self w)
  /\ tqdm (self w') = Some (steps (self w'))
  /\ exists ev,
       trace w' = trace w ++ ev
       /\ steps (self w')
          = (steps (self w) + Z.of_nat (List.length (train_steps ev)))%Z.
Proof.
  cbv zeta. rewrite run_unfold.
  destruct (run_epochs_counts fuel (steps (self w)) (with_bar w) eq_refl)
    as (Hc & ev & Hev & Hs & Ht).
  cbv zeta in Hc, Hev, Hs, Ht.
  split; [exact Hc|]. split; [rewrite Ht, Hs; reflexivity|].
  exists ev. split; [exact Hev|exact Hs].
Qed.

(** ** What the steps of a run call *)













(** ** Ranks other than 0 *)

Lemma bare_steps_app (a b : list Batch) :
  bare_steps (a ++ b) = bare_steps a ++ bare_steps b.
Proof. apply flat_map_app. Qed.

Lemma train_loop_other_rank (loader : list Batch) :
  forall (count : Z) (local : option Z) (v : Z) (w : World),
    tqdm (self w) = Some v ->
    rank (config (self w)) <> 0%Z ->
    exists out w',
      train_loop P hooks loader count local w = Returns out w'
      /\ disk w' = disk w
      /\ config (self w') = config (self w)
      /\ tqdm (self w') <> None
      /\ exists done, trace w' = trace w ++ bare_steps done.
Proof.
  induction loader as [|b rest IH]; intros count local v w Hv Hr.
  - exists (Exhausted local), w. cbn.
    repeat split; [congruence|]. exists []. cbn. rewrite app_nil_r.
    reflexivity.
  - rewrite train_loop_cons, (train_iteration_other_rank b v w Hv Hr).
    destruct (before_checks_bookkeeping P hooks hooks_well_behaved b v w)
      as (_ & _ & Hc1 & Hq1).
    cbv zeta in Hc1, Hq1.
    destruct (finish_train (self (before_checks hooks b v w))).
    + exists Returned, (before_checks hooks b v w).
      repeat split; [exact Hc1|congruence|].
      exists [b]. unfold before_checks.
      cbn [trace bare_steps flat_map app]. reflexivity.
    + destruct (IH (count + 1)%Z (Some count) (v + 1)%Z
                  (before_checks hooks b v w) Hq1)
        as (out & w' & Hrun & Hd & Hc & Hq & done & Ht);
        [rewrite Hc1; exact Hr|].
      exists out, w'. split; [exact Hrun|].
      split; [rewrite Hd; reflexivity|].
      split; [congruence|]. split; [exact Hq|].
      exists (b :: done). rewrite Ht. unfold before_checks.
      cbn [trace bare_steps flat_map app]. rewrite <- app_assoc.
      reflexivity.
Qed.

Lemma train_epoch_other_rank (v : Z) (w : World) :
  tqdm (self w) = Some v ->
  rank (config (self w)) <> 0%Z ->
  let o := _train_epoch P hooks w in
  disk (final o) = disk w
  /\ config (self (final o)) = config (self w)
  /\ tqdm (self (final o)) <> None
  /\ (exists done, trace (final o) = trace w ++ bare_steps done)
  /\ match o with
     | Returns _ _ => True
     | Raises e _ =>
         e = AttributeError "train_data_loader"
         \/ e = UnboundLocalError "train_steps_per_epoch"
     end.
Proof.
  intros Hv Hr. cbv zeta.
  destruct (train_data_loader (self w)) as [loader|] eqn:Hl.
  - rewrite (train_epoch_unfold P hooks loader w Hl).
    destruct (train_loop_other_rank loader 1%Z None v w Hv Hr)
      as (out & w' & Hrun & Hd & Hc & Hq & Ht).
    rewrite Hrun.
    destruct out as [|[n|]]; cbn [final self disk trace];
      unfold set_train_steps_per_epoch, set_epochs;
      cbn [config tqdm]; repeat split; auto.
  - rewrite (train_epoch_no_loader w Hl). cbn [final].
    repeat split; [congruence| |left; reflexivity].
    exists []. cbn. rewrite app_nil_r. reflexivity.
Qed.

Lemma run_epochs_other_rank (fuel : nat) :
  forall (v : Z) (w : World),
    tqdm (self w) = Some v ->
    rank (config (self w)) <> 0%Z ->
    let o := run_epochs P hooks fuel w in
    disk (final o) = disk w
    /\ (exists batches, trace (final o) = trace w ++ bare_steps batches)
    /\ match o with
       | Returns _ _ => True
       | Raises e _ =>
           e = AttributeError "train_data_loader"
           \/ e = UnboundLocalError "train_steps_per_epoch"
       end.
Proof.
  induction fuel as [|fuel IH]; intros v w Hv Hr; cbv zeta.
  - cbn. repeat split. exists []. cbn. rewrite app_nil_r. reflexivity.
  - rewrite run_epochs_cons.
    destruct (train_epoch_other_rank v w Hv Hr)
      as (Hd & Hc & Hq & (done & Ht) & He).
    cbv zeta in Hd, Hc, Hq, Ht, He.
    destruct (_train_epoch P hooks w) as [[] w1|e w1];
      cbn [final] in *;
      [|split; [exact Hd|split; [exists done; exact Ht|exact He]]].
    destruct (finish_train (self w1));
      [cbn [final]; split; [exact Hd|split; [exists done; exact Ht|exact I]]|].
    destruct (tqdm (self w1)) as [v1|] eqn:Hv1; [|congruence].
    destruct (IH v1 w1 Hv1) as (Hd2 & (more & Ht2) & He2);
      [rewrite Hc; exact Hr|].
    cbv zeta in Hd2, Ht2, He2.
    split; [congruence|]. split; [|exact He2].
    exists (done ++ more). rewrite Ht2, Ht, bare_steps_app, <- app_assoc.
    reflexivity.
Qed.

(** X18. Property: on a rank other than 0 a [run] consists of training
    steps and finish checks only: no logging, evaluation or saving is
    called, the checkpoint directory is left as it was, and the intervals
    are never read, so that a zero interval raises nothing; the only
    exceptions such a run can end with are the [AttributeError] of a
    missing [train_data_loader] and the [UnboundLocalError] of an empty
    one. *)
Theorem other_ranks_only_train (fuel : nat) (w : World) :
  rank (config (self w)) <> 0%Z ->
  let o := run P hooks fuel w in
  disk (final o) = disk w
  /\ (exists batches, trace (final o) = trace w ++ bare_steps batches)
  /\ match o with
     | Returns _ _ => True
     | Raises e _ =>
         e = AttributeError "train_data_loader"
         \/ e = UnboundLocalError "train_steps_per_epoch"
     end.
Proof.
  intros Hr. rewrite run_unfold.
  exact (run_epochs_other_rank fuel (steps (self w)) (with_bar w)
           eq_refl Hr).
Qed.

(** ** A zero interval *)




(** ** What the interval checks keep *)

Section Frame.

Variable R : t Batch Weights -> t Batch Weights -> Prop.
Hypothesis R_refl : forall s, R s s.
Hypothesis R_trans : forall a b c, R a b -> R b c -> R a c.
Hypothesis R_ckpt : forall v s, R s (set_ckpt v s).
Hypothesis R_log : forall s, R s (_check_log_interval hooks s).
Hypothesis R_eval : forall s, R s (_eval_epoch hooks s).

Lemma check_eval_interval_keeps (w : World) :
  R (self w) (self (final (_check_eval_interval P hooks w))).
Proof.
  destruct w as [s d tr].
  cbv [_check_eval_interval py_mod bind ret gets modify observe raise].
  cbn [self disk trace].
  destruct (eval_interval_steps (config s) =? 0)%Z;
    [cbn [final self]; apply R_refl|].
  destruct (steps s mod eval_interval_steps (config s) =? 0)%Z;
    cbn [final self]; [apply R_eval|apply R_refl].
Qed.

Lemma check_save_interval_keeps (w : World) :
  R (self w) (self (final (_check_save_interval P w))).
Proof.
  destruct w as [s d tr].
  cbv [_check_save_interval py_mod bind ret gets modify observe raise].
  cbn [self disk trace].
  destruct (save_interval_steps (config s) =? 0)%Z;
    [cbn [final self]; apply R_refl|].
  destruct (steps s mod save_interval_steps (config s) =? 0)%Z;
    [|cbn [final self]; apply R_refl].
  cbn [self disk trace].
  match goal with
  | |- context [save_checkpoint P ?w0] =>
      destruct (save_checkpoint_final P w0) as (v & Hs & _)
  end.
  rewrite Hs. cbn [self]. apply R_ckpt.
Qed.

Lemma check_interval_keeps (w : World) :
  R (self w) (self (final (check_interval P hooks w))).
Proof.
  unfold check_interval. unfold bind at 1, gets at 1.
  destruct (rank (config (self w)) =? 0)%Z;
    [|cbn [ret final]; apply R_refl].
  unfold bind at 1, observe at 1. unfold bind at 1, modify at 1.
  cbn [self disk trace]. unfold bind at 1.
  match goal with
  | |- context [_check_eval_interval P hooks ?w1] =>
      pose proof (check_eval_interval_keeps w1) as H1;
        destruct (_check_eval_interval P hooks w1) as [[] w2|e w2]
  end; cbn [final self] in H1.
  - apply R_trans with (self w2);
      [apply R_trans with (_check_log_interval hooks (self w));
       [apply R_log|exact H1]|].
    apply check_save_interval_keeps.
  - cbn [final]. apply R_trans with (_check_log_interval hooks (self w));
      [apply R_log|exact H1].
Qed.

End Frame.

Lemma train_iteration_loader_kept (batch : Batch) (v : Z) (w : World) :
  keeps_loader hooks ->
  tqdm (self w) = Some v ->
  train_data_loader (self (final (train_iteration P hooks batch w)))
  = train_data_loader (self w).
Proof.
  intros (Hts & Hev & Hlog & Hfin) Hv.
  rewrite (train_iteration_unfold P hooks hooks_well_behaved batch v w Hv).
  rewrite (check_interval_keeps loader_kept); unfold loader_kept; auto.
  - unfold before_checks. cbn [self]. rewrite Hfin. cbn. apply Hts.
  - intros a b c H1 H2. congruence.
Qed.

Lemma train_iteration_finish_kept (batch : Batch) (v : Z) (w : World) :
  never_unfinish hooks ->
  tqdm (self w) = Some v ->
  finish_train (self (before_checks hooks batch v w)) = true ->
  finish_train (self (final (train_iteration P hooks batch w))) = true.
Proof.
  intros (Hts & Hev & Hlog & Hfin) Hv.
  rewrite (train_iteration_unfold P hooks hooks_well_behaved batch v w Hv).
  apply (check_interval_keeps finish_kept); unfold finish_kept; auto.
Qed.

(** A step that brings [steps] to [train_max_steps] leaves
    [finish_train] set. *)
Lemma train_iteration_sets_finish (batch : Batch) (v : Z) (w : World) :
  never_unfinish hooks ->
  finishes_at_max hooks ->
  tqdm (self w) = Some v ->
  (train_max_steps (config (self w)) <= steps (self w) + 1)%Z ->
  finish_train (self (final (train_iteration P hooks batch w))) = true.
Proof.
  intros Hnu Hmax Hv Hle.
  apply (train_iteration_finish_kept batch v w Hnu Hv).
  destruct hooks_well_behaved as (Hts & _ & _ & _).
  destruct (Hts batch (self w)) as (Hs1 & _ & Hc1 & _).
  unfold before_checks. cbn [self]. apply Hmax. cbn.
  rewrite Hs1, Hc1. exact Hle.
Qed.

(** A step of a trainer that is finished leaves it finished. *)
Lemma train_iteration_stays_finished (batch : Batch) (v : Z)
  (w : World) :
  never_unfinish hooks ->
  tqdm (self w) = Some v ->
  finish_train (self w) = true ->
  finish_train (self (final (train_iteration P hooks batch w))) = true.
Proof.
  intros Hnu Hv Hf.
  apply (train_iteration_finish_kept batch v w Hnu Hv).
  destruct Hnu as (Hts & _ & _ & Hfin).
  unfold before_checks. cbn [self]. apply Hfin. cbn.
  apply Hts. exact Hf.
Qed.

(** ** An epoch outside [run] *)

(** X20. Property: [_train_epoch] relies on what [set_train_data_loader]
    and [run] have stored.  Without a data loader it raises
    [AttributeError] and changes nothing.  Without the progress bar of
    [run] it raises [AttributeError] on [tqdm] only after the first batch
    has been trained on and [steps] incremented, and before the finish
    check.  With an empty loader it increments [epochs] and then raises
    [UnboundLocalError], the loop variable never having been bound. *)
Theorem train_epoch_relies_on_loader_and_progress_bar (w : World) :
  (train_data_loader (self w) = None ->
   _train_epoch P hooks w
   = Raises (AttributeError "train_data_loader") w)
  /\ (forall b rest,
        train_data_loader (self w) = Some (b :: rest) ->
        tqdm (self w) = None ->
        let s1 := _train_step hooks b (self w) in
        _train_epoch P hooks w
        = Raises (AttributeError "tqdm")
            (mk_World (set_steps (steps (self w) + 1)%Z s1) (disk w)
                      (trace w ++ [Call_train_step b])))
  /\ (train_data_loader (self w) = Some [] ->
      _train_epoch P hooks w
      = Raises (UnboundLocalError "train_steps_per_epoch")
          (mk_World (set_epochs (epochs (self w) + 1)%Z (self w))
                    (disk w) (trace w))).
Proof.
  split; [apply train_epoch_no_loader|]. split.
  - intros b rest Hl Hq. cbv zeta.
    rewrite (train_epoch_unfold P hooks (b :: rest) w Hl).
    rewrite train_loop_cons.
    destruct hooks_well_behaved as (Hts & _ & _ & _).
    destruct (Hts b (self w)) as (Hs1 & _ & _ & Ht1).
    unfold train_iteration, tqdm_update.
    cbv [bind ret gets modify observe attr]. cbn [self disk trace].
    change (tqdm (set_steps (steps (_train_step hooks b (self w)) + 1)
                            (_train_step hooks b (self w))))
      with (tqdm (_train_step hooks b (self w))).
    rewrite Ht1, Hq, Hs1. reflexivity.
  - intros Hl. rewrite (train_epoch_unfold P hooks [] w Hl). reflexivity.
Qed.

(** ** How [run] ends *)

Lemma train_epoch_cons (b : Batch) (rest : list Batch) (w : World) :
  train_data_loader (self w) = Some (b :: rest) ->
  _train_epoch P hooks w =
  match train_iteration P hooks b w with
  | Returns _ w1 =>
      if finish_train (self w1) then Returns tt w1
      else match train_loop P hooks rest 2%Z (Some 1%Z) w1 with
           | Returns Returned w2 => Returns tt w2
           | Returns (Exhausted None) w2 =>
               Raises (UnboundLocalError "train_steps_per_epoch")
                 (mk_World (set_epochs (epochs (self w2) + 1)%Z (self w2))
                           (disk w2) (trace w2))
           | Returns (Exhausted (Some n)) w2 =>
               Returns tt
                 (mk_World (set_train_steps_per_epoch (Some n)
                              (set_epochs (epochs (self w2) + 1)%Z
                                          (self w2)))
                           (disk w2) (trace w2))
           | Raises e w2 => Raises e w2
           end
  | Raises e w1 => Raises e w1
  end.
Proof.
  intros Hl. rewrite (train_epoch_unfold P hooks (b :: rest) w Hl).
  rewrite train_loop_cons.
  destruct (train_iteration P hooks b w) as [[] w1|e w1]; [|reflexivity].
  destruct (finish_train (self w1)); reflexivity.
Qed.

(** X21. Property: a trainer whose [finish_train] is already set when
    [run] is called still trains on one batch: the flag is only tested
    after a step.  With hooks that never clear the flag, [run] trains on
    the first batch of the loader and no other, increments [steps] once,
    and, unless that step raises, breaks out of its loop at the first
    test. *)
Theorem finished_trainer_trains_one_more_batch (fuel : nat)
  (b : Batch) (rest : list Batch) (w : World) :
  never_unfinish hooks ->
  finish_train (self w) = true ->
  train_data_loader (self w) = Some (b :: rest) ->
  let o := run P hooks (S fuel) w in
  (exists ev, trace (final o) = trace w ++ ev /\ train_steps ev = [b])
  /\ steps (self (final o)) = (steps (self w) + 1)%Z
  /\ epochs (self (final o)) = epochs (self w)
  /\ match o with
     | Returns r w' => r = true /\ finish_train (self w') = true
     | Raises _ _ => True
     end.
Proof.
  intros Hnu Hf Hl. cbv zeta. rewrite run_unfold, run_epochs_cons.
  rewrite (train_epoch_cons b rest (with_bar w) Hl).
  destruct (train_iteration_counts b (steps (self w)) (with_bar w) eq_refl)
    as (Hs & He & _ & _ & ev & Hev & Hn).
  pose proof (train_iteration_stays_finished b (steps (self w))
                (with_bar w) Hnu eq_refl Hf) as Hfin.
  cbv zeta in Hs, He, Hev.
  assert (Hsteps : train_steps (Call_train_step b
                                  :: Call_check_train_finish :: ev) = [b]).
  { cbn [train_steps flat_map app].
    change (flat_map _ ev) with (train_steps ev). rewrite Hn.
    reflexivity. }
  destruct (train_iteration P hooks b (with_bar w)) as [[] w1|e w1];
    cbn [final] in Hs, He, Hev, Hfin.
  - rewrite Hfin. cbn iota. rewrite Hfin. cbn [final].
    split; [eexists; split; [exact Hev|exact Hsteps]|].
    split; [exact Hs|]. split; [exact He|]. split; [reflexivity|exact Hfin].
  - cbn [final].
    split; [eexists; split; [exact Hev|exact Hsteps]|].
    split; [exact Hs|]. split; [exact He|exact I].
Qed.

Lemma train_loop_exhausted (loader : list Batch) :
  never_unfinish hooks ->
  finishes_at_max hooks ->
  forall (count : Z) (local : option Z) (v : Z) (w w1 : World)
         (l : option Z),
    tqdm (self w) = Some v ->
    loader <> [] ->
    train_loop P hooks loader count local w = Returns (Exhausted l) w1 ->
    l <> None
    /\ (steps (self w) < steps (self w1)
        < train_max_steps (config (self w)))%Z.
Proof.
  intros Hnu Hmax.
  induction loader as [|b rest IH];
    intros count local v w w1 l Hv Hne Hrun; [congruence|].
  rewrite train_loop_cons in Hrun.
  destruct (train_iteration_counts b v w Hv)
    as (Hs & _ & Hc & Hq & _).
  cbv zeta in Hs, Hc, Hq.
  pose proof (train_iteration_sets_finish b v w Hnu Hmax Hv) as Hset.
  destruct (train_iteration P hooks b w) as [[] w2|e w2];
    [|discriminate].
  cbn [final] in Hs, Hc, Hq, Hset.
  destruct (finish_train (self w2)) eqn:Hf; [discriminate|].
  assert (Hlt : (steps (self w) + 1 < train_max_steps (config (self w)))%Z).
  { destruct (Z.le_gt_cases (train_max_steps (config (self w)))
                (steps (self w) + 1)) as [Hle|Hgt]; [|exact Hgt].
    specialize (Hset Hle). congruence. }
  destruct rest as [|b' rest'].
  - cbn in Hrun. injection Hrun as Hl Hw. subst w1 l.
    split; [discriminate|]. lia.
  - destruct (IH (count + 1)%Z (Some count) (v + 1)%Z w2 w1 l Hq
                ltac:(discriminate) Hrun) as (Hl & Hlo & Hhi).
    split; [exact Hl|]. rewrite Hc in Hhi. lia.
Qed.

Lemma train_loop_loader_kept (loader : list Batch) :
  keeps_loader hooks ->
  forall (count : Z) (local : option Z) (v : Z) (w : World),
    tqdm (self w) = Some v ->
    train_data_loader
      (self (final (train_loop P hooks loader count local w)))
    = train_data_loader (self w).
Proof.
  intros Hkl.
  induction loader as [|b rest IH]; intros count local v w Hv;
    [reflexivity|].
  rewrite train_loop_cons.
  pose proof (train_iteration_loader_kept b v w Hkl Hv) as Hk.
  destruct (train_iteration_counts b v w Hv) as (_ & _ & _ & Hq & _).
  cbv zeta in Hq.
  destruct (train_iteration P hooks b w) as [[] w2|e w2];
    cbn [final] in *; [|exact Hk].
  destruct (finish_train (self w2)); [exact Hk|].
  rewrite (IH _ _ _ w2 Hq). exact Hk.
Qed.

(** An epoch over a loader that is not empty: when it returns without
    [finish_train], the counter has advanced and is still below
    [train_max_steps]; and only rank 0 can raise. *)
Lemma train_epoch_progress (b : Batch) (rest : list Batch) (v : Z)
  (w : World) :
  never_unfinish hooks ->
  finishes_at_max hooks ->
  keeps_loader hooks ->
  tqdm (self w) = Some v ->
  train_data_loader (self w) = Some (b :: rest) ->
  match _train_epoch P hooks w with
  | Returns _ w1 =>
      train_data_loader (self w1) = Some (b :: rest)
      /\ config (self w1) = config (self w)
      /\ tqdm (self w1) <> None
      /\ (finish_train (self w1) = false ->
          (steps (self w) < steps (self w1)
           < train_max_steps (config (self w)))%Z)
  | Raises _ _ => rank (config (self w)) = 0%Z
  end.
Proof.
  intros Hnu Hmax Hkl Hv Hl.
  rewrite (train_epoch_unfold P hooks (b :: rest) w Hl).
  pose proof (train_loop_loader_kept (b :: rest) Hkl 1%Z None v w Hv)
    as Hk.
  destruct (train_loop_counts (b :: rest) 1%Z None v w Hv)
    as (Hc & ev & _ & _ & Hq).
  pose proof (train_loop_exhausted (b :: rest) Hnu Hmax 1%Z None v w)
    as Hex.
  cbv zeta in Hc, Hq.
  destruct (train_loop P hooks (b :: rest) 1 None w)
    as [[|l] w1|e w1] eqn:Hrun; cbn [final] in Hk, Hc, Hq.
  - pose proof (train_loop_spec P hooks hooks_well_behaved (b :: rest)
                  1%Z None w ltac:(congruence)) as Hspec.
    cbv zeta in Hspec. rewrite Hrun in Hspec.
    destruct Hspec as (_ & done & rest' & ev' & _ & _ & _ & _ & _ & Hf).
    repeat split; try congruence.
  - destruct (Hex w1 l Hv ltac:(discriminate) eq_refl) as (Hl1 & Hlt).
    destruct l as [n|]; [|congruence].
    cbn [self]. unfold set_train_steps_per_epoch, set_epochs.
    cbn [train_data_loader config tqdm finish_train steps].
    repeat split; try congruence; apply Hlt.
  - destruct (Z.eq_dec (rank (config (self w))) 0) as [Hr|Hr];
      [exact Hr|].
    destruct (train_loop_other_rank (b :: rest) 1%Z None v w Hv Hr)
      as (out & w' & Hrun' & _).
    congruence.
Qed.

Lemma run_epochs_ends (b : Batch) (rest : list Batch) :
  never_unfinish hooks ->
  finishes_at_max hooks ->
  keeps_loader hooks ->
  forall (fuel : nat) (v : Z) (w : World),
    tqdm (self w) = Some v ->
    train_data_loader (self w) = Some (b :: rest) ->
    (Z.to_nat (train_max_steps (config (self w)) - steps (self w))
     < fuel)%nat ->
    match run_epochs P hooks fuel w with
    | Returns r w' => r = true /\ finish_train (self w') = true
    | Raises _ _ => rank (config (self w)) = 0%Z
    end.
Proof.
  intros Hnu Hmax Hkl.
  induction fuel as [|fuel IH]; intros v w Hv Hl Hfuel; [lia|].
  rewrite run_epochs_cons.
  pose proof (train_epoch_progress b rest v w Hnu Hmax Hkl Hv Hl) as Hp.
  destruct (_train_epoch P hooks w) as [[] w1|e w1]; [|exact Hp].
  destruct Hp as (Hl1 & Hc1 & Hq1 & Hlt).
  destruct (finish_train (self w1)) eqn:Hf; [split; [reflexivity|exact Hf]|].
  specialize (Hlt eq_refl).
  destruct (tqdm (self w1)) as [v1|] eqn:Hv1; [|congruence].
  rewrite <- Hc1. apply (IH v1 w1 Hv1 Hl1). rewrite Hc1. lia.
Qed.

(** X22. Property: with a loader that is not empty and hooks that set
    [finish_train] once [steps] has reached [train_max_steps], never
    clear it and leave the loader in place, the loop of [run] is left
    by its [break] after at most [train_max_steps - steps + 1] epochs:
    with that many epochs allowed, [run] never goes on, and what it
    returns to is a trainer with [finish_train] set; on a rank other
    than 0 no exception can end it either, so there it does return. *)
Theorem run_ends_within_the_remaining_steps (fuel : nat) (b : Batch)
  (rest : list Batch) (w : World) :
  never_unfinish hooks ->
  finishes_at_max hooks ->
  keeps_loader hooks ->
  train_data_loader (self w) = Some (b :: rest) ->
  (Z.to_nat (train_max_steps (config (self w)) - steps (self w))
   < fuel)%nat ->
  match run P hooks fuel w with
  | Returns r w' => r = true /\ finish_train (self w') = true
  | Raises _ _ => rank (config (self w)) = 0%Z
  end.
Proof.
  intros Hnu Hmax Hkl Hl Hfuel. rewrite run_unfold.
  exact (run_epochs_ends b rest Hnu Hmax Hkl fuel (steps (self w))
           (with_bar w) eq_refl Hl Hfuel).
Qed.

End TrainerLoop.

(** ** The further statements at concrete inputs *)

Lemma corpus_audio_measurable (t : option Z) (files : list string) :
  measurable corpus_audio_load_fn t files.
Proof.
  destruct t; [|exact I]. intros f _. eexists. reflexivity.
Defined.

Lemma corpus_mel_measurable (t : option Z) (files : list string) :
  measurable corpus_mel_load_fn t files.
Proof.
  destruct t; [|exact I]. intros f _. eexists. reflexivity.
Defined.

(** The threshold 100 on the three audio files leaves two of them. *)
Lemma single_adapters_hold_the_files_above_threshold_witness :
  exists ds,
    AudioDataset.__init__ corpus_find_files "dump" "*-wave.npy"
                          corpus_audio_load_fn (Some 100%Z) false = Ok ds.
Proof.
  apply (proj2 (proj1 single_adapters_hold_the_files_above_threshold
                  corpus_find_files "dump" "*-wave.npy"
                  corpus_audio_load_fn (Some 100%Z) false)).
  - apply corpus_audio_measurable.
  - vm_compute. discriminate.
Defined.

Lemma paired_adapter_holds_the_pairs_above_thresholds_witness :
  exists ds,
    AudioMelDataset.__init__ corpus_find_files "dump" "*-wave.npy"
                             "*-feats.npy" corpus_audio_load_fn
                             corpus_mel_load_fn (Some 100%Z) None true
    = Ok ds.
Proof.
  apply (proj2 (paired_adapter_holds_the_pairs_above_thresholds
                  corpus_find_files "dump" "*-wave.npy" "*-feats.npy"
                  corpus_audio_load_fn corpus_mel_load_fn
                  (Some 100%Z) None true eq_refl)).
  - apply corpus_audio_measurable.
  - exact I.
  - vm_compute. discriminate.
Defined.

(** Two audio files against three mel files: with the audio threshold the
    adapter is built over one pair; without it the assertion fails. *)
Lemma audio_threshold_hides_surplus_mel_files_witness :
  (exists ds,
     AudioMelDataset.__init__ surplus_find_files "dump" "*-wave.npy"
                              "*-feats.npy" corpus_audio_load_fn
                              corpus_mel_load_fn (Some 100%Z) None true
     = Ok ds
     /\ combine (AudioMelDataset.audio_files ds)
                (AudioMelDataset.mel_files ds)
        = [("dump/b-wave.npy", "dump/b-feats.npy")])
  /\ exists msg,
       AudioMelDataset.__init__ surplus_find_files "dump" "*-wave.npy"
                                "*-feats.npy" corpus_audio_load_fn
                                corpus_mel_load_fn None None true
       = Raise (AssertionError msg).
Proof.
  destruct (audio_threshold_hides_surplus_mel_files
              surplus_find_files "dump" "*-wave.npy" "*-feats.npy"
              corpus_audio_load_fn corpus_mel_load_fn 100%Z None true)
    as [(ds & Hinit & Hc & _) Hfail].
  - vm_compute. lia.
  - apply corpus_audio_measurable.
  - exact I.
  - vm_compute. discriminate.
  - split; [|exact Hfail]. exists ds. split; [exact Hinit|exact Hc].
Defined.

(** The second audio file passes the threshold; there is one mel file. *)
Lemma kept_position_beyond_other_list_raises_index_error_witness :
  AudioMelDataset.__init__ lone_mel_find_files "dump" "*-wave.npy"
                           "*-feats.npy" corpus_audio_load_fn
                           corpus_mel_load_fn (Some 100%Z) None true
  = Raise IndexError.
Proof.
  apply (proj1 (kept_position_beyond_other_list_raises_index_error
                  lone_mel_find_files "dump" "*-wave.npy" "*-feats.npy"
                  corpus_audio_load_fn corpus_mel_load_fn 100%Z true
                  1 "dump/b-wave.npy")).
  - apply corpus_audio_measurable.
  - reflexivity.
  - reflexivity.
  - vm_compute. lia.
Defined.

Lemma unmeasurable_file_fails_the_construction_witness :
  AudioDataset.__init__ corpus_find_files "dump" "*-wave.npy"
                        broken_audio_load_fn (Some 100%Z) false
  = Raise (Propagated "ValueError")
  /\ exists ds,
       AudioDataset.__init__ corpus_find_files "dump" "*-wave.npy"
                             broken_audio_load_fn None false = Ok ds
       /\ AudioDataset.audio_files ds
          = ["dump/a-wave.npy"] ++ "dump/b-wave.npy" :: ["dump/c-wave.npy"].
Proof.
  destruct (unmeasurable_file_fails_the_construction
              corpus_find_files "dump" "*-wave.npy" broken_audio_load_fn
              100%Z false ["dump/a-wave.npy"] ["dump/c-wave.npy"]
              "dump/b-wave.npy" (Propagated "ValueError"))
    as (Ha & _ & _ & Hn).
  - reflexivity.
  - intros g [<-|[]]. eexists. reflexivity.
  - reflexivity.
  - split; [exact Ha|exact Hn].
Defined.

(** The audio loader fails at the second position of three. *)
Lemma paired_generator_stops_at_the_first_loader_failure_witness :
  let r := AudioMelDataset.generator broken_paired ["x"; "y"; "z"] in
  List.length (fst r) = 1 /\ snd r = Some (Propagated "ValueError").
Proof.
  cbv zeta.
  destruct (paired_generator_stops_at_the_first_loader_failure
              broken_paired ["x"; "y"; "z"] 1
              "dump/b-wave.npy" "dump/b-feats.npy"
              (Propagated "ValueError"))
    as (Hlen & He & _).
  - cbn. lia.
  - reflexivity.
  - reflexivity.
  - intros [|p] Hp; [|lia]. do 4 eexists.
    repeat split; reflexivity.
  - left. reflexivity.
  - split; [exact Hlen|exact He].
Defined.

(** Four ids against three mel files. *)
Lemma mel_generator_goes_by_position_witness :
  positional (mel_item_at corpus_mel) 3 ["x"; "y"; "z"; "w"]
             (MelDataset.generator corpus_mel ["x"; "y"; "z"; "w"]).
Proof.
  exact (proj1 (mel_generator_goes_by_position corpus_mel
                  ["x"; "y"; "z"; "w"] (corpus_mel_loads _))).
Defined.

Lemma declared_output_types_witness :
  let it := WithId "x" (mk_ndarray [50%Z] [], mk_ndarray [5%Z; 80%Z] []) in
  In it (fst (AudioMelDataset.generator corpus_paired ["x"]))
  /\ (id_of it <> None
      <-> AudioMelDataset.return_utt_id corpus_paired = true).
Proof.
  cbv zeta.
  assert (H : In (WithId "x" (mk_ndarray [50%Z] [],
                              mk_ndarray [5%Z; 80%Z] []))
                 (fst (AudioMelDataset.generator corpus_paired ["x"])))
    by (left; reflexivity).
  split; [exact H|].
  exact (proj2 (proj1 declared_output_types corpus_paired) ["x"] _ H).
Defined.

Lemma utt_id_drops_directory_and_extension_witness :
  utt_id_generic ("dump/raw" ++ String "/" ("utt.1" ++ String "." "wav"))
  = "utt.1".
Proof.
  refine (proj1 (utt_id_drops_directory_and_extension "dump/raw" "tt.1"
                   "wav" "u"%char _ eq_refl eq_refl eq_refl)).
  discriminate.
Defined.

(** The manager asked for when the discriminator's optimizer is the one
    thing not yet set. *)
Lemma create_checkpoint_manager_needs_the_models_witness :
  let w := unprepared_world (Some 0) (Some 1) (Some 2) None in
  GanBasedTrainer.create_checkpoint_manager (directory_store Z) None 10 w
  = GanBasedTrainer.Raises (AttributeError "dis_optimizer") w.
Proof.
  cbv zeta.
  apply (proj2 (proj2 (proj2
           (create_checkpoint_manager_needs_the_models (directory_store Z)
              (unprepared_world (Some 0) (Some 1) (Some 2) None)
              None 10)))).
  - discriminate.
  - discriminate.
  - discriminate.
  - reflexivity.
Defined.

(** A path under which nothing was saved. *)
Lemma failed_load_changes_nothing_witness :
  exists e,
    GanBasedTrainer.load_checkpoint (directory_store Z) "exp/nothing"
                                    (example_world 0)
    = GanBasedTrainer.Raises e (example_world 0).
Proof.
  apply (proj2 (failed_load_changes_nothing (directory_store Z)
                  (example_world 0) "exp/nothing")).
  - discriminate.
  - reflexivity.
Defined.

(** Loading what the example trainer saved at step 98. *)
Lemma load_checkpoint_restores_the_tracked_objects_witness :
  let P := directory_store Z in
  let w1 := final (GanBasedTrainer.save_checkpoint P (example_world 0)) in
  let fresh :=
    @GanBasedTrainer.mk_World nat Z P
      (GanBasedTrainer.set_epochs 0 (GanBasedTrainer.set_steps 0
                                       (example_trainer 0)))
      (GanBasedTrainer.disk w1) [] in
  exists w',
    GanBasedTrainer.load_checkpoint P "exp/checkpoints/ckpt-98" fresh
    = GanBasedTrainer.Returns tt w'
    /\ GanBasedTrainer.steps (GanBasedTrainer.self w') = 98%Z
    /\ GanBasedTrainer.generator (GanBasedTrainer.self w') = Some 0.
Proof.
  cbv zeta.
  destruct (load_checkpoint_restores_the_tracked_objects
              (directory_store Z)
              (@GanBasedTrainer.mk_World nat Z (directory_store Z)
                 (GanBasedTrainer.set_epochs 0
                    (GanBasedTrainer.set_steps 0 (example_trainer 0)))
                 (GanBasedTrainer.disk
                    (final (GanBasedTrainer.save_checkpoint
                              (directory_store Z) (example_world 0))))
                 [])
              "exp/checkpoints/ckpt-98"
              (Checkpoint.mk 1 1 0 1 2 3)
              (Snapshot.mk 98 4 0 0 0 0)%Z eq_refl eq_refl)
    as (w' & Hload & Hs & _ & Hg & _).
  exists w'. split; [exact Hload|]. split; [exact Hs|exact Hg].
Defined.

Lemma example_tracked_distinct :
  NoDup (tracked (Checkpoint.mk 1 1 0 1 2 3)).
Proof.
  repeat constructor; cbn; intuition discriminate.
Defined.

(** Saving, three more training steps on the generator, and loading. *)
Lemma checkpoint_round_trip_restores_the_models_witness :
  let P := directory_store Z in
  let w := example_world 0 in
  let w1 := final (GanBasedTrainer.save_checkpoint_path P w) in
  let w2 :=
    @GanBasedTrainer.mk_World nat Z P
      (GanBasedTrainer._train_step counting_hooks 7
         (GanBasedTrainer.self w1))
      (GanBasedTrainer.disk w1) [] in
  exists w3,
    GanBasedTrainer.load_checkpoint P "exp/checkpoints/ckpt-98" w2
    = GanBasedTrainer.Returns tt w3
    /\ Forall (fun r => GanBasedTrainer.objects (GanBasedTrainer.self w3) r
                        = GanBasedTrainer.objects (GanBasedTrainer.self w) r)
              (tracked (Checkpoint.mk 1 1 0 1 2 3)).
Proof.
  cbv zeta.
  destruct (checkpoint_round_trip_restores_the_models
              (directory_store Z)
              (example_world 0)
              (final (GanBasedTrainer.save_checkpoint_path
                        (directory_store Z) (example_world 0)))
              (@GanBasedTrainer.mk_World nat Z (directory_store Z)
                 (GanBasedTrainer._train_step counting_hooks 7
                    (GanBasedTrainer.self
                       (final (GanBasedTrainer.save_checkpoint_path
                                 (directory_store Z) (example_world 0)))))
                 (GanBasedTrainer.disk
                    (final (GanBasedTrainer.save_checkpoint_path
                              (directory_store Z) (example_world 0))))
                 [])
              "exp/checkpoints/ckpt-98"
              (Checkpoint.mk 1 1 0 1 2 3)
              (Checkpoint.mk 98 4 0 1 2 3)
              (directory_store_round_trip Z)
              eq_refl eq_refl eq_refl eq_refl eq_refl
              example_tracked_distinct)
    as (w3 & Hload & Hobj & _).
  exists w3. split; [exact Hload|exact Hobj].
Defined.

Lemma counting_hooks_never_unfinish : never_unfinish counting_hooks.
Proof.
  repeat split; intros; try assumption;
    unfold keeps_finished; cbn; intros;
    try (destruct (_ <=? _)%Z; [reflexivity|assumption]); assumption.
Defined.

Lemma counting_hooks_finishes_at_max : finishes_at_max counting_hooks.
Proof.
  intros s Hle. cbn.
  destruct (Z.leb_spec (train_max_steps (GanBasedTrainer.config s))
              (GanBasedTrainer.steps s)); [reflexivity|lia].
Defined.

Lemma counting_hooks_keeps_loader : keeps_loader counting_hooks.
Proof.
  repeat split; intros; cbn;
    try (destruct (_ <=? _)%Z; reflexivity); reflexivity.
Defined.

(** Three epochs allowed from step 98 of 100: two batches are trained
    on. *)
Lemma progress_bar_follows_the_step_count_witness :
  let w' := final (GanBasedTrainer.run (directory_store Z) counting_hooks
                     3 (example_world 0)) in
  GanBasedTrainer.tqdm (GanBasedTrainer.self w')
  = Some (GanBasedTrainer.steps (GanBasedTrainer.self w'))
  /\ GanBasedTrainer.steps (GanBasedTrainer.self w') = 100%Z.
Proof.
  cbv zeta. split; [|reflexivity].
  exact (proj1 (proj2 (progress_bar_follows_the_step_count
                         (directory_store Z) counting_hooks
                         counting_hooks_well_behaved 3 (example_world 0)))).
Defined.


Lemma other_ranks_only_train_witness :
  GanBasedTrainer.disk
    (final (GanBasedTrainer.run (directory_store Z) counting_hooks 3
              (example_world 1)))
  = []
  /\ exists batches,
       GanBasedTrainer.trace
         (final (GanBasedTrainer.run (directory_store Z) counting_hooks 3
                   (example_world 1)))
       = [] ++ bare_steps batches.
Proof.
  destruct (other_ranks_only_train (directory_store Z) counting_hooks
              counting_hooks_well_behaved 3 (example_world 1))
    as (Hd & Ht & _).
  - discriminate.
  - split; [exact Hd|exact Ht].
Defined.


(** An epoch of the example trainer without the progress bar of [run]. *)
Lemma train_epoch_relies_on_loader_and_progress_bar_witness :
  let w := @GanBasedTrainer.mk_World nat Z (directory_store Z)
             (GanBasedTrainer.set_tqdm None (example_trainer 0)) [] [] in
  exists w',
    GanBasedTrainer._train_epoch (directory_store Z) counting_hooks w
    = GanBasedTrainer.Raises (AttributeError "tqdm") w'
    /\ GanBasedTrainer.steps (GanBasedTrainer.self w') = 99%Z.
Proof.
  cbv zeta. eexists. split.
  - apply (proj1 (proj2 (train_epoch_relies_on_loader_and_progress_bar
                           (directory_store Z) counting_hooks
                           counting_hooks_well_behaved
                           (@GanBasedTrainer.mk_World nat Z
                              (directory_store Z)
                              (GanBasedTrainer.set_tqdm None
                                 (example_trainer 0)) [] []))) 7
                  [8; 9]).
    + reflexivity.
    + reflexivity.
  - reflexivity.
Defined.

Lemma finished_trainer_trains_one_more_batch_witness :
  let o := GanBasedTrainer.run (directory_store Z) counting_hooks 3
             finished_world in
  (exists ev, GanBasedTrainer.trace (final o) = [] ++ ev
              /\ train_steps ev = [7])
  /\ GanBasedTrainer.steps (GanBasedTrainer.self (final o)) = (100 + 1)%Z.
Proof.
  cbv zeta.
  destruct (finished_trainer_trains_one_more_batch
              (directory_store Z) counting_hooks
              counting_hooks_well_behaved 2 7 [8; 9] finished_world
              counting_hooks_never_unfinish eq_refl eq_refl)
    as (Hev & Hs & _).
  split; [exact Hev|exact Hs].
Defined.

(** From step 98 of 100 on rank 1, three epochs are enough. *)
Lemma run_ends_within_the_remaining_steps_witness :
  match GanBasedTrainer.run (directory_store Z) counting_hooks 3
          (example_world 1) with
  | GanBasedTrainer.Returns r w' =>
      r = true
      /\ GanBasedTrainer.finish_train (GanBasedTrainer.self w') = true
  | GanBasedTrainer.Raises _ _ =>
      rank (GanBasedTrainer.config
              (GanBasedTrainer.self (example_world 1))) = 0%Z
  end.
Proof.
  apply (run_ends_within_the_remaining_steps
           (directory_store Z) counting_hooks counting_hooks_well_behaved
           3 7 [8; 9] (example_world 1)
           counting_hooks_never_unfinish counting_hooks_finishes_at_max
           counting_hooks_keeps_loader eq_refl).
  vm_compute. lia.
Defined.
